(** * Offline-first job catalogue: the persistent store, the remote client
      and the synchronisation context of the jobs app

    The development follows the TypeScript sources:
    - [services/api.ts]      : the [Job] record and the remote catalogue client;
    - [services/database.ts] : the SQLite [jobs] table and the last-sync slot;
    - [contexts/JobsContext] : the React provider that merges both behind
      [refreshFromApi] and [getJobById].

    Asynchronous functions are written in state-passing style; a function
    that suspends at an [await] is cut into the synchronous segments that
    run between two suspensions, so that interleavings can be replayed. *)

From Stdlib Require Import ZArith Ascii String List Permutation.
From Stdlib Require Import DecimalString DecimalZ DecimalPos Decimal.
From stdpp Require Import base option list sorting gmap strings fin_maps.

Local Open Scope string_scope.
Local Open Scope list_scope.
Local Open Scope Z_scope.
#[local] Set Warnings "-register-all".

(** ** JavaScript values the code relies on *)

(** The settlement of a promise: [await] either yields a value or raises. *)
Inductive Settled (A : Type) : Type :=
  | Resolved (a : A)
  | Rejected (message : string).
Arguments Resolved {A} a.
Arguments Rejected {A} message.

(** Truthiness of an optional string: [undefined] and [''] are falsy. *)
Definition truthy_text (o : option string) : bool :=
  match o with
  | Some s => negb (String.eqb s "")
  | None => false
  end.

(** [x || ''] on an optional string. *)
Definition or_empty (o : option string) : string :=
  if truthy_text o then default "" o else "".

(** JavaScript numbers, as far as the code needs them: an integer or [NaN]. *)
Inductive jsnum :=
  | NaN
  | Num (z : Z).

(** [n.toString()] for an integer: decimal digits, [-] for a negative one. *)
Definition toString (z : Z) : string :=
  NilZero.string_of_int (Z.to_int z).

(** [parseInt(s, 10)]: leading white space is skipped, a sign is accepted,
    the longest run of decimal digits is read and what follows is ignored;
    no digit at all gives [NaN].

    A text is the sequence of its UTF-8 bytes.  What is skipped is the
    WhiteSpace and LineTerminator of ECMAScript: the six ASCII characters
    (tab, line feed, vertical tab, form feed, carriage return, space), the
    no-break space U+00A0 (bytes 194 160), U+1680 (225 154 128), U+2000 to
    U+200A (226 128 128..138), the separators U+2028 and U+2029
    (226 128 168..169), U+202F (226 128 175), U+205F (226 129 159),
    U+3000 (227 128 128) and the byte order mark U+FEFF (239 187 191). *)
Definition isWhiteSpace (c : ascii) : bool :=
  match c with
  | " " | "009" | "010" | "011" | "012" | "013" => true
  | _ => false
  end%char.

Definition isWhiteSpace2 (a b : ascii) : bool :=
  (Ascii.eqb a "194" && Ascii.eqb b "160")%char%bool.

Definition isWhiteSpace3 (a b c : ascii) : bool :=
  let n := nat_of_ascii c in
  (if Ascii.eqb a "225" then Ascii.eqb b "154" && Ascii.eqb c "128"
   else if Ascii.eqb a "226" then
     (Ascii.eqb b "128"
      && ((Nat.leb 128 n && Nat.leb n 138)
          || Nat.eqb n 168 || Nat.eqb n 169 || Nat.eqb n 175))
     || (Ascii.eqb b "129" && Ascii.eqb c "159")
   else if Ascii.eqb a "227" then Ascii.eqb b "128" && Ascii.eqb c "128"
   else if Ascii.eqb a "239" then Ascii.eqb b "187" && Ascii.eqb c "191"
   else false)%char%bool.

Fixpoint trimStart (s : string) : string :=
  match s with
  | String a s1 =>
      if isWhiteSpace a then trimStart s1
      else
        match s1 with
        | String b s2 =>
            if isWhiteSpace2 a b then trimStart s2
            else
              match s2 with
              | String c s3 => if isWhiteSpace3 a b c then trimStart s3 else s
              | EmptyString => s
              end
        | EmptyString => s
        end
  | EmptyString => s
  end.

Definition digit (c : ascii) : option (uint -> uint) :=
  match c with
  | "0" => Some D0 | "1" => Some D1 | "2" => Some D2 | "3" => Some D3
  | "4" => Some D4 | "5" => Some D5 | "6" => Some D6 | "7" => Some D7
  | "8" => Some D8 | "9" => Some D9
  | _ => None
  end%char.

Fixpoint digits (s : string) : uint :=
  match s with
  | String c r =>
      match digit c with
      | Some d => d (digits r)
      | None => Nil
      end
  | EmptyString => Nil
  end.

Definition signOf (t : string) : bool * string :=
  match t with
  | String "-" r => (true, r)
  | String "+" r => (false, r)
  | _ => (false, t)
  end.

Definition magnitude (negative : bool) (u : uint) : jsnum :=
  match u with
  | Nil => NaN
  | _ => Num (Z.of_int (if negative then Neg u else Pos u))
  end.

Definition parseInt (s : string) : jsnum :=
  let '(negative, body) := signOf (trimStart s) in
  magnitude negative (digits body).

(** [!n] for a number: [0] and [NaN] are falsy. *)
Definition falsy_num (n : jsnum) : bool :=
  match n with
  | NaN => true
  | Num z => z =? 0
  end.

(** ** The data model of [services/api.ts] *)

Record Salary := {
  min : option Z;
  max : option Z;
  currency : option string;
  period : option string
}.

(** [Salary | string] *)
Inductive SalaryField :=
  | SalaryText (s : string)
  | SalaryObj (o : Salary).

(** [string[] | string] *)
Inductive TextOrList :=
  | Text (s : string)
  | Items (l : list string).

(** [string | Date]; a [Date] is kept by its epoch milliseconds. *)
Inductive DateField :=
  | DateText (s : string)
  | DateObj (ms : Z).

(** [interface Job].  An optional member is an [option]; [companyLogo] may
    moreover be [null], the inner [None]. *)
Record Job := {
  id : string;
  _id : option string;
  title : string;
  company : string;
  companyLogo : option (option string);
  location : string;
  type : string;
  salary : SalaryField;
  workplace : option string;
  description : option string;
  requirements : option TextOrList;
  benefits : option TextOrList;
  postedDate : DateField;
  featured : option bool;
  category : option string
}.

(** The completeness test used throughout the context:
    [existingJob.description] in a boolean position. *)
Definition detailed (j : Job) : bool := truthy_text (description j).

(** [job.featured ? 1 : 0] and [existingJob && existingJob.description]. *)
Definition truthy_flag (o : option bool) : bool := default false o.

Definition detailed_entry (o : option Job) : bool :=
  match o with
  | Some j => detailed j
  | None => false
  end.

(** ** The remote catalogue client of [services/api.ts] *)

Module Api.

(** A parsed JSON document.  Members are kept in document order. *)
Inductive json :=
  | JNull
  | JBool (b : bool)
  | JNumber (z : Z)
  | JString (s : string)
  | JArray (l : list json)
  | JObject (members : list (string * json)).

(** A JavaScript value read from a document: [None] is [undefined]. *)
Definition truthy (v : option json) : bool :=
  match v with
  | None | Some JNull => false
  | Some (JBool b) => b
  | Some (JNumber z) => negb (z =? 0)
  | Some (JString s) => negb (String.eqb s "")
  | Some (JArray _) | Some (JObject _) => true
  end.

(** The value a key has in an object literal: the last occurrence wins. *)
Fixpoint lookupMember (key : string) (members : list (string * json)) : option json :=
  match members with
  | [] => None
  | (k, v) :: rest =>
      match lookupMember key rest with
      | Some w => Some w
      | None => if String.eqb k key then Some v else None
      end
  end.

(** [value.key] for the keys the client reads ([job], [jobs], [title],
    [company], [_id], [id]): a [TypeError] on [null], [undefined] on every
    other value that is not an object. *)
Definition member (key : string) (value : json) : Settled (option json) :=
  match value with
  | JNull => Rejected "TypeError: cannot read properties of null"
  | JObject members => Resolved (lookupMember key members)
  | _ => Resolved None
  end.

(** [{ ...obj, key: v }]: an existing key keeps its place. *)
Fixpoint setMember (key : string) (v : json) (members : list (string * json))
  : list (string * json) :=
  match members with
  | [] => [(key, v)]
  | (k, w) :: rest =>
      if String.eqb k key then (k, v) :: rest
      else (k, w) :: setMember key v rest
  end.

(** One request as the client observes it: [fetch] rejects, or a response
    arrives with a status and a body that [response.json()] parses
    ([Some]) or rejects ([None]). *)
Inductive Exchange :=
  | NetworkFailure (message : string)
  | Response (status : Z) (body : option json).

(** [response.ok] *)
Definition ok (status : Z) : bool := (200 <=? status) && (status <=? 299).

Record Category := {
  cat_id : string;
  name : string;
  slug : string;
  count : option Z
}.

(** The static list of [getCategories]. *)
Definition getCategories : list Category := [
  {| cat_id := "1"; name := "Software Development"; slug := "software-development"; count := Some 42 |};
  {| cat_id := "2"; name := "Design"; slug := "design"; count := Some 36 |};
  {| cat_id := "3"; name := "Marketing"; slug := "marketing"; count := Some 29 |};
  {| cat_id := "4"; name := "Sales"; slug := "sales"; count := Some 25 |};
  {| cat_id := "5"; name := "Customer Service"; slug := "customer-service"; count := Some 18 |};
  {| cat_id := "6"; name := "Finance"; slug := "finance"; count := Some 15 |};
  {| cat_id := "7"; name := "Healthcare"; slug := "healthcare"; count := Some 12 |};
  {| cat_id := "8"; name := "Education"; slug := "education"; count := Some 10 |};
  {| cat_id := "9"; name := "Engineering"; slug := "engineering"; count := Some 8 |}
].

(** What [fetchJobById] resolves with: the object the server sent, its [id]
    member set, or the built-in mock record. *)
Inductive Payload :=
  | Served (members : list (string * json))
  | Mocked (j : Job).

Definition newline : string := String "010"%char "".

Definition getMockJobById (now : Z) (k : string) : Job := {|
  id := k;
  _id := None;
  title := "Senior React Native Developer";
  company := "Tech Innovations Inc";
  companyLogo := Some (Some "https://placehold.co/200x200/4F46E5/FFFFFF?text=TI");
  location := "San Francisco, CA";
  type := "Full-time";
  salary := SalaryObj {| min := Some 120000; max := Some 150000;
                         currency := Some "$"; period := Some "year" |};
  workplace := Some "Remote";
  description := Some
    ("We are seeking an experienced React Native developer to join our mobile development team. The ideal candidate will have a strong background in building cross-platform mobile applications with React Native, a solid understanding of native mobile platforms, and experience with state management solutions."
     +:+ newline +:+ newline +:+
     "You will work closely with designers, product managers, and other engineers to develop new features, improve performance, and ensure the quality of our mobile applications.");
  requirements := Some (Items [
    "At least 4 years of experience with React Native development";
    "Strong understanding of JavaScript, TypeScript, and React Native best practices";
    "Experience with state management solutions (Redux, Context API, MobX)";
    "Familiarity with native build tools (Xcode, Android Studio)";
    "Knowledge of RESTful APIs and GraphQL";
    "Bachelor's degree in Computer Science or related field (or equivalent experience)" ]);
  benefits := Some (Items [
    "Competitive salary and equity package";
    "Health, dental, and vision insurance";
    "Flexible work schedule and remote work options";
    "Generous PTO policy";
    "401(k) matching";
    "Professional development budget";
    "Wellness program" ]);
  postedDate := DateObj (now - 5 * 86400000);
  featured := Some true;
  category := Some "software-development"
|}.

(** [jobData._id || jobData.id || id] *)
Definition chooseId (members : list (string * json)) (k : string) : json :=
  if truthy (lookupMember "_id" members) then default JNull (lookupMember "_id" members)
  else if truthy (lookupMember "id" members) then default JNull (lookupMember "id" members)
  else JString k.

(** The checks run on [jobData]; [None] stands for every path that ends
    in [getMockJobById]. *)
Definition acceptJobData (k : string) (jobData : json) : option Payload :=
  match jobData with
  | JObject members =>
      if truthy (lookupMember "title" members)
         && truthy (lookupMember "company" members)
      then Some (Served (setMember "id" (chooseId members k) members))
      else None
  | _ => None
  end.

(** [fetchJobById]: every branch of the [try], and the [catch], returns. *)
Definition fetchJobById (now : Z) (k : string) (x : Exchange) : Settled Payload :=
  let mock := Resolved (Mocked (getMockJobById now k)) in
  match x with
  | NetworkFailure _ => mock
  | Response status body =>
      if negb (ok status) then mock
      else
        match body with
        | None => mock
        | Some data =>
            match member "job" data with
            | Rejected _ => mock
            | Resolved job =>
                let jobData := if truthy job then default JNull job else data in
                match acceptJobData k jobData with
                | Some payload => Resolved payload
                | None => mock
                end
            end
        end
  end.

(** [fetchJobs]: a failed exchange is thrown, the parsed document is
    returned as it is once [data.jobs.length] could be read. *)
Definition fetchJobs (x : Exchange) : Settled json :=
  match x with
  | NetworkFailure message => Rejected message
  | Response status body =>
      if negb (ok status)
      then Rejected ("HTTP error! status: " +:+ toString status)
      else
        match body with
        | None => Rejected "SyntaxError: the body is not JSON"
        | Some data =>
            match member "jobs" data with
            | Rejected e => Rejected e
            | Resolved (None) | Resolved (Some JNull) =>
                Rejected "TypeError: cannot read properties of undefined (reading 'length')"
            | Resolved (Some _) => Resolved data
            end
        end
  end.

End Api.

(** ** Platform functions the sources call but do not define *)

(** A bind parameter that is not a primitive: a JavaScript array or [Date]. *)
Inductive NonPrimitive :=
  | NPList (l : list string)
  | NPDate (ms : Z).

(** What the JavaScript runtime and the SQLite driver contribute.
    - [JSON_stringify] serialises a structured salary;
    - [JSON_parse] is [JSON.parse] restricted to the values a salary may
      take, [None] when it raises [SyntaxError];
    - [driverBind] is the driver's treatment of a non-primitive bind
      parameter: [Some s] when it is coerced to the text [s], [None] when
      the statement is refused. *)
Record Platform := {
  JSON_stringify : Salary -> string;
  JSON_parse : string -> option SalaryField;
  driverBind : NonPrimitive -> option string
}.

(** ** [services/database.ts] *)

Module Database.

Definition LAST_SYNC_KEY : string := "jobs_last_sync".

(** [60 * 60 * 1000] *)
Definition STALE_DATA_THRESHOLD : Z := 60 * 60 * 1000.

(** One row of the [jobs] table, with the types the reads declare. *)
Record Row := {
  row_id : string;
  row_title : string;
  row_company : string;
  row_location : string;
  row_type : string;
  row_category : string;
  row_description : string;
  row_requirements : string;
  row_salary : string;
  row_posted_date : string;
  row_featured : Z;
  row_created_at : string;
  row_updated_at : string
}.

(** The table, keyed by its primary key. *)
Abbreviation Table := (gmap string Row).

(** A connection: the committed table and, inside a transaction, the
    working copy that [COMMIT] publishes and [ROLLBACK] discards. *)
Record Connection := {
  committed : Table;
  journal : option Table
}.

Definition openDatabase (t : Table) : Connection :=
  {| committed := t; journal := None |}.

Definition visible (c : Connection) : Table :=
  default (committed c) (journal c).

Definition BEGIN_TRANSACTION (c : Connection) : Connection :=
  {| committed := committed c; journal := Some (visible c) |}.

Definition COMMIT (c : Connection) : Connection :=
  {| committed := visible c; journal := None |}.

Definition ROLLBACK (c : Connection) : Connection :=
  {| committed := committed c; journal := None |}.

(** [INSERT OR REPLACE] of one row on the connection. *)
Definition insertOrReplace (r : Row) (c : Connection) : Connection :=
  match journal c with
  | Some w => {| committed := committed c; journal := Some (<[row_id r := r]> w) |}
  | None => {| committed := <[row_id r := r]> (committed c); journal := None |}
  end.

Section WithPlatform.
Variable P : Platform.

(** Binding a value to a [TEXT] parameter. *)
Definition bindRequirements (j : Job) : Settled string :=
  match requirements j with
  | None => Resolved ""
  | Some (Text s) => Resolved (or_empty (Some s))
  | Some (Items l) =>
      match driverBind P (NPList l) with
      | Some s => Resolved s
      | None => Rejected "unsupported bind parameter: requirements"
      end
  end.

Definition bindPostedDate (j : Job) : Settled string :=
  match postedDate j with
  | DateText s => Resolved s
  | DateObj ms =>
      match driverBind P (NPDate ms) with
      | Some s => Resolved s
      | None => Rejected "unsupported bind parameter: posted_date"
      end
  end.

(** [typeof job.salary === 'string' ? job.salary : JSON.stringify(job.salary)] *)
Definition bindSalary (j : Job) : string :=
  match salary j with
  | SalaryText s => s
  | SalaryObj o => JSON_stringify P o
  end.

(** The thirteen values of the [INSERT] statement of [saveJobs]: they
    are bound first, then the row is checked against the [NOT NULL]
    columns, and the only member of [Job] that can reach such a column as
    [NULL] is the optional [category]. *)
Definition rowOfJob (stamp : string) (j : Job) : Settled Row :=
  match bindRequirements j, bindPostedDate j with
  | Resolved req, Resolved posted =>
      match category j with
      | None => Rejected "NOT NULL constraint failed: jobs.category"
      | Some cat =>
          Resolved {|
            row_id := id j;
            row_title := title j;
            row_company := company j;
            row_location := location j;
            row_type := type j;
            row_category := cat;
            row_description := or_empty (description j);
            row_requirements := req;
            row_salary := bindSalary j;
            row_posted_date := posted;
            row_featured := if truthy_flag (featured j) then 1 else 0;
            row_created_at := stamp;
            row_updated_at := stamp
          |}
      end
  | Rejected e, _ => Rejected e
  | _, Rejected e => Rejected e
  end.

(** The [for (const job of jobs)] loop: the first failing statement
    stops it and leaves the connection as it is at that point. *)
Fixpoint runInserts (stamp : string) (jobs : list Job) (c : Connection)
  : Connection * Settled unit :=
  match jobs with
  | [] => (c, Resolved tt)
  | j :: rest =>
      match rowOfJob stamp j with
      | Resolved r => runInserts stamp rest (insertOrReplace r c)
      | Rejected e => (c, Rejected e)
      end
  end.

(** [saveJobs]: nothing for an empty batch; otherwise one transaction,
    committed when every statement passed and rolled back, with the
    error rethrown, when one failed. *)
Definition saveJobs (stamp : string) (jobs : list Job) (t : Table)
  : Table * Settled unit :=
  match jobs with
  | [] => (t, Resolved tt)
  | _ =>
      let db := BEGIN_TRANSACTION (openDatabase t) in
      match runInserts stamp jobs db with
      | (db', Resolved _) => (committed (COMMIT db'), Resolved tt)
      | (db', Rejected e) => (committed (ROLLBACK db'), Rejected e)
      end
  end.

(** [tryParseJSON(row.salary) || row.salary] *)
Definition tryParseJSON (jsonString : string) : option SalaryField :=
  JSON_parse P jsonString.

Definition truthy_salary (v : SalaryField) : bool :=
  match v with
  | SalaryText s => negb (String.eqb s "")
  | SalaryObj _ => true
  end.

Definition readSalary (raw : string) : SalaryField :=
  match tryParseJSON raw with
  | Some v => if truthy_salary v then v else SalaryText raw
  | None => SalaryText raw
  end.

(** The object literal both reads build from a row. *)
Definition jobOfRow (row : Row) : Job := {|
  id := row_id row;
  _id := None;
  title := row_title row;
  company := row_company row;
  companyLogo := None;
  location := row_location row;
  type := row_type row;
  salary := readSalary (row_salary row);
  workplace := None;
  description := Some (row_description row);
  requirements := Some (Text (row_requirements row));
  benefits := None;
  postedDate := DateText (row_posted_date row);
  featured := Some (row_featured row =? 1);
  category := Some (row_category row)
|}.

(** [ORDER BY featured DESC, posted_date DESC]: text compares bytewise. *)
Definition orderedBefore (a b : Row) : bool :=
  (row_featured b <? row_featured a)
  || ((row_featured a =? row_featured b)
      && String.leb (row_posted_date b) (row_posted_date a)).

Definition OrderBy (a b : Row) : Prop := orderedBefore a b = true.

#[export] Instance OrderBy_dec a b : Decision (OrderBy a b).
Proof. unfold OrderBy. apply _. Defined.

Definition selectAll (t : Table) : list Row :=
  merge_sort OrderBy (snd <$> map_to_list t).

Definition getJobs (t : Table) : list Job := jobOfRow <$> selectAll t.

(** [SELECT * FROM jobs WHERE id = ?]; [null] for a missing row. *)
Definition getJobById (k : string) (t : Table) : option Job :=
  jobOfRow <$> t !! k.

End WithPlatform.

(** *** The last-sync slot in [AsyncStorage] *)

(** The key-value storage: its items, and whether its calls currently
    succeed (a failing call raises, and both callers below catch it). *)
Record AsyncStorage := {
  items : gmap string string;
  available : bool
}.

Definition getItem (key : string) (a : AsyncStorage) : Settled (option string) :=
  if available a then Resolved (items a !! key)
  else Rejected "AsyncStorage failure".

Definition setItem (key value : string) (a : AsyncStorage)
  : AsyncStorage * Settled unit :=
  if available a
  then ({| items := <[key := value]> (items a); available := true |}, Resolved tt)
  else (a, Rejected "AsyncStorage failure").

(** [lastSync ? parseInt(lastSync, 10) : null], [null] in the [catch]. *)
Definition getLastSyncTime (a : AsyncStorage) : option jsnum :=
  match getItem LAST_SYNC_KEY a with
  | Resolved lastSync =>
      if truthy_text lastSync then Some (parseInt (default "" lastSync)) else None
  | Rejected _ => None
  end.

(** [AsyncStorage.setItem(LAST_SYNC_KEY, Date.now().toString())]; a failure
    is logged and swallowed. *)
Definition updateLastSyncTime (now : Z) (a : AsyncStorage) : AsyncStorage :=
  fst (setItem LAST_SYNC_KEY (toString now) a).

(** [isDataStale], evaluated when the clock reads [now]. *)
Definition isDataStale (now : Z) (a : AsyncStorage) : bool :=
  match getLastSyncTime a with
  | None => true
  | Some lastSync =>
      if falsy_num lastSync then true
      else
        match lastSync with
        | Num t => STALE_DATA_THRESHOLD <? now - t
        | NaN => true
        end
  end.

(** [DELETE FROM jobs] *)
Definition clearDatabase (t : Table) : Table := ∅.

(** *** The schema-version marker and [initDatabase] *)

Definition DB_VERSION_KEY : string := "jobs_db_version".

Definition CURRENT_DB_VERSION : string := "1".

(** [checkDatabaseVersion]: when the stored marker is not the current
    version, [updateDatabaseSchema] runs (it only logs) and the marker is
    rewritten; an error of the storage is rethrown. *)
Definition checkDatabaseVersion (a : AsyncStorage) : AsyncStorage * Settled unit :=
  match getItem DB_VERSION_KEY a with
  | Rejected e => (a, Rejected e)
  | Resolved storedVersion =>
      if decide (storedVersion = Some CURRENT_DB_VERSION)
      then (a, Resolved tt)
      else setItem DB_VERSION_KEY CURRENT_DB_VERSION a
  end.

(** [initDatabase] on a database file that has the [jobs] table ([Some])
    or not yet ([None]).  [driver] is how the awaited calls of the driver
    settle as a whole: [openDatabaseAsync], the [PRAGMA] and
    [CREATE TABLE IF NOT EXISTS].  When one of them throws, the [catch]
    rethrows and the version check is not reached; otherwise the table
    exists from then on and the outcome is that of the version check. *)
Definition initDatabase (driver : Settled unit) (file : option Table)
  (a : AsyncStorage) : option Table * AsyncStorage * Settled unit :=
  match driver with
  | Rejected e => (file, a, Rejected e)
  | Resolved _ =>
      let '(a', outcome) := checkDatabaseVersion a in
      (Some (default ∅ file), a', outcome)
  end.

End Database.

(** ** [contexts/JobsContext.tsx]: the provider backed by the database *)

Module JobsContext.

(** A call of the remote catalogue client. *)
Inductive Request :=
  | FetchAll
  | FetchOne (k : string).

(** The [useState] cells that [refreshFromApi] and [getJobById] read or
    write, the device state behind [Database], and the requests sent so
    far, oldest first.  A pending promise of [pendingFetches] is named by
    the position of the request it wraps. *)
Record State := {
  jobs : list Job;
  categories : list Api.Category;
  jobsCache : gmap string Job;
  pendingFetches : gmap string nat;
  isLoading : bool;
  isRefreshing : bool;
  error : option string;
  isOffline : bool;
  table : Database.Table;
  storage : Database.AsyncStorage;
  requests : list Request
}.

Definition setJobs (v : list Job) (σ : State) : State :=
  {| jobs := v; categories := categories σ; jobsCache := jobsCache σ;
     pendingFetches := pendingFetches σ; isLoading := isLoading σ;
     isRefreshing := isRefreshing σ; error := error σ;
     isOffline := isOffline σ; table := table σ; storage := storage σ;
     requests := requests σ |}.

Definition setCategories (v : list Api.Category) (σ : State) : State :=
  {| jobs := jobs σ; categories := v; jobsCache := jobsCache σ;
     pendingFetches := pendingFetches σ; isLoading := isLoading σ;
     isRefreshing := isRefreshing σ; error := error σ;
     isOffline := isOffline σ; table := table σ; storage := storage σ;
     requests := requests σ |}.

Definition setJobsCache (v : gmap string Job) (σ : State) : State :=
  {| jobs := jobs σ; categories := categories σ; jobsCache := v;
     pendingFetches := pendingFetches σ; isLoading := isLoading σ;
     isRefreshing := isRefreshing σ; error := error σ;
     isOffline := isOffline σ; table := table σ; storage := storage σ;
     requests := requests σ |}.

Definition setPendingFetches (v : gmap string nat) (σ : State) : State :=
  {| jobs := jobs σ; categories := categories σ; jobsCache := jobsCache σ;
     pendingFetches := v; isLoading := isLoading σ;
     isRefreshing := isRefreshing σ; error := error σ;
     isOffline := isOffline σ; table := table σ; storage := storage σ;
     requests := requests σ |}.

Definition setIsLoading (v : bool) (σ : State) : State :=
  {| jobs := jobs σ; categories := categories σ; jobsCache := jobsCache σ;
     pendingFetches := pendingFetches σ; isLoading := v;
     isRefreshing := isRefreshing σ; error := error σ;
     isOffline := isOffline σ; table := table σ; storage := storage σ;
     requests := requests σ |}.

Definition setIsRefreshing (v : bool) (σ : State) : State :=
  {| jobs := jobs σ; categories := categories σ; jobsCache := jobsCache σ;
     pendingFetches := pendingFetches σ; isLoading := isLoading σ;
     isRefreshing := v; error := error σ; isOffline := isOffline σ;
     table := table σ; storage := storage σ; requests := requests σ |}.

Definition setError (v : option string) (σ : State) : State :=
  {| jobs := jobs σ; categories := categories σ; jobsCache := jobsCache σ;
     pendingFetches := pendingFetches σ; isLoading := isLoading σ;
     isRefreshing := isRefreshing σ; error := v; isOffline := isOffline σ;
     table := table σ; storage := storage σ; requests := requests σ |}.

Definition setIsOffline (v : bool) (σ : State) : State :=
  {| jobs := jobs σ; categories := categories σ; jobsCache := jobsCache σ;
     pendingFetches := pendingFetches σ; isLoading := isLoading σ;
     isRefreshing := isRefreshing σ; error := error σ; isOffline := v;
     table := table σ; storage := storage σ; requests := requests σ |}.

Definition setTable (v : Database.Table) (σ : State) : State :=
  {| jobs := jobs σ; categories := categories σ; jobsCache := jobsCache σ;
     pendingFetches := pendingFetches σ; isLoading := isLoading σ;
     isRefreshing := isRefreshing σ; error := error σ;
     isOffline := isOffline σ; table := v; storage := storage σ;
     requests := requests σ |}.

Definition setStorage (v : Database.AsyncStorage) (σ : State) : State :=
  {| jobs := jobs σ; categories := categories σ; jobsCache := jobsCache σ;
     pendingFetches := pendingFetches σ; isLoading := isLoading σ;
     isRefreshing := isRefreshing σ; error := error σ;
     isOffline := isOffline σ; table := table σ; storage := v;
     requests := requests σ |}.

Definition send (v : Request) (σ : State) : State :=
  {| jobs := jobs σ; categories := categories σ; jobsCache := jobsCache σ;
     pendingFetches := pendingFetches σ; isLoading := isLoading σ;
     isRefreshing := isRefreshing σ; error := error σ;
     isOffline := isOffline σ; table := table σ; storage := storage σ;
     requests := requests σ ++ [v] |}.

(** The values a function created during a render closes over.  The
    setters always act on the current [State]; the plain variables
    [jobs], [jobsCache] and [pendingFetches] are those of the render. *)
Record Render := {
  r_jobs : list Job;
  r_jobsCache : gmap string Job;
  r_pendingFetches : gmap string nat
}.

Definition render (σ : State) : Render :=
  {| r_jobs := jobs σ; r_jobsCache := jobsCache σ;
     r_pendingFetches := pendingFetches σ |}.

(** The [useState] initial values, seen by the first render. *)
Definition firstRender : Render :=
  {| r_jobs := []; r_jobsCache := ∅; r_pendingFetches := ∅ |}.

(** What the awaited calls deliver: connectivity, the settlement of
    [fetchJobs], the settlement of the [n]-th request when it is
    [fetchJobById(k)], whether a read of the database succeeds, and the
    clock readings of the database layer.

    An [Env] holds the answers of a run in which each awaited call has
    answered, and [NetInfo.fetch] answers with a state.  A request whose
    answer is outstanding is a [Call] that the schedule of [run] has not
    resumed. *)
Record Env := {
  isConnected : bool;
  readable : bool;
  catalogue : Settled (list Job);
  detail : nat -> string -> Settled Job;
  now : Z;
  stamp : string
}.

(** *** [refreshFromApi] *)

(** The object literal of the preserving branch: [...existingJob] with
    nine members taken from the incoming [job]. *)
Definition preserveDetails (existingJob job : Job) : Job := {|
  id := id existingJob;
  _id := _id existingJob;
  title := title job;
  company := company job;
  companyLogo := companyLogo job;
  location := location job;
  type := type job;
  salary := salary job;
  workplace := workplace job;
  description := description existingJob;
  requirements := requirements existingJob;
  benefits := benefits existingJob;
  postedDate := postedDate existingJob;
  featured := featured job;
  category := category job
|}.

(** One turn of [jobsData.forEach]: the lookup reads the captured
    [jobsCache], the assignment goes to [updatedCache]. *)
Definition mergeJob (jobsCache updatedCache : gmap string Job) (job : Job)
  : gmap string Job :=
  match jobsCache !! id job with
  | Some existingJob =>
      if detailed existingJob
      then <[id job := preserveDetails existingJob job]> updatedCache
      else <[id job := job]> updatedCache
  | None => <[id job := job]> updatedCache
  end.

(** [updatedCache], starting from the copy [{ ...jobsCache }]. *)
Definition mergeCache (jobsCache : gmap string Job) (jobsData : list Job)
  : gmap string Job :=
  fold_left (mergeJob jobsCache) jobsData jobsCache.

(** The [catch] and [finally] blocks. *)
Definition catchRefresh (r : Render) (σ : State) : State :=
  match r_jobs r with
  | [] => setError (Some "Failed to load data. Please check your connection and try again.") σ
  | _ => σ
  end.

Definition finallyRefresh (showRefreshIndicator : bool) (σ : State) : State :=
  setIsLoading false
    (if showRefreshIndicator then setIsRefreshing false σ else σ).

Definition offlineRefresh (showRefreshIndicator : bool) (σ : State) : State :=
  let σ1 := setError (Some "No internet connection. Using cached data.")
              (setIsOffline true σ) in
  setIsLoading false
    (if showRefreshIndicator then setIsRefreshing false σ1 else σ1).

Section WithPlatform.
Variable P : Platform.
Variable env : Env.

(** The states of one run of [refreshFromApi], one per suspension: the
    state in which the function waits at each [await] it reaches, then the
    state it leaves behind.  Other calls run only in the listed states. *)
Definition refreshFromApi_states (r : Render) (showRefreshIndicator : bool)
  (σ : State) : list State :=
  let σ0 := if showRefreshIndicator then setIsRefreshing true σ else σ in
  if negb (isConnected env)
  then [σ0; finallyRefresh showRefreshIndicator (offlineRefresh showRefreshIndicator σ0)]
  else
    let σ1 := send FetchAll (setIsOffline false σ0) in
    match catalogue env with
    | Rejected _ =>
        [σ0; σ1; finallyRefresh showRefreshIndicator (catchRefresh r σ1)]
    | Resolved jobsData =>
        let σ2 := setCategories Api.getCategories (setJobs jobsData σ1) in
        match Database.saveJobs P (stamp env) jobsData (table σ2) with
        | (t, Rejected _) =>
            [σ0; σ1; σ2;
             finallyRefresh showRefreshIndicator (catchRefresh r (setTable t σ2))]
        | (t, Resolved _) =>
            let σ3 := setTable t σ2 in
            let σ4 := setStorage (Database.updateLastSyncTime (now env) (storage σ3)) σ3 in
            [σ0; σ1; σ2; σ3;
             finallyRefresh showRefreshIndicator
               (setError None
                  (setJobsCache (mergeCache (r_jobsCache r) jobsData) σ4))]
        end
    end.

(** [refreshFromApi], run to its end. *)
Definition refreshFromApi (r : Render) (showRefreshIndicator : bool)
  (σ : State) : State :=
  List.last (refreshFromApi_states r showRefreshIndicator σ) σ.

(** [refreshJobs = useCallback(() => refreshFromApi(true), [])]: the empty
    dependency list keeps the function of the first render. *)
Definition refreshJobs (σ : State) : State :=
  refreshFromApi firstRender true σ.

(** *** [getJobById] *)

(** Where a call of [getJobById] stands. *)
Inductive Pc :=
  | AtDatabase
  | AtNetInfo
  | AtFetch (n : nat)
  | Attached (n : nat)
  | Flushing (jobData : Job)
  | Done (result : Settled (option Job)).

Record Call := {
  key : string;
  closure : Render;
  pc : Pc
}.

Definition at_ (c : Call) (p : Pc) : Call :=
  {| key := key c; closure := closure c; pc := p |}.

(** The synchronous prefix, up to the first [await]: a detailed entry of
    the captured cache is returned, a captured pending promise is returned
    as it is, otherwise the call suspends on [Database.getJobById]. *)
Definition call (r : Render) (k : string) : Call :=
  let start := {| key := k; closure := r; pc := AtDatabase |} in
  if detailed_entry (r_jobsCache r !! k)
  then at_ start (Done (Resolved (r_jobsCache r !! k)))
  else
    match r_pendingFetches r !! k with
    | Some n => at_ start (Attached n)
    | None => start
    end.

(** One resumption of a suspended call.
    - [AtDatabase]: the row is read; a detailed one is promoted and
      returned, a failed read is logged and the call goes on.
    - [AtNetInfo]: offline, the captured entry is returned or the call
      throws; online, the request is sent and its promise registered.
    - [AtFetch n]: the request settled; the [then] callback caches the
      record, starts [saveJobs] without awaiting it and clears the pending
      entry, or the [catch] clears it and falls back on the captured entry.
    - [Flushing]: the detached [saveJobs] completes; its failure is logged.
    - [Attached n]: the adopted promise settles. *)
Definition step (c : Call) (σ : State) : Call * State :=
  match pc c with
  | AtDatabase =>
      match (if readable env then Database.getJobById P (key c) (table σ) else None) with
      | Some localJob =>
          if detailed localJob
          then (at_ c (Done (Resolved (Some localJob))),
                setJobsCache (<[key c := localJob]> (jobsCache σ)) σ)
          else (at_ c AtNetInfo, σ)
      | None => (at_ c AtNetInfo, σ)
      end
  | AtNetInfo =>
      if negb (isConnected env)
      then
        match r_jobsCache (closure c) !! key c with
        | Some j => (at_ c (Done (Resolved (Some j))), setIsOffline true σ)
        | None =>
            (at_ c (Done (Rejected "No internet connection. Please connect to a network and try again.")),
             setIsOffline true σ)
        end
      else
        let n := length (requests σ) in
        let σ1 := send (FetchOne (key c)) (setIsOffline false σ) in
        (at_ c (AtFetch n),
         setPendingFetches (<[key c := n]> (pendingFetches σ1)) σ1)
  | AtFetch n =>
      match detail env n (key c) with
      | Resolved jobData =>
          (at_ c (Flushing jobData),
           setPendingFetches (delete (key c) (pendingFetches σ))
             (setJobsCache (<[key c := jobData]> (jobsCache σ)) σ))
      | Rejected _ =>
          (at_ c (Done (Resolved (r_jobsCache (closure c) !! key c))),
           setPendingFetches (delete (key c) (pendingFetches σ)) σ)
      end
  | Flushing jobData =>
      (at_ c (Done (Resolved (Some jobData))),
       setTable (fst (Database.saveJobs P (stamp env) [jobData] (table σ))) σ)
  | Attached n =>
      match detail env n (key c) with
      | Resolved jobData => (at_ c (Done (Resolved (Some jobData))), σ)
      | Rejected e => (at_ c (Done (Rejected e)), σ)
      end
  | Done _ => (c, σ)
  end.

(** What the caller of [getJobById] receives, once it is known. *)
Definition result (c : Call) : option (Settled (option Job)) :=
  match pc c with
  | Flushing jobData => Some (Resolved (Some jobData))
  | Done o => Some o
  | _ => None
  end.

(** Several calls in flight: the schedule names, turn by turn, the call
    that is resumed. *)
Fixpoint run (schedule : list nat) (calls : list Call) (σ : State)
  : list Call * State :=
  match schedule with
  | [] => (calls, σ)
  | i :: rest =>
      match calls !! i with
      | Some c =>
          let '(c', σ') := step c σ in
          run rest (<[i := c']> calls) σ'
      | None => run rest calls σ
      end
  end.

(** One call of [getJobById] run alone to its end: at most four
    resumptions follow the synchronous prefix. *)
Definition getJobById (r : Render) (k : string) (σ : State) : Call * State :=
  Nat.iter 4 (fun cσ => step (fst cσ) (snd cσ)) (call r k, σ).

End WithPlatform.

(** *** [loadInitialData] and [checkNetworkAndRefresh] *)

(** The effect that initialises the database: [isInitialized] is set
    when [Database.initDatabase] resolved; its failure is caught and shown
    in an alert. *)
Definition initialize (driver : Settled unit) (file : option Database.Table)
  (a : Database.AsyncStorage) : option Database.Table * Database.AsyncStorage * bool :=
  match Database.initDatabase driver file a with
  | (file', a', Resolved _) => (file', a', true)
  | (file', a', Rejected _) => (file', a', false)
  end.

Section Startup.
Variable P : Platform.
Variable env : Env.

(** [cache[job.id] = job] for each job in turn: a later job of the same
    id replaces an earlier one. *)
Definition cacheOf (localJobs : list Job) : gmap string Job :=
  fold_left (fun cache job => <[id job := job]> cache) localJobs ∅.

(** [loadInitialData], created in the render [r] with the [isInitialized]
    it captured.  The refresh it starts without awaiting is run to its
    end; when [Database.getJobs] throws, the [catch] awaits the same
    refresh. *)
Definition loadInitialData (r : Render) (isInitialized : bool) (σ : State) : State :=
  if negb isInitialized then σ
  else
    let σ0 := setCategories Api.getCategories (setError None (setIsLoading true σ)) in
    if readable env
    then
      let localJobs := Database.getJobs P (table σ0) in
      let σ1 := match localJobs with
                | [] => σ0
                | _ => setJobsCache (cacheOf localJobs) (setJobs localJobs σ0)
                end in
      let isStale := Database.isDataStale (now env) (storage σ1) in
      if (Nat.eqb (length localJobs) 0) || isStale
      then refreshFromApi P env r false σ1
      else setIsLoading false σ1
    else refreshFromApi P env r false σ0.

(** [checkNetworkAndRefresh] of the provider. *)
Definition checkNetworkAndRefresh (σ : State) : State :=
  if negb (isConnected env)
  then setError (Some "No internet connection. Please connect to a network and try again.")
         (setIsOffline true σ)
  else refreshJobs P env (setIsOffline false σ).

End Startup.

End JobsContext.

(** ** [services/appRating.ts] *)

Module AppRating.
Import Database.

Definition APP_OPENS_KEY : string := "app_opens_count".
Definition RATED_KEY : string := "app_rated".
Definition DECLINED_KEY : string := "rating_declined".
Definition LAST_PROMPT_DATE_KEY : string := "rating_last_prompt_date".

Definition OPENS_THRESHOLD : Z := 5.
Definition DAYS_BETWEEN_PROMPTS : Z := 14.

(** [n + 1], [n.toString()] and [n < k] on a number that may be [NaN]. *)
Definition plusOne (n : jsnum) : jsnum :=
  match n with
  | NaN => NaN
  | Num z => Num (z + 1)
  end.

Definition numberToString (n : jsnum) : string :=
  match n with
  | NaN => "NaN"
  | Num z => toString z
  end.

Definition lessThan (n : jsnum) (k : Z) : bool :=
  match n with
  | NaN => false
  | Num z => z <? k
  end.

Definition removeItem (key : string) (a : AsyncStorage) : AsyncStorage * Settled unit :=
  if available a
  then ({| items := delete key (items a); available := true |}, Resolved tt)
  else (a, Rejected "AsyncStorage failure").

(** [AsyncStorage.multiRemove] *)
Definition multiRemove (keys : list string) (a : AsyncStorage)
  : AsyncStorage * Settled unit :=
  if available a
  then ({| items := fold_left (fun m key => delete key m) keys (items a);
           available := true |}, Resolved tt)
  else (a, Rejected "AsyncStorage failure").

(** [incrementAppOpenCount]: the new count, or [0] once the app was rated
    and in the [catch]. *)
Definition incrementAppOpenCount (a : AsyncStorage) : AsyncStorage * jsnum :=
  match getItem RATED_KEY a with
  | Rejected _ => (a, Num 0)
  | Resolved hasRated =>
      if decide (hasRated = Some "true") then (a, Num 0)
      else
        match getItem APP_OPENS_KEY a with
        | Rejected _ => (a, Num 0)
        | Resolved currentCount =>
            let newCount :=
              if truthy_text currentCount
              then plusOne (parseInt (default "" currentCount))
              else Num 1 in
            match setItem APP_OPENS_KEY (numberToString newCount) a with
            | (a', Resolved _) => (a', newCount)
            | (a', Rejected _) => (a', Num 0)
            end
        end
  end.

(** The test [daysSinceLastPrompt < DAYS_BETWEEN_PROMPTS], where
    [daysSinceLastPrompt] is [(now - last) / (1000 * 60 * 60 * 24)]: the
    quotient is below 14 exactly when the difference is below 14 days of
    milliseconds; with [NaN] the comparison is false. *)
Definition promptedRecently (now : Z) (last : jsnum) : bool :=
  lessThan
    (match last with
     | NaN => NaN
     | Num t => Num (now - t)
     end)
    (DAYS_BETWEEN_PROMPTS * (1000 * 60 * 60 * 24)).

(** [shouldShowRatingPrompt], evaluated when the clock reads [now]. *)
Definition shouldShowRatingPrompt (now : Z) (a : AsyncStorage) : bool :=
  match getItem RATED_KEY a with
  | Rejected _ => false
  | Resolved hasRated =>
      if decide (hasRated = Some "true") then false
      else
        match getItem APP_OPENS_KEY a with
        | Rejected _ => false
        | Resolved currentCount =>
            let openCount :=
              if truthy_text currentCount
              then parseInt (default "" currentCount)
              else Num 0 in
            if lessThan openCount OPENS_THRESHOLD then false
            else
              match getItem LAST_PROMPT_DATE_KEY a with
              | Rejected _ => false
              | Resolved lastPromptDate =>
                  if truthy_text lastPromptDate
                  then negb (promptedRecently now (parseInt (default "" lastPromptDate)))
                  else true
              end
        end
  end.

Definition markAppAsRated (a : AsyncStorage) : AsyncStorage :=
  fst (setItem RATED_KEY "true" a).

Definition markRatingPostponed (now : Z) (a : AsyncStorage) : AsyncStorage :=
  fst (setItem LAST_PROMPT_DATE_KEY (toString now) a).

Definition resetRatingData (a : AsyncStorage) : AsyncStorage :=
  fst (multiRemove [APP_OPENS_KEY; RATED_KEY; DECLINED_KEY; LAST_PROMPT_DATE_KEY] a).

(** [forceRatingPrompt]: three awaited calls; the first that fails ends
    the [try]. *)
Definition forceRatingPrompt (a : AsyncStorage) : AsyncStorage :=
  match setItem APP_OPENS_KEY (toString OPENS_THRESHOLD) a with
  | (a1, Rejected _) => a1
  | (a1, Resolved _) =>
      match removeItem LAST_PROMPT_DATE_KEY a1 with
      | (a2, Rejected _) => a2
      | (a2, Resolved _) => fst (removeItem RATED_KEY a2)
      end
  end.

End AppRating.

(** ** [app/index.tsx]: the list screen *)

Module JobsScreen.

(** The members of [FilterOptions] that the filter effect reads; a
    [category] that is not a string is ignored by the effect and is
    [None] here. *)
Record FilterOptions := {
  f_category : option string;
  f_location : option string;
  f_type : option string;
  f_featured : option bool
}.

(** [s.includes(sub)] *)
Fixpoint startsWith (sub s : string) : bool :=
  match sub, s with
  | EmptyString, _ => true
  | String a sub', String b s' => Ascii.eqb a b && startsWith sub' s'
  | String _ _, EmptyString => false
  end.

Fixpoint includes (s sub : string) : bool :=
  startsWith sub s
  || match s with
     | String _ s' => includes s' sub
     | EmptyString => false
     end.

Section WithLocale.
(** [String.prototype.toLowerCase], a function of the runtime. *)
Variable toLowerCase : string -> string.

Definition matchesQuery (query : string) (job : Job) : bool :=
  includes (toLowerCase (title job)) query
  || includes (toLowerCase (company job)) query
  || includes (toLowerCase (location job)) query.

Definition hasCategory (c : string) (job : Job) : bool :=
  bool_decide (category job = Some c).

Definition hasLocation (l : string) (job : Job) : bool :=
  String.eqb (location job) l.

Definition hasType (t : string) (job : Job) : bool :=
  String.eqb (type job) t.

Definition isFeatured (job : Job) : bool := truthy_flag (featured job).

(** One filter of the chain: applied when its option is truthy. *)
Definition when_ (o : option string) (test : string -> Job -> bool)
  (result : list Job) : list Job :=
  if truthy_text o then List.filter (test (default "" o)) result else result.

(** The filter effect: what [filteredJobs] holds after it ran, given what
    it held before.  With an empty [jobs] the effect returns at once. *)
Definition filterEffect (jobs : list Job) (searchQuery : string)
  (filters : FilterOptions) (filteredJobs : list Job) : list Job :=
  match jobs with
  | [] => filteredJobs
  | _ =>
      let r1 := if truthy_text (Some searchQuery)
                then List.filter (matchesQuery (toLowerCase searchQuery)) jobs
                else jobs in
      let r2 := when_ (f_category filters) hasCategory r1 in
      let r3 := when_ (f_location filters) hasLocation r2 in
      let r4 := when_ (f_type filters) hasType r3 in
      if truthy_flag (f_featured filters) then List.filter isFeatured r4 else r4
  end.

End WithLocale.

(** [trackAppOpen]: the open is counted, then the prompt is decided; the
    result is the storage and the [showRatingPrompt] cell. *)
Definition trackAppOpen (now : Z) (a : Database.AsyncStorage)
  (showRatingPrompt : bool) : Database.AsyncStorage * bool :=
  let a' := fst (AppRating.incrementAppOpenCount a) in
  (a', if AppRating.shouldShowRatingPrompt now a' then true else showRatingPrompt).

End JobsScreen.

(** ** [app/jobs/[id]/index.tsx]: the detail screen *)

Module JobDetailsScreen.



Section WithDate.
(** [new Date(text).getTime()], [None] for an invalid date. *)
Variable Date_parse : string -> option Z.

Definition timeOf (postedDate : DateField) : option Z :=
  match postedDate with
  | DateText text => Date_parse text
  | DateObj ms => Some ms
  end.

(** [getPostedTime], evaluated when the clock reads [now]. *)
Definition getPostedTime (now : Z) (postedDate : DateField) : string :=
  match postedDate with
  | DateText "" => "Recently"
  | _ =>
      match timeOf postedDate with
      | None => "Recently"
      | Some t =>
          let diffTime := Z.abs (now - t) in
          let diffDays := diffTime / (1000 * 60 * 60 * 24) in
          let diffHours := diffTime / (1000 * 60 * 60) in
          if diffHours <? 1 then "Just now"
          else if diffHours <? 24 then toString diffHours +:+ "h ago"
          else if diffDays =? 0 then "Today"
          else if diffDays =? 1 then "Yesterday"
          else if diffDays <? 7 then toString diffDays +:+ "d ago"
          else if diffDays <? 30 then toString (diffDays / 7) +:+ "w ago"
          else if diffDays <? 365 then toString (diffDays / 30) +:+ "mo ago"
          else toString (diffDays / 365) +:+ "y ago"
      end
  end.

End WithDate.

End JobDetailsScreen.

(** ** [services/adHelpers.js] *)

Module AdHelpers.

Section WithBuild.
(** [__DEV__], the values of [TestIds] and what [isEmulator] answers on
    the device. *)
Variable DEV : bool.
Variable testIds : list string.
Variable emulator : bool.

Definition isTestAdUnitId (adUnitId : string) : bool :=
  bool_decide (adUnitId ∈ testIds).

(** [checkCommonAdIssues]: the issues it returns, in the order pushed. *)
Definition checkCommonAdIssues (adType adUnitId : string) : list string :=
  (if negb DEV && isTestAdUnitId adUnitId
   then ["Using test ad unit ID in production"] else [])
  ++ (if DEV && negb (isTestAdUnitId adUnitId)
      then ["Using production ad unit ID in development"] else [])
  ++ (if emulator && negb DEV
      then ["Testing production ads on emulator - use a real device"] else []).

Definition getAdUnitId (devId prodId : string) : string :=
  if DEV then devId else prodId.

End WithBuild.

End AdHelpers.

(** ** Vocabulary of the statements *)

Section Vocabulary.
Import Database.
Variable P : Platform.

(** The rows a batch binds to, or the error of its first failing statement. *)
Fixpoint rowsOfJobs (stamp : string) (jobs : list Job) : Settled (list Row) :=
  match jobs with
  | [] => Resolved []
  | j :: rest =>
      match rowOfJob P stamp j with
      | Rejected e => Rejected e
      | Resolved r =>
          match rowsOfJobs stamp rest with
          | Resolved rs => Resolved (r :: rs)
          | Rejected e => Rejected e
          end
      end
  end.

(** A table after the given rows were written in order. *)
Definition writeRows (rows : list Row) (t : Table) : Table :=
  fold_left (fun u r => <[row_id r := r]> u) rows t.

(** The rows of a table, in no particular order. *)
Definition rows (t : Table) : list Row := snd <$> map_to_list t.

(** Every [featured] cell holds the [0] or [1] that [saveJobs] writes. *)
Definition flagsAreBits (t : Table) : Prop :=
  forall k r, t !! k = Some r -> row_featured r = 0 \/ row_featured r = 1.

(** The text of a [postedDate]; the reads of the table only produce
    [DateText]. *)
Definition dateText (j : Job) : string :=
  match postedDate j with
  | DateText s => s
  | DateObj _ => ""
  end.

(** The order of [getJobs] read on the records it returns: a featured
    record before one that is not, and among equals the later
    [postedDate] first, dates comparing as text. *)
Definition featuredThenNewest (a b : Job) : Prop :=
  (truthy_flag (featured a) = true /\ truthy_flag (featured b) = false)
  \/ (truthy_flag (featured a) = truthy_flag (featured b)
      /\ String.leb (dateText b) (dateText a) = true).

End Vocabulary.

Section ApiVocabulary.
Import Api.

(** A request that failed: no response, a status outside 200-299, or a
    body that is not JSON. *)
Definition failed (x : Exchange) : Prop :=
  match x with
  | NetworkFailure _ => True
  | Response status body => ok status = false \/ body = None
  end.

End ApiVocabulary.

Section ContextVocabulary.
Import JobsContext.

(** The memory cache, the table and the last-sync slot are the same. *)
Definition untouched (σ σ' : State) : Prop :=
  jobsCache σ' = jobsCache σ /\ table σ' = table σ /\ storage σ' = storage σ.

(** The [catch] of [refreshFromApi] sets its message when the captured
    list [view] is empty and leaves the [error] cell alone otherwise. *)
Definition surfacedIfEmpty (view : list Job) (σ σ' : State) : Prop :=
  (view = [] ->
   error σ' = Some "Failed to load data. Please check your connection and try again.")
  /\ (view <> [] -> error σ' = error σ).

(** The least the ordering "cache at least as fresh as the store" asks
    of a state: an id that has a row in the table has an entry in the
    memory cache. *)
Definition cacheCoversStore (σ : State) : Prop :=
  forall k, is_Some (table σ !! k) -> is_Some (jobsCache σ !! k).

End ContextVocabulary.

(** ** Sample data *)

Module Sample.

(** A platform whose driver coerces a list to its comma-separated text and
    a date to its epoch milliseconds, and whose JSON functions only know
    the empty object. *)
Definition platform : Platform := {|
  JSON_stringify := fun _ => "{}";
  JSON_parse := fun _ => None;
  driverBind := fun o =>
    match o with
    | NPList l => Some (String.concat "," l)
    | NPDate ms => Some (toString ms)
    end
|}.

Definition summary (k t posted : string) (f : bool) : Job := {|
  id := k; _id := None; title := t; company := "Acme"; companyLogo := None;
  location := "Oslo"; type := "full-time"; salary := SalaryText "negotiable";
  workplace := None; description := None; requirements := None;
  benefits := None; postedDate := DateText posted; featured := Some f;
  category := Some "design"
|}.

Definition detailedJob (k t posted : string) : Job := {|
  id := k; _id := None; title := t; company := "Acme"; companyLogo := None;
  location := "Oslo"; type := "full-time"; salary := SalaryText "up to 60k";
  workplace := Some "Remote"; description := Some "Design the catalogue.";
  requirements := Some (Items ["Figma"; "CSS"]);
  benefits := Some (Items ["Pension"]);
  postedDate := DateText posted; featured := Some false;
  category := Some "design"
|}.

(** A record the table refuses: it has no [category]. *)
Definition uncategorised (k t : string) : Job := {|
  id := k; _id := None; title := t; company := "Acme"; companyLogo := None;
  location := "Oslo"; type := "full-time"; salary := SalaryText "negotiable";
  workplace := None; description := None; requirements := None;
  benefits := None; postedDate := DateText "2024-05-01"; featured := None;
  category := None
|}.

Definition emptyStorage : Database.AsyncStorage :=
  {| Database.items := ∅; Database.available := true |}.

(** The storage after a sync recorded at 2023-11-14 19:26:40 UTC. *)
Definition synced : Database.AsyncStorage :=
  Database.updateLastSyncTime 1699990000000 emptyStorage.

Definition state (view : list Job) (cache : gmap string Job)
  (t : Database.Table) (a : Database.AsyncStorage) : JobsContext.State := {|
  JobsContext.jobs := view;
  JobsContext.categories := [];
  JobsContext.jobsCache := cache;
  JobsContext.pendingFetches := ∅;
  JobsContext.isLoading := false;
  JobsContext.isRefreshing := false;
  JobsContext.error := None;
  JobsContext.isOffline := false;
  JobsContext.table := t;
  JobsContext.storage := a;
  JobsContext.requests := []
|}.

Definition env (connected : bool) (all : Settled (list Job)) : JobsContext.Env := {|
  JobsContext.isConnected := connected;
  JobsContext.readable := true;
  JobsContext.catalogue := all;
  JobsContext.detail := fun _ k => Resolved (detailedJob k "Designer" "2024-01-05");
  JobsContext.now := 1700000000000;
  JobsContext.stamp := "2023-11-14T22:13:20.000Z"
|}.

(** A device that already holds one listing, shown and cached. *)
Definition listed : Job := summary "a" "Illustrator" "2024-03-01" false.

Definition populated : JobsContext.State :=
  state [listed] {[ "a" := listed ]}
    (fst (Database.saveJobs platform "2023-11-14T19:26:40.000Z" [listed] ∅))
    synced.

(** A catalogue the table refuses as a whole. *)
Definition refused : list Job := [uncategorised "b" "Typesetter"].

(** Three summaries as the remote delivers them. *)
Definition threeSummaries : list Job :=
  [ summary "a" "Illustrator" "2024-03-01" false;
    summary "b" "Art director" "2024-01-15" true;
    summary "c" "Typesetter" "2024-04-20" false ].

(** A cached detailed record for id 42 and the summary a refresh brings. *)
Definition cached42 : Job := detailedJob "42" "Old Title" "2024-01-01".

Definition incoming42 : Job := summary "42" "New Title" "2024-02-02" true.

Definition detailed42 : JobsContext.State :=
  state [cached42] {[ "42" := cached42 ]} ∅ emptyStorage.

Definition blank : JobsContext.State := state [] ∅ ∅ emptyStorage.

(** The refreshes the examples run on these states. *)
Definition afterFailedSave : JobsContext.State :=
  JobsContext.refreshFromApi platform (env true (Resolved refused))
    (JobsContext.render populated) true populated.

Definition afterFirstRefresh : JobsContext.State :=
  JobsContext.refreshFromApi platform (env true (Resolved threeSummaries))
    (JobsContext.render blank) false blank.

(** The device without connectivity. *)
Definition offline : JobsContext.Env := env false (Rejected "Network request failed").

(** Any catalogue will do for the runs that only read details. *)
Definition online : JobsContext.Env := env true (Resolved []).

End Sample.

(** ** Further vocabulary *)

Section StoreVocabulary.
Import Database.

(** Every row sits under its own id, as [INSERT] by primary key leaves it. *)
Definition keyed (t : Table) : Prop :=
  forall k r, t !! k = Some r -> row_id r = k.

(** The last row of a batch that carries the id [k]. *)
Fixpoint lastRow (k : string) (rs : list Row) : option Row :=
  match rs with
  | [] => None
  | r :: rest =>
      match lastRow k rest with
      | Some r' => Some r'
      | None => if decide (row_id r = k) then Some r else None
      end
  end.

(** A row with other bookkeeping stamps. *)
Definition restamp (stamp : string) (r : Row) : Row := {|
  row_id := row_id r; row_title := row_title r; row_company := row_company r;
  row_location := row_location r; row_type := row_type r;
  row_category := row_category r; row_description := row_description r;
  row_requirements := row_requirements r; row_salary := row_salary r;
  row_posted_date := row_posted_date r; row_featured := row_featured r;
  row_created_at := stamp; row_updated_at := stamp
|}.

End StoreVocabulary.

Section ClientVocabulary.
Import Api.



End ClientVocabulary.

Section ScreenVocabulary.
Import JobsScreen.
Variable toLowerCase : string -> string.

(** A job passes every filter that is switched on. *)
Definition selected (searchQuery : string) (filters : FilterOptions) (j : Job) : Prop :=
  (searchQuery <> "" -> matchesQuery toLowerCase (toLowerCase searchQuery) j = true)
  /\ (forall c, f_category filters = Some c -> c <> "" -> category j = Some c)
  /\ (forall l, f_location filters = Some l -> l <> "" -> location j = l)
  /\ (forall t, f_type filters = Some t -> t <> "" -> type j = t)
  /\ (f_featured filters = Some true -> truthy_flag (featured j) = true).

End ScreenVocabulary.

(** The storage after [n] starts of the list screen, each counted by
    [incrementAppOpenCount]. *)
Definition opens (n : nat) (a : Database.AsyncStorage) : Database.AsyncStorage :=
  Nat.iter n (fun s => fst (AppRating.incrementAppOpenCount s)) a.

Module Scenario.

(** A storage whose calls fail. *)
Definition brokenStorage : Database.AsyncStorage :=
  {| Database.items := {[ Database.LAST_SYNC_KEY := "1700000000000" ]};
     Database.available := false |}.

(** The table after the three summaries of [Sample] were saved. *)
Definition threeRows : Database.Table :=
  fst (Database.saveJobs Sample.platform "2023-11-14T22:13:20.000Z"
         Sample.threeSummaries ∅).


(** A device that synced three summaries ten minutes before the clock of
    [Sample.env]. *)
Definition freshDevice : JobsContext.State :=
  Sample.state [] ∅ threeRows
    (Database.updateLastSyncTime 1699999400000 Sample.emptyStorage).

(** The device after the detail screen was opened for id 42 on a fresh
    install: the record was fetched, cached and saved. *)
Definition opened42 : JobsContext.State :=
  snd (JobsContext.getJobById Sample.platform
         {| JobsContext.isConnected := true;
            JobsContext.readable := true;
            JobsContext.catalogue := Resolved [];
            JobsContext.detail := fun _ _ => Resolved Sample.cached42;
            JobsContext.now := 1700000000000;
            JobsContext.stamp := "2023-11-14T22:13:20.000Z" |}
         JobsContext.firstRender "42" Sample.blank).



(** A device on which the record a detail request delivers has no
    category, so that the table refuses it. *)
Definition unsaveable : JobsContext.Env := {|
  JobsContext.isConnected := true;
  JobsContext.readable := true;
  JobsContext.catalogue := Resolved [];
  JobsContext.detail := fun _ k => Resolved (Sample.uncategorised k "Typesetter");
  JobsContext.now := 1700000000000;
  JobsContext.stamp := "2023-11-14T22:13:20.000Z"
|}.

(** A storage whose last-sync slot holds a text that is no number. *)
Definition garbled : Database.AsyncStorage :=
  {| Database.items := {[ Database.LAST_SYNC_KEY := "yesterday" ]};
     Database.available := true |}.

(** A served object, bare and wrapped. *)
Definition served : list (string * Api.json) :=
  [ ("_id", Api.JString "65f0"); ("title", Api.JString "Illustrator");
    ("company", Api.JString "Acme"); ("location", Api.JString "Oslo") ].

(** ASCII lower-casing, for the examples of the filter. *)
Definition lowerAscii (c : ascii) : ascii :=
  let n := nat_of_ascii c in
  if (Nat.leb 65 n && Nat.leb n 90)%bool then ascii_of_nat (n + 32) else c.

Fixpoint lower (s : string) : string :=
  match s with
  | EmptyString => EmptyString
  | String c r => String (lowerAscii c) (lower r)
  end.

End Scenario.

(** * Properties *)

(** ** Numbers and their decimal text *)

Section Numbers.

Lemma digits_string_of_uint (u : uint) :
  digits (NilEmpty.string_of_uint u) = u.
Proof. induction u; simpl; congruence. Qed.

Lemma string_of_uint_head (u : uint) :
  u <> Nil ->
  exists c r, NilEmpty.string_of_uint u = String c r
              /\ trimStart (String c r) = String c r
              /\ c <> "-"%char /\ c <> "+"%char.
Proof.
  destruct u as [|u|u|u|u|u|u|u|u|u|u]; intros Hu; try congruence;
    cbn [NilEmpty.string_of_uint];
    eexists _, _; (split; [reflexivity|]);
    (split; [|split; discriminate]);
    destruct (NilEmpty.string_of_uint u) as [|b [|c s]]; reflexivity.
Qed.

Lemma parseInt_unsigned (u : uint) :
  u <> Nil -> parseInt (NilEmpty.string_of_uint u) = Num (Z.of_int (Pos u)).
Proof.
  intros Hu. destruct (string_of_uint_head u Hu) as (c & r & E & Hw & Hm & Hp).
  unfold parseInt. rewrite E, Hw.
  assert (Hsign : signOf (String c r) = (false, String c r)).
  { destruct c as [[|] [|] [|] [|] [|] [|] [|] [|]]; try reflexivity;
      exfalso; (apply Hm; reflexivity) || (apply Hp; reflexivity). }
  rewrite Hsign, <- E, digits_string_of_uint.
  destruct u; try reflexivity; congruence.
Qed.

Lemma parseInt_negative (u : uint) :
  u <> Nil ->
  parseInt (String "-" (NilEmpty.string_of_uint u)) = Num (Z.of_int (Neg u)).
Proof.
  intros Hu. unfold parseInt.
  assert (Htrim : trimStart (String "-" (NilEmpty.string_of_uint u))
                  = String "-" (NilEmpty.string_of_uint u)).
  { destruct (NilEmpty.string_of_uint u) as [|b [|c s]]; reflexivity. }
  rewrite Htrim. cbn [signOf].
  rewrite digits_string_of_uint. destruct u; try reflexivity; congruence.
Qed.

(** Writing an integer and reading it back with [parseInt] is lossless. *)
Lemma parseInt_toString (z : Z) : parseInt (toString z) = Num z.
Proof.
  unfold toString. rewrite <- (DecimalZ.of_to z) at 2.
  destruct z as [|p|p]; cbn [Z.to_int].
  - reflexivity.
  - assert (Hp : Pos.to_uint p <> Nil) by apply DecimalPos.Unsigned.to_uint_nonnil.
    cbn [NilZero.string_of_int]. unfold NilZero.string_of_uint.
    destruct (Pos.to_uint p) eqn:E; try congruence;
      rewrite <- E in *; apply parseInt_unsigned; exact Hp.
  - assert (Hp : Pos.to_uint p <> Nil) by apply DecimalPos.Unsigned.to_uint_nonnil.
    cbn [NilZero.string_of_int]. unfold NilZero.string_of_uint.
    destruct (Pos.to_uint p) eqn:E; try congruence;
      rewrite <- E in *; apply parseInt_negative; exact Hp.
Qed.

Lemma toString_nonempty (z : Z) : truthy_text (Some (toString z)) = true.
Proof.
  unfold toString. destruct z as [|p|p]; cbn [Z.to_int NilZero.string_of_int];
    try reflexivity.
  pose proof (DecimalPos.Unsigned.to_uint_nonnil p) as Hp.
  unfold NilZero.string_of_uint.
  destruct (Pos.to_uint p); try congruence; reflexivity.
Qed.

End Numbers.

(** ** The last-sync slot and the staleness test *)

Section Staleness.
Import Database.

Lemma getLastSyncTime_after_update (t : Z) (a : AsyncStorage) :
  available a = true ->
  getLastSyncTime (updateLastSyncTime t a) = Some (Num t).
Proof.
  intros Ha. unfold getLastSyncTime, updateLastSyncTime, setItem, getItem.
  rewrite Ha. cbn [fst available items].
  rewrite lookup_insert_eq, toString_nonempty.
  unfold default; cbn [from_option]. unfold Datatypes.id.
  now rewrite parseInt_toString.
Qed.

Lemma isDataStale_never_synced (now : Z) (a : AsyncStorage) :
  items a !! LAST_SYNC_KEY = None -> isDataStale now a = true.
Proof.
  intros Hnone. unfold isDataStale, getLastSyncTime, getItem.
  destruct (available a); [rewrite Hnone|]; reflexivity.
Qed.

Lemma isDataStale_after_update (t now : Z) (a : AsyncStorage) :
  available a = true -> t <> 0 ->
  isDataStale now (updateLastSyncTime t a) = (STALE_DATA_THRESHOLD <? now - t).
Proof.
  intros Ha Ht. unfold isDataStale.
  rewrite getLastSyncTime_after_update by exact Ha.
  cbn [falsy_num]. now apply Z.eqb_neq in Ht as ->.
Qed.

(** C8.  [isDataStale] answers [true] while no timestamp was ever stored.
    After a successful [updateLastSyncTime] at the clock reading [t] (any
    reading but the epoch itself, which [!lastSync] takes for a missing
    value) it answers [false] at that same instant, and it answers [true]
    at a later reading [now] exactly when [now - t] exceeds the one-hour
    threshold of 3 600 000 ms. *)
Theorem isDataStale_threshold (a : AsyncStorage) (t now : Z) :
  (items a !! LAST_SYNC_KEY = None -> isDataStale now a = true)
  /\ (available a = true -> t <> 0 ->
      isDataStale t (updateLastSyncTime t a) = false
      /\ (isDataStale now (updateLastSyncTime t a) = true
          <-> 3600000 < now - t)).
Proof.
  split; [apply isDataStale_never_synced|].
  intros Ha Ht. rewrite !isDataStale_after_update by assumption.
  change STALE_DATA_THRESHOLD with 3600000.
  split; [apply Z.ltb_ge; lia | apply Z.ltb_lt].
Qed.

Lemma isDataStale_threshold_witness :
  isDataStale 1700003600001 Sample.emptyStorage = true
  /\ isDataStale 1700000000000 (updateLastSyncTime 1700000000000 Sample.emptyStorage) = false
  /\ (isDataStale 1700003600001 (updateLastSyncTime 1700000000000 Sample.emptyStorage) = true
      <-> 3600000 < 1700003600001 - 1700000000000).
Proof.
  destruct (isDataStale_threshold Sample.emptyStorage 1700000000000 1700003600001)
    as [Hnever Hafter].
  split; [apply Hnever; reflexivity|].
  apply Hafter; [reflexivity | lia].
Defined.

End Staleness.

(** ** The [jobs] table: transactions and reads *)

Section StoreProperties.
Import Database.
Variable P : Platform.

Lemma runInserts_journal (stamp : string) (jobs : list Job) (c : Connection) (w : Table) :
  journal c = Some w ->
  match rowsOfJobs P stamp jobs with
  | Resolved rs =>
      runInserts P stamp jobs c
      = ({| committed := committed c; journal := Some (writeRows rs w) |}, Resolved tt)
  | Rejected e =>
      exists c', runInserts P stamp jobs c = (c', Rejected e)
                 /\ committed c' = committed c
  end.
Proof.
  revert c w. induction jobs as [|j rest IH]; intros c w Hj; cbn [rowsOfJobs runInserts].
  - destruct c as [ct cj]; cbn in *; now subst.
  - destruct (rowOfJob P stamp j) as [r|e]; [|now exists c].
    specialize (IH (insertOrReplace r c) (<[row_id r := r]> w)).
    unfold insertOrReplace in IH at 1. rewrite Hj in IH.
    specialize (IH eq_refl).
    destruct (rowsOfJobs P stamp rest) as [rs|e].
    + rewrite IH. unfold insertOrReplace. now rewrite Hj.
    + destruct IH as (c' & -> & Hc'). exists c'. split; [reflexivity|].
      rewrite Hc'. unfold insertOrReplace. now rewrite Hj.
Qed.

(** [saveJobs] either writes every row of the batch or leaves the table
    exactly as it was. *)
Lemma saveJobs_all_or_nothing (stamp : string) (jobs : list Job) (t : Table) :
  saveJobs P stamp jobs t
  = match rowsOfJobs P stamp jobs with
    | Resolved rs => (writeRows rs t, Resolved tt)
    | Rejected e => (t, Rejected e)
    end.
Proof.
  destruct jobs as [|j rest]; [reflexivity|].
  unfold saveJobs.
  pose proof (runInserts_journal stamp (j :: rest)
                (BEGIN_TRANSACTION (openDatabase t)) t eq_refl) as H.
  destruct (rowsOfJobs P stamp (j :: rest)) as [rs|e].
  - now rewrite H.
  - destruct H as (c' & -> & Hc'). cbn [ROLLBACK committed]. now rewrite Hc'.
Qed.

Lemma saveJobs_rejected (stamp : string) (jobs : list Job) (t : Table) (e : string) :
  snd (saveJobs P stamp jobs t) = Rejected e -> fst (saveJobs P stamp jobs t) = t.
Proof.
  rewrite saveJobs_all_or_nothing.
  destruct (rowsOfJobs P stamp jobs); [discriminate | reflexivity].
Qed.

Lemma writeRows_lookup_other (rs : list Row) (t : Table) (k : string) :
  k ∉ row_id <$> rs -> writeRows rs t !! k = t !! k.
Proof.
  revert t. induction rs as [|r rs IH]; intros t Hk; [reflexivity|].
  cbn [writeRows fold_left]. rewrite fmap_cons, not_elem_of_cons in Hk.
  destruct Hk as [Hne Hk]. fold (writeRows rs (<[row_id r := r]> t)).
  rewrite IH by exact Hk. now apply lookup_insert_ne.
Qed.

Lemma writeRows_lookup_last (before after : list Row) (r : Row) (t : Table) :
  row_id r ∉ row_id <$> after ->
  writeRows (before ++ r :: after) t !! row_id r = Some r.
Proof.
  intros Hk. unfold writeRows. rewrite fold_left_app. cbn [fold_left].
  fold (writeRows after (<[row_id r := r]> (fold_left (fun u r0 => <[row_id r0 := r0]> u) before t))).
  rewrite writeRows_lookup_other by exact Hk. apply lookup_insert_eq.
Qed.

Lemma rowOfJob_id (stamp : string) (j : Job) (r : Row) :
  rowOfJob P stamp j = Resolved r -> row_id r = id j.
Proof.
  unfold rowOfJob. destruct (bindRequirements P j); [|discriminate].
  destruct (bindPostedDate P j); [|discriminate].
  destruct (category j); [|discriminate].
  now intros [= <-].
Qed.

Lemma rowOfJob_featured (stamp : string) (j : Job) (r : Row) :
  rowOfJob P stamp j = Resolved r ->
  row_featured r = if truthy_flag (featured j) then 1 else 0.
Proof.
  unfold rowOfJob. destruct (bindRequirements P j); [|discriminate].
  destruct (bindPostedDate P j); [|discriminate].
  destruct (category j); [|discriminate].
  now intros [= <-].
Qed.

Lemma rowsOfJobs_split (stamp : string) (before after : list Job) (j : Job) (rs : list Row) :
  rowsOfJobs P stamp (before ++ j :: after) = Resolved rs ->
  exists rb r ra,
    rs = rb ++ r :: ra
    /\ rowOfJob P stamp j = Resolved r
    /\ rowsOfJobs P stamp after = Resolved ra
    /\ row_id <$> ra = id <$> after.
Proof.
  revert rs. induction before as [|b before IH]; intros rs; cbn [app rowsOfJobs].
  - destruct (rowOfJob P stamp j) as [r|] eqn:Er; [|discriminate].
    destruct (rowsOfJobs P stamp after) as [ra|] eqn:Ea; [|discriminate].
    intros [= <-]. exists [], r, ra. repeat split.
    clear Er. revert ra Ea. induction after as [|a after IHa]; intros ra; cbn [rowsOfJobs].
    + now intros [= <-].
    + destruct (rowOfJob P stamp a) as [r'|] eqn:Er'; [|discriminate].
      destruct (rowsOfJobs P stamp after) as [ra'|]; [|discriminate].
      intros [= <-]. rewrite !fmap_cons, (IHa ra' eq_refl).
      now rewrite (rowOfJob_id _ _ _ Er').
  - destruct (rowOfJob P stamp b) as [rb0|]; [|discriminate].
    destruct (rowsOfJobs P stamp (before ++ j :: after)) as [rs'|]; [|discriminate].
    intros [= <-]. destruct (IH rs' eq_refl) as (rb & r & ra & -> & Hr & Ha & Hids).
    exists (rb0 :: rb), r, ra. now repeat split.
Qed.

(** After a successful [saveJobs] the row read under a record's id is the
    row of the last record of the batch that carries this id. *)
Lemma saveJobs_lookup (stamp : string) (before after : list Job) (j : Job) (t t' : Table) :
  saveJobs P stamp (before ++ j :: after) t = (t', Resolved tt) ->
  id j ∉ id <$> after ->
  exists r, rowOfJob P stamp j = Resolved r /\ t' !! id j = Some r.
Proof.
  rewrite saveJobs_all_or_nothing.
  destruct (rowsOfJobs P stamp (before ++ j :: after)) as [rs|] eqn:E; [|discriminate].
  intros [= <-] Hlast.
  destruct (rowsOfJobs_split _ _ _ _ _ E) as (rb & r & ra & -> & Hr & _ & Hids).
  exists r. split; [exact Hr|].
  rewrite <- (rowOfJob_id _ _ _ Hr). apply writeRows_lookup_last.
  now rewrite Hids, (rowOfJob_id _ _ _ Hr).
Qed.

End StoreProperties.

(** ** The order of [getJobs] *)

Section CatalogueOrder.
Import Database.
Variable P : Platform.

#[local] Instance OrderBy_total : Total OrderBy.
Proof.
  intros a b. unfold OrderBy, orderedBefore.
  destruct (Z.lt_trichotomy (row_featured a) (row_featured b)) as [Hlt|[Heq|Hgt]].
  - right. apply orb_true_iff. left. now apply Z.ltb_lt.
  - destruct (String.leb_total (row_posted_date b) (row_posted_date a)) as [Hle|Hle].
    + left. apply orb_true_iff. right. apply andb_true_iff.
      split; [now apply Z.eqb_eq | exact Hle].
    + right. apply orb_true_iff. right. apply andb_true_iff.
      split; [now apply Z.eqb_eq | exact Hle].
  - left. apply orb_true_iff. left. now apply Z.ltb_lt.
Qed.

Lemma selectAll_sorted (t : Table) : Sorted OrderBy (selectAll t).
Proof. apply (Sorted_merge_sort OrderBy). Qed.

Lemma selectAll_rows (t : Table) : selectAll t ≡ₚ rows t.
Proof. apply (merge_sort_Permutation OrderBy). Qed.

Lemma Sorted_fmap_on {A B : Type} (R : relation A) (R' : relation B)
  (Q : A -> Prop) (f : A -> B) (l : list A) :
  (forall x y, Q x -> Q y -> R x y -> R' (f x) (f y)) ->
  Forall Q l -> Sorted R l -> Sorted R' (f <$> l).
Proof.
  intros Hmono HQ Hs. induction Hs as [|x l Hs IH Hhd]; [constructor|].
  apply Forall_cons in HQ as [Hx HQ]. rewrite fmap_cons.
  constructor; [now apply IH|].
  destruct Hhd as [|y l' Hxy]; [constructor|].
  rewrite fmap_cons. constructor. apply Forall_cons in HQ as [Hy _].
  now apply Hmono.
Qed.

Lemma jobOfRow_order (a b : Row) :
  (row_featured a = 0 \/ row_featured a = 1) ->
  (row_featured b = 0 \/ row_featured b = 1) ->
  OrderBy a b -> featuredThenNewest (jobOfRow P a) (jobOfRow P b).
Proof.
  unfold OrderBy, orderedBefore, featuredThenNewest, dateText, truthy_flag.
  cbn [jobOfRow featured postedDate]. unfold default; cbn [from_option].
  unfold Datatypes.id.
  intros Ha Hb Hab. apply orb_true_iff in Hab as [Hlt|Heq].
  - apply Z.ltb_lt in Hlt. left.
    destruct Ha as [Ea|Ea], Hb as [Eb|Eb]; rewrite Ea, Eb in *;
      first [lia | split; reflexivity].
  - apply andb_true_iff in Heq as [Heq Hle]. apply Z.eqb_eq in Heq.
    right. now rewrite Heq.
Qed.

Lemma flagsAreBits_rows (t : Table) :
  flagsAreBits t ->
  Forall (fun r => row_featured r = 0 \/ row_featured r = 1) (rows t).
Proof.
  intros Hbits. apply Forall_forall. intros r Hr.
  unfold rows in Hr. apply list_elem_of_fmap in Hr as ([k r'] & -> & Hkr).
  apply elem_of_map_to_list in Hkr. exact (Hbits k r' Hkr).
Qed.

Lemma getJobs_sorted (t : Table) :
  flagsAreBits t -> Sorted featuredThenNewest (getJobs P t).
Proof.
  intros Hbits. unfold getJobs.
  apply (Sorted_fmap_on OrderBy featuredThenNewest
           (fun r => row_featured r = 0 \/ row_featured r = 1)).
  - intros x y. apply jobOfRow_order.
  - rewrite selectAll_rows. now apply flagsAreBits_rows.
  - apply selectAll_sorted.
Qed.

Lemma flagsAreBits_empty : flagsAreBits ∅.
Proof. intros k r Hkr. now rewrite lookup_empty in Hkr. Qed.

Lemma flagsAreBits_writeRows (rs : list Row) (t : Table) :
  Forall (fun r => row_featured r = 0 \/ row_featured r = 1) rs ->
  flagsAreBits t -> flagsAreBits (writeRows rs t).
Proof.
  revert t. induction rs as [|r rs IH]; intros t Hrs Ht; [exact Ht|].
  apply Forall_cons in Hrs as [Hr Hrs]. cbn [writeRows fold_left].
  apply IH; [exact Hrs|]. intros k r' Hk.
  destruct (decide (row_id r = k)) as [<-|Hne].
  - rewrite lookup_insert_eq in Hk. injection Hk as <-. exact Hr.
  - rewrite lookup_insert_ne in Hk by exact Hne. exact (Ht k r' Hk).
Qed.

Lemma rowsOfJobs_bits (stamp : string) (jobs : list Job) (rs : list Row) :
  rowsOfJobs P stamp jobs = Resolved rs ->
  Forall (fun r => row_featured r = 0 \/ row_featured r = 1) rs
  /\ row_id <$> rs = id <$> jobs.
Proof.
  revert rs. induction jobs as [|j jobs IH]; intros rs; cbn [rowsOfJobs].
  - intros [= <-]. now split.
  - destruct (rowOfJob P stamp j) as [r|] eqn:Er; [|discriminate].
    destruct (rowsOfJobs P stamp jobs) as [rs'|]; [|discriminate].
    intros [= <-]. destruct (IH rs' eq_refl) as [Hbits Hids]. split.
    + constructor; [|exact Hbits].
      rewrite (rowOfJob_featured P _ _ _ Er). destruct (truthy_flag _); auto.
    + rewrite !fmap_cons, Hids. now rewrite (rowOfJob_id P _ _ _ Er).
Qed.

(** [saveJobs] keeps every [featured] cell a bit. *)
Lemma flagsAreBits_saveJobs (stamp : string) (jobs : list Job) (t : Table) :
  flagsAreBits t -> flagsAreBits (fst (saveJobs P stamp jobs t)).
Proof.
  intros Ht. rewrite saveJobs_all_or_nothing.
  destruct (rowsOfJobs P stamp jobs) as [rs|] eqn:E; [|exact Ht].
  apply flagsAreBits_writeRows; [|exact Ht]. now apply (rowsOfJobs_bits stamp jobs).
Qed.

Lemma rows_writeRows_fresh (rs : list Row) (t : Table) :
  NoDup (row_id <$> rs) ->
  (forall r, r ∈ rs -> t !! row_id r = None) ->
  rows (writeRows rs t) ≡ₚ rs ++ rows t.
Proof.
  revert t. induction rs as [|r rs IH]; intros t Hnd Hfresh; [reflexivity|].
  rewrite fmap_cons in Hnd. apply NoDup_cons in Hnd as [Hr Hnd].
  cbn [writeRows fold_left]. fold (writeRows rs (<[row_id r := r]> t)).
  rewrite IH; [|exact Hnd|].
  - unfold rows. rewrite map_to_list_insert by (apply Hfresh; left).
    rewrite fmap_cons. cbn [snd].
    now rewrite <- Permutation_middle.
  - intros r' Hr'. rewrite lookup_insert_ne; [apply Hfresh; now right|].
    intros Heq. apply Hr. rewrite Heq. now apply list_elem_of_fmap_2.
Qed.

Lemma jobOfRow_summary (stamp : string) (j : Job) (r : Row) :
  rowOfJob P stamp j = Resolved r ->
  id (jobOfRow P r) = id j
  /\ title (jobOfRow P r) = title j
  /\ company (jobOfRow P r) = company j
  /\ location (jobOfRow P r) = location j
  /\ type (jobOfRow P r) = type j
  /\ category (jobOfRow P r) = category j
  /\ featured (jobOfRow P r) = Some (truthy_flag (featured j))
  /\ (forall s, postedDate j = DateText s -> postedDate (jobOfRow P r) = DateText s).
Proof.
  unfold rowOfJob. destruct (bindRequirements P j); [|discriminate].
  destruct (bindPostedDate P j) as [posted|] eqn:Ep; [|discriminate].
  destruct (category j) as [cat|] eqn:Ec; [|discriminate].
  intros [= <-]. cbn. repeat split; try reflexivity.
  - now destruct (truthy_flag (featured j)).
  - intros s Hs. unfold bindPostedDate in Ep. rewrite Hs in Ep. congruence.
Qed.

End CatalogueOrder.

(** ** [refreshFromApi] *)

Section RefreshProperties.
Import Database JobsContext.
Variable P : Platform.
Variable env : Env.

#[local] Arguments saveJobs : simpl never.
#[local] Arguments updateLastSyncTime : simpl never.
#[local] Arguments mergeCache : simpl never.

(** The run that reaches the end of the [try] block. *)
Lemma refreshFromApi_states_saved (r : Render) (show : bool) (σ : State)
  (jobsData : list Job) (t : Table) :
  isConnected env = true ->
  catalogue env = Resolved jobsData ->
  saveJobs P (stamp env) jobsData (table σ) = (t, Resolved tt) ->
  exists σ0 σ1 σ2 σ3 σ4,
    refreshFromApi_states P env r show σ = [σ0; σ1; σ2; σ3; σ4]
    /\ refreshFromApi P env r show σ = σ4
    /\ (table σ3 = t /\ jobsCache σ3 = jobsCache σ /\ storage σ3 = storage σ
        /\ jobs σ3 = jobsData)
    /\ (table σ4 = t
        /\ jobsCache σ4 = mergeCache (r_jobsCache r) jobsData
        /\ storage σ4 = updateLastSyncTime (now env) (storage σ)
        /\ jobs σ4 = jobsData /\ error σ4 = None
        /\ requests σ4 = requests σ ++ [FetchAll]).
Proof.
  intros Hc Hcat Hsave. unfold refreshFromApi, refreshFromApi_states.
  rewrite Hc, Hcat. cbn [negb].
  destruct show; cbn [table setJobs setCategories send setIsOffline setIsRefreshing];
    rewrite Hsave; do 5 eexists; (split; [reflexivity|]);
    (split; [reflexivity|]); cbn; repeat split; reflexivity.
Qed.

(** The run whose [fetchJobs] throws. *)
Lemma refreshFromApi_fetch_failed (r : Render) (show : bool) (σ : State) (e : string) :
  isConnected env = true ->
  catalogue env = Rejected e ->
  let σ' := refreshFromApi P env r show σ in
  jobs σ' = jobs σ /\ jobsCache σ' = jobsCache σ /\ table σ' = table σ
  /\ storage σ' = storage σ
  /\ error σ' = match r_jobs r with
                | [] => Some "Failed to load data. Please check your connection and try again."
                | _ => error σ
                end.
Proof.
  intros Hc Hcat. unfold refreshFromApi, refreshFromApi_states.
  rewrite Hc, Hcat. cbn [negb]. unfold catchRefresh.
  destruct show, (r_jobs r); cbn; repeat split; reflexivity.
Qed.

(** The run whose [saveJobs] throws: every state it passes through has
    the table and the last-sync slot it started with. *)
Lemma refreshFromApi_save_failed (r : Render) (show : bool) (σ : State)
  (jobsData : list Job) (e : string) :
  isConnected env = true ->
  catalogue env = Resolved jobsData ->
  snd (saveJobs P (stamp env) jobsData (table σ)) = Rejected e ->
  Forall (fun σi => table σi = table σ /\ storage σi = storage σ
                    /\ jobsCache σi = jobsCache σ)
         (refreshFromApi_states P env r show σ)
  /\ table (refreshFromApi P env r show σ) = table σ
  /\ storage (refreshFromApi P env r show σ) = storage σ
  /\ jobsCache (refreshFromApi P env r show σ) = jobsCache σ
  /\ jobs (refreshFromApi P env r show σ) = jobsData
  /\ error (refreshFromApi P env r show σ)
     = match r_jobs r with
       | [] => Some "Failed to load data. Please check your connection and try again."
       | _ => error σ
       end.
Proof.
  intros Hc Hcat Hsave. pose proof (saveJobs_rejected P _ _ _ _ Hsave) as Hfst.
  unfold refreshFromApi, refreshFromApi_states.
  rewrite Hc, Hcat. cbn [negb]. unfold catchRefresh.
  destruct show; cbn [table setJobs setCategories send setIsOffline setIsRefreshing];
    destruct (saveJobs P (stamp env) jobsData (table σ)) as [t [[]|e']];
    cbn [fst snd] in *; try discriminate; subst t;
    destruct (r_jobs r); cbn; (split; [repeat constructor|repeat split; reflexivity]).
Qed.

(** No state of a run has a changed last-sync slot unless [saveJobs]
    committed the fetched batch before. *)
Lemma refreshFromApi_timestamp_after_commit (r : Render) (show : bool) (σ σi : State) :
  σi ∈ refreshFromApi_states P env r show σ ->
  storage σi <> storage σ ->
  exists jobsData,
    catalogue env = Resolved jobsData
    /\ saveJobs P (stamp env) jobsData (table σ) = (table σi, Resolved tt).
Proof.
  unfold refreshFromApi_states, catchRefresh.
  destruct (isConnected env); cbn [negb].
  - destruct (catalogue env) as [jobsData|e].
    + destruct show, (r_jobs r);
        cbn [table setJobs setCategories send setIsOffline setIsRefreshing];
        destruct (saveJobs P (stamp env) jobsData (table σ)) as [t [[]|e']] eqn:Es;
        intros Hin Hne; repeat (apply elem_of_cons in Hin as [->|Hin]);
        try (exfalso; apply Hne; reflexivity);
        try (now apply elem_of_nil in Hin);
        exists jobsData; (split; [reflexivity|]); cbn; exact Es.
    + destruct show, (r_jobs r); intros Hin Hne;
        repeat (apply elem_of_cons in Hin as [->|Hin]);
        try (exfalso; apply Hne; reflexivity);
        now apply elem_of_nil in Hin.
  - destruct show; intros Hin Hne;
      repeat (apply elem_of_cons in Hin as [->|Hin]);
      try (exfalso; apply Hne; reflexivity);
      now apply elem_of_nil in Hin.
Qed.

End RefreshProperties.

(** ** Bulk refresh: what a failure leaves behind *)

Section RefreshFailure.
Import Database JobsContext.
Variable P : Platform.

Lemma saveJobs_rejected_nonempty (stamp : string) (jobsData : list Job)
  (t : Table) (e : string) :
  snd (saveJobs P stamp jobsData t) = Rejected e -> jobsData <> [].
Proof. now intros H ->. Qed.

(** C4.  When [fetchJobs] delivered a catalogue and [saveJobs] then
    fails, every state of the refresh, and the state it ends in, has the
    [jobs] table and the last-sync slot of the state it started from.
    Moreover, in every run, a state whose last-sync slot differs from the
    initial one comes after [saveJobs] has committed the whole fetched
    batch: the timestamp is never written on a failed write, and a partial
    write does not exist. *)
Theorem refreshFromApi_no_clobber (env : Env) (r : Render) (show : bool) (σ : State) :
  (forall jobsData e,
     isConnected env = true ->
     catalogue env = Resolved jobsData ->
     snd (saveJobs P (stamp env) jobsData (table σ)) = Rejected e ->
     Forall (fun σi => table σi = table σ /\ storage σi = storage σ)
            (refreshFromApi_states P env r show σ)
     /\ table (refreshFromApi P env r show σ) = table σ
     /\ storage (refreshFromApi P env r show σ) = storage σ)
  /\ (forall σi,
        σi ∈ refreshFromApi_states P env r show σ ->
        storage σi <> storage σ ->
        exists jobsData,
          catalogue env = Resolved jobsData
          /\ saveJobs P (stamp env) jobsData (table σ) = (table σi, Resolved tt)).
Proof.
  split.
  - intros jobsData e Hc Hcat Hsave.
    destruct (refreshFromApi_save_failed P env r show σ jobsData e Hc Hcat Hsave)
      as (Hall & Ht & Hs & _).
    split; [|now split].
    eapply Forall_impl; [exact Hall|]. now intros σi (? & ? & _).
  - apply refreshFromApi_timestamp_after_commit.
Qed.

End RefreshFailure.

Lemma refreshFromApi_no_clobber_witness :
  snd (Database.saveJobs Sample.platform "2023-11-14T22:13:20.000Z"
         Sample.refused (JobsContext.table Sample.populated))
  = Rejected "NOT NULL constraint failed: jobs.category"
  /\ JobsContext.table Sample.afterFailedSave = JobsContext.table Sample.populated
  /\ JobsContext.storage Sample.afterFailedSave = JobsContext.storage Sample.populated.
Proof.
  destruct (refreshFromApi_no_clobber Sample.platform
              (Sample.env true (Resolved Sample.refused))
              (JobsContext.render Sample.populated) true Sample.populated)
    as [Hfail _].
  split; [reflexivity|].
  apply (Hfail Sample.refused "NOT NULL constraint failed: jobs.category");
    reflexivity.
Defined.

(** ** Bulk refresh: errors and the displayed list *)

Section RefreshErrors.
Import Database JobsContext.
Variable P : Platform.

(** The [catch] of [refreshFromApi], for the closure [r] of whichever
    render created the function.  When [fetchJobs] throws, or when
    [saveJobs] throws after a successful fetch, the memory cache, the
    [jobs] table and the last-sync slot are those of the starting state.
    The test of the [catch] reads the [jobs] of the closure, not the list
    on display.  After a failed fetch the displayed list is unchanged;
    after a failed save it is the fetched catalogue, never empty, which
    [setJobs] put on display before the save. *)
Lemma refreshFromApi_error_absorbed (env : Env) (r : Render) (show : bool) (σ : State) :
  isConnected env = true ->
  (forall e,
     catalogue env = Rejected e ->
     untouched σ (refreshFromApi P env r show σ)
     /\ jobs (refreshFromApi P env r show σ) = jobs σ
     /\ surfacedIfEmpty (r_jobs r) σ (refreshFromApi P env r show σ))
  /\ (forall jobsData e,
        catalogue env = Resolved jobsData ->
        snd (saveJobs P (stamp env) jobsData (table σ)) = Rejected e ->
        untouched σ (refreshFromApi P env r show σ)
        /\ jobs (refreshFromApi P env r show σ) = jobsData
        /\ jobsData <> []
        /\ surfacedIfEmpty (r_jobs r) σ (refreshFromApi P env r show σ)).
Proof.
  intros Hc. unfold untouched, surfacedIfEmpty. split.
  - intros e Hcat.
    destruct (refreshFromApi_fetch_failed P env r show σ e Hc Hcat)
      as (Hj & Hcache & Ht & Hs & He).
    split; [now repeat split|]. split; [exact Hj|]. rewrite He.
    destruct (r_jobs r); split; congruence.
  - intros jobsData e Hcat Hsave.
    destruct (refreshFromApi_save_failed P env r show σ jobsData e Hc Hcat Hsave)
      as (_ & Ht & Hs & Hcache & Hj & He).
    split; [now repeat split|]. split; [exact Hj|].
    split; [exact (saveJobs_rejected_nonempty P _ _ _ _ Hsave)|].
    rewrite He. destruct (r_jobs r); split; congruence.
Qed.

End RefreshErrors.

(** ** Bulk refresh: the merge into the memory cache *)

Section MergeProperties.
Import Database JobsContext.
Variable P : Platform.

Lemma mergeJob_lookup_other (c u : gmap string Job) (job : Job) (k : string) :
  id job <> k -> mergeJob c u job !! k = u !! k.
Proof.
  intros Hne. unfold mergeJob.
  destruct (c !! id job) as [existing|]; [destruct (detailed existing)|];
    now rewrite lookup_insert_ne.
Qed.

Lemma mergeJob_lookup_same (c u : gmap string Job) (job : Job) :
  mergeJob c u job !! id job
  = Some (match c !! id job with
          | Some existing =>
              if detailed existing then preserveDetails existing job else job
          | None => job
          end).
Proof.
  unfold mergeJob.
  destruct (c !! id job) as [existing|]; [destruct (detailed existing)|];
    now rewrite lookup_insert_eq.
Qed.

Lemma fold_mergeJob_lookup_other (c u : gmap string Job) (jobsData : list Job) (k : string) :
  k ∉ id <$> jobsData ->
  fold_left (mergeJob c) jobsData u !! k = u !! k.
Proof.
  revert u. induction jobsData as [|job rest IH]; intros u Hk; [reflexivity|].
  rewrite fmap_cons, not_elem_of_cons in Hk. destruct Hk as [Hne Hk].
  cbn [fold_left]. rewrite IH by exact Hk.
  apply mergeJob_lookup_other. congruence.
Qed.

(** An id the catalogue does not mention keeps its captured entry. *)
Lemma mergeCache_lookup_absent (c : gmap string Job) (jobsData : list Job) (k : string) :
  k ∉ id <$> jobsData -> mergeCache c jobsData !! k = c !! k.
Proof. apply fold_mergeJob_lookup_other. Qed.

(** The entry of an id the catalogue mentions is decided by its last
    record of that id and by the captured entry. *)
Lemma mergeCache_lookup_last (c : gmap string Job) (before after : list Job) (job : Job) :
  id job ∉ id <$> after ->
  mergeCache c (before ++ job :: after) !! id job
  = Some (match c !! id job with
          | Some existing =>
              if detailed existing then preserveDetails existing job else job
          | None => job
          end).
Proof.
  intros Hlast. unfold mergeCache. rewrite fold_left_app. cbn [fold_left].
  rewrite fold_mergeJob_lookup_other by exact Hlast.
  apply mergeJob_lookup_same.
Qed.

(** The merge of [refreshFromApi], for the closure [r] of whichever
    render created the function.  A refresh that fetched and saved a
    catalogue leaves, for the last record [job] of each id in it, this
    entry in the memory cache.  When the cache of the closure
    holds a detailed record for the id, the entry keeps that record's
    [description], [requirements], [benefits] and also its [postedDate],
    and takes [title], [company], [location], [type], [category],
    [featured], [salary], [companyLogo] and [workplace] from [job].  When
    the captured cache holds no detailed record for the id, the entry is
    [job] itself. *)
Lemma refreshFromApi_merge (env : Env) (r : Render) (show : bool) (σ : State)
  (before after : list Job) (job : Job) :
  isConnected env = true ->
  catalogue env = Resolved (before ++ job :: after) ->
  id job ∉ id <$> after ->
  snd (saveJobs P (stamp env) (before ++ job :: after) (table σ)) = Resolved tt ->
  (forall existing,
     r_jobsCache r !! id job = Some existing ->
     detailed existing = true ->
     exists merged,
       jobsCache (refreshFromApi P env r show σ) !! id job = Some merged
       /\ (description merged = description existing
           /\ requirements merged = requirements existing
           /\ benefits merged = benefits existing
           /\ postedDate merged = postedDate existing)
       /\ (title merged = title job
           /\ company merged = company job
           /\ location merged = location job
           /\ type merged = type job
           /\ category merged = category job
           /\ featured merged = featured job)
       /\ (salary merged = salary job
           /\ companyLogo merged = companyLogo job
           /\ workplace merged = workplace job))
  /\ (detailed_entry (r_jobsCache r !! id job) = false ->
      jobsCache (refreshFromApi P env r show σ) !! id job = Some job).
Proof.
  intros Hc Hcat Hlast Hsave.
  destruct (saveJobs P (stamp env) (before ++ job :: after) (table σ))
    as [t [[]|e]] eqn:Es; [|discriminate].
  destruct (refreshFromApi_states_saved P env r show σ _ t Hc Hcat Es)
    as (σ0 & σ1 & σ2 & σ3 & σ4 & _ & -> & _ & _ & -> & _).
  rewrite mergeCache_lookup_last by exact Hlast. split.
  - intros existing -> Hd. rewrite Hd.
    eexists. split; [reflexivity|]. cbn. repeat split; reflexivity.
  - intros Hnot. destruct (r_jobsCache r !! id job) as [existing|]; [|reflexivity].
    cbn [detailed_entry] in Hnot. now rewrite Hnot.
Qed.

End MergeProperties.

Section MergeExamples.

(** The members the preserving branch takes from the cached record and
    from the incoming one: the cached [postedDate] stays, the incoming
    [salary] is taken. *)
Lemma preserveDetails_members :
  let merged := JobsContext.preserveDetails Sample.cached42 Sample.incoming42 in
  postedDate merged = DateText "2024-01-01"
  /\ description merged = Some "Design the catalogue."
  /\ title merged = "New Title"
  /\ salary merged = SalaryText "negotiable".
Proof. repeat split; reflexivity. Qed.

End MergeExamples.

(** ** The catalogue as [getJobs] returns it *)

Section CatalogueClaims.
Import Database JobsContext.
Variable P : Platform.

Lemma getJobs_ids (t : Table) (rs : list Row) :
  rows t ≡ₚ rs -> id <$> getJobs P t ≡ₚ row_id <$> rs.
Proof.
  intros Hrows. unfold getJobs. rewrite <- list_fmap_compose.
  rewrite selectAll_rows, Hrows. reflexivity.
Qed.

(** C9.  [getJobs] returns the rows of the table, each exactly once, in
    the order [featured DESC, posted_date DESC]; read on the returned
    records (the [featured] cells being the bits [saveJobs] writes) a
    featured record precedes one that is not, and among equals the later
    [postedDate] comes first.  In particular, after a refresh that
    fetched records of distinct ids into an empty table and saved them,
    [getJobs] returns one record per fetched record, with its id and its
    summary fields, in that order; for three fetched records it returns
    three. *)
Theorem getJobs_featured_then_newest (t : Table) (env : Env) (r : Render)
  (show : bool) (σ : State) (jobsData : list Job) :
  (Sorted OrderBy (selectAll t) /\ selectAll t ≡ₚ rows t
   /\ getJobs P t = jobOfRow P <$> selectAll t)
  /\ (flagsAreBits t -> Sorted featuredThenNewest (getJobs P t))
  /\ (table σ = ∅ ->
      isConnected env = true ->
      catalogue env = Resolved jobsData ->
      NoDup (id <$> jobsData) ->
      snd (saveJobs P (stamp env) jobsData ∅) = Resolved tt ->
      Sorted featuredThenNewest (getJobs P (table (refreshFromApi P env r show σ)))
      /\ id <$> getJobs P (table (refreshFromApi P env r show σ)) ≡ₚ id <$> jobsData
      /\ length (getJobs P (table (refreshFromApi P env r show σ))) = length jobsData
      /\ (forall j, j ∈ jobsData ->
            exists j', j' ∈ getJobs P (table (refreshFromApi P env r show σ))
                       /\ id j' = id j /\ title j' = title j
                       /\ company j' = company j /\ location j' = location j
                       /\ type j' = type j /\ category j' = category j
                       /\ featured j' = Some (truthy_flag (featured j))
                       /\ (forall s, postedDate j = DateText s ->
                                     postedDate j' = DateText s))).
Proof.
  split; [split; [apply selectAll_sorted|split; [apply selectAll_rows|reflexivity]]|].
  split; [apply getJobs_sorted|].
  intros Hempty Hc Hcat Hnd Hsave.
  destruct (saveJobs P (stamp env) jobsData ∅) as [t' [[]|e]] eqn:Es; [|discriminate].
  rewrite <- Hempty in Es.
  destruct (refreshFromApi_states_saved P env r show σ _ t' Hc Hcat Es)
    as (σ0 & σ1 & σ2 & σ3 & σ4 & _ & -> & _ & -> & _).
  rewrite Hempty, saveJobs_all_or_nothing in Es.
  destruct (rowsOfJobs P (stamp env) jobsData) as [rs|] eqn:Ers; [|discriminate].
  injection Es as <-.
  destruct (rowsOfJobs_bits P _ _ _ Ers) as [Hbits Hids].
  assert (Hrows : rows (writeRows rs ∅) ≡ₚ rs).
  { rewrite rows_writeRows_fresh.
    - unfold rows. rewrite map_to_list_empty. cbn. now rewrite app_nil_r.
    - now rewrite Hids.
    - intros r0 _. apply lookup_empty. }
  assert (Hperm : id <$> getJobs P (writeRows rs ∅) ≡ₚ id <$> jobsData).
  { rewrite (getJobs_ids _ rs Hrows). now rewrite Hids. }
  split; [|split; [exact Hperm|split]].
  - apply getJobs_sorted, flagsAreBits_writeRows; [exact Hbits|apply flagsAreBits_empty].
  - apply Permutation_length in Hperm. now rewrite !length_fmap in Hperm.
  - intros j Hj. apply list_elem_of_split in Hj as (before & after & ->).
    destruct (rowsOfJobs_split P _ _ _ _ _ Ers) as (rb & r0 & ra & -> & Hr0 & _ & _).
    exists (jobOfRow P r0). split.
    + unfold getJobs. apply list_elem_of_fmap_2.
      rewrite selectAll_rows, Hrows. apply elem_of_app. right. left.
    + exact (jobOfRow_summary P _ _ _ Hr0).
Qed.

End CatalogueClaims.

Section CatalogueExamples.
Import Database JobsContext.

Lemma getJobs_featured_then_newest_witness :
  Sorted featuredThenNewest (getJobs Sample.platform (table Sample.afterFirstRefresh))
  /\ id <$> getJobs Sample.platform (table Sample.afterFirstRefresh) = ["b"; "c"; "a"]
  /\ length (getJobs Sample.platform (table Sample.afterFirstRefresh)) = 3%nat.
Proof.
  destruct (getJobs_featured_then_newest Sample.platform
              (table Sample.afterFirstRefresh)
              (Sample.env true (Resolved Sample.threeSummaries))
              (render Sample.blank) false Sample.blank Sample.threeSummaries)
    as (_ & Hany & Hfirst).
  destruct Hfirst as (Hsorted & _ & Hlen & _).
  - reflexivity.
  - reflexivity.
  - reflexivity.
  - cbn. repeat constructor; rewrite ?elem_of_cons, ?elem_of_nil; intuition discriminate.
  - reflexivity.
  - split; [exact Hsorted|]. split; [vm_compute; reflexivity | exact Hlen].
Defined.

End CatalogueExamples.

(** ** What a record keeps across the table *)

Section RoundTrip.
Import Database.
Variable P : Platform.

Lemma or_empty_Some (s : string) : or_empty (Some s) = s.
Proof.
  unfold or_empty, truthy_text. destruct (String.eqb_spec s "") as [->|_]; reflexivity.
Qed.

Lemma or_empty_detailed (j : Job) :
  detailed j = true -> Some (or_empty (description j)) = description j.
Proof.
  unfold detailed. destruct (description j) as [s|]; [|discriminate].
  intros _. now rewrite or_empty_Some.
Qed.

Lemma jobOfRow_unpersisted (row : Row) :
  benefits (jobOfRow P row) = None
  /\ workplace (jobOfRow P row) = None
  /\ companyLogo (jobOfRow P row) = None.
Proof. now repeat split. Qed.

Lemma getJobs_from_row (t : Table) (j : Job) :
  j ∈ getJobs P t <-> exists k row, t !! k = Some row /\ j = jobOfRow P row.
Proof.
  unfold getJobs. rewrite list_elem_of_fmap. split.
  - intros (row & -> & Hrow). rewrite selectAll_rows in Hrow.
    unfold rows in Hrow. apply list_elem_of_fmap in Hrow as ([k row'] & -> & Hk).
    apply elem_of_map_to_list in Hk. now exists k, row'.
  - intros (k & row & Hk & ->). exists row. split; [reflexivity|].
    rewrite selectAll_rows. unfold rows. apply list_elem_of_fmap.
    exists (k, row). split; [reflexivity|]. now apply elem_of_map_to_list.
Qed.

(** C10, as the code has it.  No record read from the table, by
    [getJobs] or by [getJobById], carries [benefits], [workplace] or
    [companyLogo].  A record that [saveJobs] wrote reads back, under its
    id, with the empty string for a missing [description], with its own
    [description] when it is detailed, with its own [requirements] when
    they are text, and, when they are a list, with the text the driver
    coerced the list to, never with the list. *)
Theorem store_round_trip (stamp : string) (before after : list Job) (j : Job)
  (t t' : Table) :
  (forall u k j', getJobById P k u = Some j' \/ j' ∈ getJobs P u ->
      benefits j' = None /\ workplace j' = None /\ companyLogo j' = None)
  /\ (saveJobs P stamp (before ++ j :: after) t = (t', Resolved tt) ->
      id j ∉ id <$> after ->
      exists j',
        getJobById P (id j) t' = Some j' /\ j' ∈ getJobs P t'
        /\ (description j = None -> description j' = Some "")
        /\ (detailed j = true -> description j' = description j)
        /\ (forall s, requirements j = Some (Text s) ->
                      requirements j' = requirements j)
        /\ (forall l, requirements j = Some (Items l) ->
              requirements j' <> requirements j
              /\ exists s, driverBind P (NPList l) = Some s
                           /\ requirements j' = Some (Text s))).
Proof.
  split.
  - intros u k j' [Hone|Hall].
    + unfold getJobById in Hone. destruct (u !! k) as [row|]; [|discriminate].
      injection Hone as <-. apply jobOfRow_unpersisted.
    + apply getJobs_from_row in Hall as (k' & row & _ & ->).
      apply jobOfRow_unpersisted.
  - intros Hsave Hlast.
    destruct (saveJobs_lookup P _ _ _ _ _ _ Hsave Hlast) as (row & Hrow & Hk).
    exists (jobOfRow P row). split; [unfold getJobById; now rewrite Hk|].
    split; [apply getJobs_from_row; now exists (id j), row|].
    unfold rowOfJob in Hrow.
    destruct (bindRequirements P j) as [req|] eqn:Ereq; [|discriminate].
    destruct (bindPostedDate P j) as [posted|]; [|discriminate].
    destruct (category j) as [cat|]; [|discriminate].
    injection Hrow as <-. cbn [jobOfRow description requirements row_description row_requirements].
    unfold bindRequirements in Ereq. refine (conj _ (conj _ (conj _ _))).
    + now intros ->.
    + apply or_empty_detailed.
    + intros txt Hs. rewrite Hs in *. rewrite or_empty_Some in Ereq. congruence.
    + intros l Hl. rewrite Hl in *. split; [discriminate|].
      destruct (driverBind P (NPList l)) as [txt|]; [|discriminate].
      exists txt. split; congruence.
Qed.

End RoundTrip.

Section RoundTripExamples.
Import Database.

Lemma store_round_trip_witness :
  exists j',
    getJobById Sample.platform "42"
      (fst (saveJobs Sample.platform "2024-01-02T09:00:00.000Z" [Sample.cached42] ∅))
    = Some j'
    /\ benefits j' = None
    /\ description j' = description Sample.cached42.
Proof.
  destruct (store_round_trip Sample.platform "2024-01-02T09:00:00.000Z"
              [] [] Sample.cached42 ∅
              (fst (saveJobs Sample.platform "2024-01-02T09:00:00.000Z"
                      [Sample.cached42] ∅)))
    as [Hnever Hback].
  destruct Hback as (j' & Hget & _ & _ & Hdesc & _).
  - reflexivity.
  - cbn. apply not_elem_of_nil.
  - exists j'. split; [exact Hget|]. split.
    + eapply Hnever. left. exact Hget.
    + apply Hdesc. reflexivity.
Defined.

(** C10, counterexample.  A detailed record whose [requirements] are the
    list [Figma, CSS] is saved and read back: its [benefits] are gone, its
    [description] is intact, and its [requirements] are no longer the
    list but one text. *)
Lemma store_round_trip_flattens_requirements :
  detailed Sample.cached42 = true
  /\ requirements Sample.cached42 = Some (Items ["Figma"; "CSS"])
  /\ requirements
       <$> getJobById Sample.platform "42"
             (fst (saveJobs Sample.platform "2024-01-02T09:00:00.000Z"
                     [Sample.cached42] ∅))
     = Some (Some (Text "Figma,CSS"))
  /\ description
       <$> getJobById Sample.platform "42"
             (fst (saveJobs Sample.platform "2024-01-02T09:00:00.000Z"
                     [Sample.cached42] ∅))
     = Some (description Sample.cached42).
Proof. repeat split; vm_compute; reflexivity. Qed.

End RoundTripExamples.

(** ** The remote catalogue client *)

Section RemoteClient.
Import Api.

Lemma fetchJobById_resolves (now : Z) (k : string) (x : Exchange) :
  exists payload, fetchJobById now k x = Resolved payload.
Proof.
  unfold fetchJobById. destruct x as [message|status body]; [now eexists|].
  destruct (negb (ok status)); [now eexists|].
  destruct body as [data|]; [|now eexists].
  destruct (member "job" data) as [job|]; [|now eexists].
  destruct (acceptJobData k _); now eexists.
Qed.

Lemma fetchJobById_failed (now : Z) (k : string) (x : Exchange) :
  failed x -> fetchJobById now k x = Resolved (Mocked (getMockJobById now k)).
Proof.
  unfold fetchJobById, failed. destruct x as [message|status body]; [reflexivity|].
  intros [-> | ->]; [reflexivity|]. now destruct (negb (ok status)).
Qed.

Lemma fetchJobs_failed (x : Exchange) :
  failed x -> exists message, fetchJobs x = Rejected message.
Proof.
  unfold fetchJobs, failed. destruct x as [message|status body]; [now eexists|].
  intros [-> | ->]; [now eexists|]. destruct (negb (ok status)); now eexists.
Qed.

Lemma fetchJobById_incomplete (now : Z) (k : string) (status : Z)
  (members : list (string * json)) :
  ok status = true ->
  truthy (lookupMember "job" members) = false ->
  truthy (lookupMember "title" members) && truthy (lookupMember "company" members)
  = false ->
  fetchJobById now k (Response status (Some (JObject members)))
  = Resolved (Mocked (getMockJobById now k)).
Proof.
  intros Hok Hjob Hincomplete. unfold fetchJobById. rewrite Hok. cbn [negb member].
  rewrite Hjob. cbn [acceptJobData]. now rewrite Hincomplete.
Qed.

(** C7, as the code has it.  On a failed request [fetchJobs] throws, the
    error carrying nothing but a message.  [fetchJobById] does not: on a
    failed request, and on a served object without a title or a company,
    it resolves with the built-in mock record under the requested id, and
    on no exchange whatsoever does it reject. *)
Theorem remote_failure_contract (now : Z) (k : string) (x : Exchange) :
  (failed x ->
   (exists message, fetchJobs x = Rejected message)
   /\ fetchJobById now k x = Resolved (Mocked (getMockJobById now k)))
  /\ (forall status members,
        x = Response status (Some (JObject members)) ->
        ok status = true ->
        truthy (lookupMember "job" members) = false ->
        truthy (lookupMember "title" members)
        && truthy (lookupMember "company" members) = false ->
        fetchJobById now k x = Resolved (Mocked (getMockJobById now k)))
  /\ (exists payload, fetchJobById now k x = Resolved payload).
Proof.
  split; [|split; [|apply fetchJobById_resolves]].
  - intros Hx. split; [now apply fetchJobs_failed | now apply fetchJobById_failed].
  - intros status members ->. apply fetchJobById_incomplete.
Qed.

Lemma remote_failure_contract_witness :
  (exists message, fetchJobs (Response 503 None) = Rejected message)
  /\ fetchJobById 1700000000000 "7" (Response 503 None)
     = Resolved (Mocked (getMockJobById 1700000000000 "7")).
Proof.
  apply (remote_failure_contract 1700000000000 "7" (Response 503 None)).
  left. reflexivity.
Defined.

(** C7, counterexample.  The network is down and the server answers 404:
    in both cases [fetchJobById] resolves, with a record titled as the
    mock is, instead of throwing. *)
Lemma fetchJobById_resolves_with_mock :
  fetchJobById 1700000000000 "7" (NetworkFailure "Network request failed")
  = Resolved (Mocked (getMockJobById 1700000000000 "7"))
  /\ fetchJobById 1700000000000 "7" (Response 404 (Some (JObject [("error", JString "Not found")])))
     = Resolved (Mocked (getMockJobById 1700000000000 "7"))
  /\ id (getMockJobById 1700000000000 "7") = "7"
  /\ title (getMockJobById 1700000000000 "7") = "Senior React Native Developer".
Proof. repeat split; reflexivity. Qed.

End RemoteClient.

(** ** [getJobById] *)

Section DetailRead.
Import JobsContext.
Variable P : Platform.
Variable env : Env.

#[local] Arguments Database.saveJobs : simpl never.

Lemma call_suspends (r : Render) (k : string) :
  detailed_entry (r_jobsCache r !! k) = false ->
  r_pendingFetches r !! k = None ->
  call r k = {| key := k; closure := r; pc := AtDatabase |}.
Proof. intros Hd Hp. unfold call. now rewrite Hd, Hp. Qed.

(** A caller whose render shows a pending fetch adopts that promise and
    sends nothing. *)
Lemma call_attaches (r : Render) (k : string) (n : nat) :
  detailed_entry (r_jobsCache r !! k) = false ->
  r_pendingFetches r !! k = Some n ->
  pc (call r k) = Attached n.
Proof. intros Hd Hp. unfold call. now rewrite Hd, Hp. Qed.

Lemma step_database_miss (c : Call) (σ : State) :
  pc c = AtDatabase ->
  detailed_entry
    (if readable env then Database.getJobById P (key c) (table σ) else None) = false ->
  step P env c σ = (at_ c AtNetInfo, σ).
Proof.
  intros Hpc Hmiss. unfold step. rewrite Hpc.
  destruct (if readable env then _ else _) as [localJob|]; [|reflexivity].
  cbn [detailed_entry] in Hmiss. now rewrite Hmiss.
Qed.


Lemma step_online (c : Call) (σ : State) :
  pc c = AtNetInfo ->
  isConnected env = true ->
  step P env c σ
  = (at_ c (AtFetch (length (requests σ))),
     setPendingFetches (<[key c := length (requests σ)]> (pendingFetches σ))
       (send (FetchOne (key c)) (setIsOffline false σ))).
Proof. intros Hpc Hon. unfold step. now rewrite Hpc, Hon. Qed.



(** C2, on the code.  Two calls for an id that is in neither cache nor
    table are started from the same render while the device is online.
    Each passes the pending-fetch test before the other has registered
    its promise, so once both have been resumed twice two requests for
    the id have been sent, and each call waits for its own. *)
Theorem getJobById_concurrent_calls_fetch_twice (σ : State) (k : string) :
  isConnected env = true ->
  jobsCache σ !! k = None ->
  pendingFetches σ !! k = None ->
  table σ !! k = None ->
  requests (snd (run P env [0; 1; 0; 1]%nat
                   [call (render σ) k; call (render σ) k] σ))
  = requests σ ++ [FetchOne k; FetchOne k]
  /\ pc <$> fst (run P env [0; 1; 0; 1]%nat
                   [call (render σ) k; call (render σ) k] σ)
     = [AtFetch (length (requests σ)); AtFetch (S (length (requests σ)))].
Proof.
  intros Hon Hcache Hpend Htable.
  assert (Hcall : call (render σ) k
                  = {| key := k; closure := render σ; pc := AtDatabase |}).
  { apply call_suspends; cbn; [now rewrite Hcache | exact Hpend]. }
  assert (Hmiss : forall σ', table σ' = table σ ->
            detailed_entry (if readable env
                            then Database.getJobById P k (table σ') else None) = false).
  { intros σ' ->. unfold Database.getJobById. rewrite Htable. now destruct (readable env). }
  rewrite Hcall. cbn [run lookup list_lookup].
  rewrite step_database_miss by (reflexivity || now apply Hmiss).
  cbn [insert list_insert run lookup list_lookup].
  rewrite step_database_miss by (reflexivity || now apply Hmiss).
  cbn [insert list_insert run lookup list_lookup].
  rewrite step_online by (reflexivity || exact Hon).
  cbn [insert list_insert run lookup list_lookup].
  rewrite step_online by (reflexivity || exact Hon).
  cbn [insert list_insert run lookup list_lookup fst snd].
  cbn. split.
  - now rewrite <- app_assoc.
  - rewrite length_app. cbn. now rewrite Nat.add_1_r.
Qed.

End DetailRead.

Section DetailReadExamples.
Import JobsContext.



Lemma getJobById_concurrent_calls_fetch_twice_witness :
  requests (snd (run Sample.platform Sample.online [0; 1; 0; 1]%nat
                   [call (render Sample.blank) "7"; call (render Sample.blank) "7"]
                   Sample.blank))
  = [FetchOne "7"; FetchOne "7"]
  /\ pc <$> fst (run Sample.platform Sample.online [0; 1; 0; 1]%nat
                   [call (render Sample.blank) "7"; call (render Sample.blank) "7"]
                   Sample.blank)
     = [AtFetch 0; AtFetch 1].
Proof.
  apply (getJobById_concurrent_calls_fetch_twice Sample.platform Sample.online
           Sample.blank "7"); reflexivity.
Defined.

End DetailReadExamples.

(** ** The order of the writes to cache and table *)

Section WriteOrder.
Import Database JobsContext.
Variable P : Platform.
Variable env : Env.

#[local] Arguments saveJobs : simpl never.

Lemma last_of_id (k : string) (jobsData : list Job) :
  k ∈ id <$> jobsData ->
  exists before job after,
    jobsData = before ++ job :: after /\ id job = k /\ k ∉ id <$> after.
Proof.
  induction jobsData as [|j rest IH]; intros Hk; [now apply elem_of_nil in Hk|].
  destruct (decide (k ∈ id <$> rest)) as [Hin|Hout].
  - destruct (IH Hin) as (before & job & after & -> & Hid & Hlast).
    now exists (j :: before), job, after.
  - rewrite fmap_cons in Hk. apply elem_of_cons in Hk as [->|Hin]; [|contradiction].
    now exists [], j, rest.
Qed.

Lemma mergeCache_covers (c : gmap string Job) (jobsData : list Job) (j : Job) :
  j ∈ jobsData -> is_Some (mergeCache c jobsData !! id j).
Proof.
  intros Hj. destruct (last_of_id (id j) jobsData) as (before & job & after & -> & Hid & Hlast).
  { now apply list_elem_of_fmap_2. }
  rewrite <- Hid in *. rewrite mergeCache_lookup_last by exact Hlast. now eexists.
Qed.

Lemma step_fetched (c : Call) (σ : State) (n : nat) (jobData : Job) :
  pc c = AtFetch n ->
  detail env n (key c) = Resolved jobData ->
  step P env c σ
  = (at_ c (Flushing jobData),
     setPendingFetches (delete (key c) (pendingFetches σ))
       (setJobsCache (<[key c := jobData]> (jobsCache σ)) σ)).
Proof. intros Hpc Hd. unfold step. now rewrite Hpc, Hd. Qed.

(** C6, as the code has it.  The bulk refresh writes the table first:
    while it waits for the last-sync slot to be written, the table holds
    the committed batch and the memory cache is still the one the refresh
    started with; when it ends, every id of the batch is in the cache.
    The detail fetch writes the memory cache first: when its request has
    settled the cache holds the fetched record and the table is unchanged.
    The detached [saveJobs] completes afterwards: when it succeeds the
    table holds the row of the record under the record's id; when it
    fails the table is left as it was and the record is in the cache
    alone. *)
Theorem cache_and_table_write_order (r : Render) (show : bool) (σ : State)
  (jobsData : list Job) (t : Table) (c : Call) (n : nat) (jobData : Job) :
  (isConnected env = true ->
   catalogue env = Resolved jobsData ->
   saveJobs P (stamp env) jobsData (table σ) = (t, Resolved tt) ->
   exists σ0 σ1 σ2 σ3 σ4,
     refreshFromApi_states P env r show σ = [σ0; σ1; σ2; σ3; σ4]
     /\ (table σ3 = t /\ jobsCache σ3 = jobsCache σ /\ storage σ3 = storage σ)
     /\ (table σ4 = t
         /\ forall j, j ∈ jobsData -> is_Some (jobsCache σ4 !! id j)))
  /\ (pc c = AtFetch n ->
      detail env n (key c) = Resolved jobData ->
      jobsCache (snd (step P env c σ)) !! key c = Some jobData
      /\ table (snd (step P env c σ)) = table σ
      /\ pc (fst (step P env c σ)) = Flushing jobData
      /\ table (snd (step P env (fst (step P env c σ)) (snd (step P env c σ))))
         = fst (saveJobs P (stamp env) [jobData] (table σ))
      /\ (snd (saveJobs P (stamp env) [jobData] (table σ)) = Resolved tt ->
          exists row,
            rowOfJob P (stamp env) jobData = Resolved row
            /\ table (snd (step P env (fst (step P env c σ)) (snd (step P env c σ))))
               !! id jobData = Some row)
      /\ (forall e,
            snd (saveJobs P (stamp env) [jobData] (table σ)) = Rejected e ->
            table (snd (step P env (fst (step P env c σ)) (snd (step P env c σ))))
            = table σ
            /\ jobsCache (snd (step P env (fst (step P env c σ)) (snd (step P env c σ))))
               !! key c = Some jobData)).
Proof.
  split.
  - intros Hc Hcat Hsave.
    destruct (refreshFromApi_states_saved P env r show σ jobsData t Hc Hcat Hsave)
      as (σ0 & σ1 & σ2 & σ3 & σ4 & Hstates & _ & (Ht3 & Hc3 & Hs3 & _)
          & Ht4 & Hc4 & _).
    exists σ0, σ1, σ2, σ3, σ4. split; [exact Hstates|]. split; [now repeat split|].
    split; [exact Ht4|]. intros j Hj. rewrite Hc4. now apply mergeCache_covers.
  - intros Hpc Hd. rewrite (step_fetched c σ n jobData Hpc Hd). cbn [fst snd].
    split; [cbn; apply lookup_insert_eq|]. split; [reflexivity|].
    split; [reflexivity|]. split; [reflexivity|].
    unfold step. cbn [pc at_ fst snd table setTable setPendingFetches setJobsCache
                      jobsCache]. split.
    + intros Hok.
      destruct (saveJobs P (stamp env) [jobData] (table σ)) as [t' [[]|e]] eqn:Es;
        [|discriminate].
      cbn [fst]. apply (saveJobs_lookup P (stamp env) [] [] jobData (table σ) t' Es).
      cbn. apply not_elem_of_nil.
    + intros e Hfail. rewrite (saveJobs_rejected P _ _ _ _ Hfail).
      split; [reflexivity|]. apply lookup_insert_eq.
Qed.

End WriteOrder.

Section WriteOrderExamples.
Import Database JobsContext.

Lemma cache_and_table_write_order_witness :
  (jobsCache (snd (step Sample.platform Sample.online
                     {| key := "7"; closure := render Sample.blank; pc := AtFetch 0 |}
                     Sample.blank)) !! "7"
   = Some (Sample.detailedJob "7" "Designer" "2024-01-05")
   /\ table (snd (step Sample.platform Sample.online
                    {| key := "7"; closure := render Sample.blank; pc := AtFetch 0 |}
                    Sample.blank))
      = table Sample.blank)
  /\ is_Some (table (snd (getJobById Sample.platform Sample.online
                            (render Sample.blank) "7" Sample.blank)) !! "7")
  /\ (table (snd (getJobById Sample.platform Scenario.unsaveable
                    (render Sample.blank) "9" Sample.blank)) = ∅
      /\ jobsCache (snd (getJobById Sample.platform Scenario.unsaveable
                           (render Sample.blank) "9" Sample.blank)) !! "9"
         = Some (Sample.uncategorised "9" "Typesetter")).
Proof.
  destruct (cache_and_table_write_order Sample.platform Sample.online
              (render Sample.blank) false Sample.blank [] ∅
              {| key := "7"; closure := render Sample.blank; pc := AtFetch 0 |}
              0%nat (Sample.detailedJob "7" "Designer" "2024-01-05"))
    as [_ Hdetail].
  destruct (Hdetail eq_refl eq_refl) as (Hcache & Htable & _ & _ & Hrow & _).
  destruct (cache_and_table_write_order Sample.platform Scenario.unsaveable
              (render Sample.blank) false Sample.blank [] ∅
              {| key := "9"; closure := render Sample.blank; pc := AtFetch 0 |}
              0%nat (Sample.uncategorised "9" "Typesetter"))
    as [_ Hrefused].
  destruct (Hrefused eq_refl eq_refl) as (_ & _ & _ & _ & _ & Hfail).
  split; [split; [exact Hcache | exact Htable]|]. split.
  - destruct (Hrow eq_refl) as (row & _ & Hlookup). exists row. exact Hlookup.
  - exact (Hfail "NOT NULL constraint failed: jobs.category" eq_refl).
Defined.

(** C6, counterexample.  A first refresh brings three summaries to a
    device whose cache and table are empty.  In the state in which the
    refresh waits for the last-sync slot to be written, the table already
    holds a row for id [a] while the memory cache has no entry for it: a
    reader running then finds the store ahead of the cache. *)
Lemma refreshFromApi_store_ahead_of_cache :
  exists σi,
    refreshFromApi_states Sample.platform
      (Sample.env true (Resolved Sample.threeSummaries))
      (render Sample.blank) false Sample.blank !! 3%nat = Some σi
    /\ is_Some (table σi !! "a")
    /\ jobsCache σi !! "a" = None
    /\ ~ cacheCoversStore σi.
Proof.
  eexists. split; [reflexivity|].
  assert (Hrow : is_Some
            (fst (saveJobs Sample.platform "2023-11-14T22:13:20.000Z"
                    Sample.threeSummaries ∅) !! "a")).
  { vm_compute. now eexists. }
  split; [exact Hrow|]. split; [reflexivity|].
  intros Hcover. destruct (Hcover "a" Hrow) as [j Hj]. discriminate Hj.
Qed.

End WriteOrderExamples.

(** ** The refresh the screens call *)

Section ScreenRefresh.
Import Database JobsContext.
Variable P : Platform.

(** [refreshJobs] is memoised with an empty dependency list, so the
    [refreshFromApi] it runs is the one of the first render: the
    [jobsCache] its merge reads is the empty object and the [jobs] its
    [catch] tests is the empty list, whatever the provider holds by then. *)

(** C1.  The refresh the screens call does not merge.  Whatever the memory
    cache holds when [refreshJobs] fetches and saves a catalogue, the
    entry it leaves for an id of the catalogue is the incoming record as a
    whole (the last one of that id): nothing of the cached record is kept,
    so a detailed record loses its [description], [requirements] and
    [benefits] to an incoming summary.  The entries of ids the catalogue
    does not mention are dropped from the cache. *)
Theorem refreshJobs_loses_cached_details (env : Env) (σ : State) (jobsData : list Job) :
  isConnected env = true ->
  catalogue env = Resolved jobsData ->
  snd (saveJobs P (stamp env) jobsData (table σ)) = Resolved tt ->
  (forall before job after,
     jobsData = before ++ job :: after ->
     id job ∉ id <$> after ->
     jobsCache (refreshJobs P env σ) !! id job = Some job)
  /\ (forall k,
        k ∉ id <$> jobsData -> jobsCache (refreshJobs P env σ) !! k = None).
Proof.
  intros Hc Hcat Hsave. unfold refreshJobs.
  destruct (saveJobs P (stamp env) jobsData (table σ)) as [t [[]|e]] eqn:Es;
    [|discriminate].
  destruct (refreshFromApi_states_saved P env firstRender true σ jobsData t Hc Hcat Es)
    as (σ0 & σ1 & σ2 & σ3 & σ4 & _ & -> & _ & _ & -> & _).
  cbn [firstRender r_jobsCache]. split.
  - intros before job after -> Hlast.
    rewrite mergeCache_lookup_last by exact Hlast. now rewrite lookup_empty.
  - intros k Hk. rewrite mergeCache_lookup_absent by exact Hk. apply lookup_empty.
Qed.

(** C5.  The refresh the screens call sets the error message on every
    failure, whatever list is on display: when [fetchJobs] throws the
    displayed list stays and the message is set over it; when [saveJobs]
    throws after a successful fetch the fetched catalogue is on display
    and the message is set as well. *)
Theorem refreshJobs_error_over_listing (env : Env) (σ : State) :
  isConnected env = true ->
  (forall e,
     catalogue env = Rejected e ->
     error (refreshJobs P env σ)
     = Some "Failed to load data. Please check your connection and try again."
     /\ jobs (refreshJobs P env σ) = jobs σ)
  /\ (forall jobsData e,
        catalogue env = Resolved jobsData ->
        snd (saveJobs P (stamp env) jobsData (table σ)) = Rejected e ->
        error (refreshJobs P env σ)
        = Some "Failed to load data. Please check your connection and try again."
        /\ jobs (refreshJobs P env σ) = jobsData).
Proof.
  intros Hc. unfold refreshJobs. split.
  - intros e Hcat.
    destruct (refreshFromApi_fetch_failed P env firstRender true σ e Hc Hcat)
      as (Hj & _ & _ & _ & He).
    split; [exact He | exact Hj].
  - intros jobsData e Hcat Hsave.
    destruct (refreshFromApi_save_failed P env firstRender true σ jobsData e
                Hc Hcat Hsave) as (_ & _ & _ & _ & Hj & He).
    split; [exact He | exact Hj].
Qed.

End ScreenRefresh.

Section ScreenRefreshExamples.
Import Database JobsContext.

(** The detail screen was opened for id 42, which left the detailed record
    in the memory cache; a pull to refresh then delivers a summary for 42. *)
Lemma refreshJobs_loses_cached_details_witness :
  description <$> (jobsCache Scenario.opened42 !! "42")
  = Some (Some "Design the catalogue.")
  /\ jobsCache (refreshJobs Sample.platform
                  (Sample.env true (Resolved [Sample.incoming42]))
                  Scenario.opened42) !! "42"
     = Some Sample.incoming42
  /\ description Sample.incoming42 = None.
Proof.
  destruct (refreshJobs_loses_cached_details Sample.platform
              (Sample.env true (Resolved [Sample.incoming42]))
              Scenario.opened42 [Sample.incoming42] eq_refl eq_refl eq_refl)
    as [Hin _].
  split; [reflexivity|]. split; [|reflexivity].
  apply (Hin [] Sample.incoming42 []); [reflexivity|]. apply not_elem_of_nil.
Defined.

(** A first refresh put three summaries on display; a pull to refresh then
    fails in [fetchJobs]. *)
Lemma refreshJobs_error_over_listing_witness :
  jobs Sample.afterFirstRefresh = Sample.threeSummaries
  /\ error (refreshJobs Sample.platform
              (Sample.env true (Rejected "Network request failed"))
              Sample.afterFirstRefresh)
     = Some "Failed to load data. Please check your connection and try again."
  /\ jobs (refreshJobs Sample.platform
             (Sample.env true (Rejected "Network request failed"))
             Sample.afterFirstRefresh)
     = Sample.threeSummaries.
Proof.
  destruct (refreshJobs_error_over_listing Sample.platform
              (Sample.env true (Rejected "Network request failed"))
              Sample.afterFirstRefresh eq_refl) as [Hfetch _].
  destruct (Hfetch "Network request failed" eq_refl) as [He Hj].
  split; [reflexivity|]. split; [exact He|]. rewrite Hj. reflexivity.
Defined.

End ScreenRefreshExamples.

(** * Further properties *)

#[local] Set Warnings "-clear-no-such-hyp".

(** ** The [jobs] table: upserts and reads *)

Section StoreUpserts.
Import Database.
Variable P : Platform.

Lemma writeRows_lookup (rs : list Row) (t : Table) (k : string) :
  writeRows rs t !! k
  = match lastRow k rs with
    | Some r => Some r
    | None => t !! k
    end.
Proof.
  revert t. induction rs as [|r rs IH]; intros t; [reflexivity|].
  cbn [writeRows fold_left lastRow]. fold (writeRows rs (<[row_id r := r]> t)).
  rewrite IH. destruct (lastRow k rs); [reflexivity|].
  destruct (decide (row_id r = k)) as [<-|Hne].
  - apply lookup_insert_eq.
  - now apply lookup_insert_ne.
Qed.

Lemma lastRow_None (k : string) (rs : list Row) :
  lastRow k rs = None <-> k ∉ row_id <$> rs.
Proof.
  induction rs as [|r rs IH]; cbn [lastRow].
  - split; [intros _; apply not_elem_of_nil | reflexivity].
  - rewrite fmap_cons, not_elem_of_cons, <- IH.
    destruct (lastRow k rs); [split; [discriminate|intros [_ [=]]]|].
    destruct (decide (row_id r = k)) as [<-|Hne].
    + split; [discriminate|now intros [? _]].
    + split; [intros _; split; [congruence|reflexivity]|reflexivity].
Qed.

Lemma lastRow_id (k : string) (rs : list Row) (r : Row) :
  lastRow k rs = Some r -> row_id r = k /\ r ∈ rs.
Proof.
  induction rs as [|r0 rs IH]; cbn [lastRow]; [discriminate|].
  destruct (lastRow k rs) as [r'|].
  - intros [= ->]. destruct (IH eq_refl) as [Hid Hin]. split; [exact Hid|now right].
  - destruct (decide (row_id r0 = k)); [|discriminate].
    intros [= ->]. split; [assumption|now left].
Qed.

Lemma writeRows_dom (rs : list Row) (t : Table) :
  dom (writeRows rs t) = dom t ∪ list_to_set (row_id <$> rs).
Proof.
  revert t. induction rs as [|r rs IH]; intros t.
  - cbn. set_solver.
  - cbn [writeRows fold_left]. fold (writeRows rs (<[row_id r := r]> t)).
    rewrite IH, dom_insert_L, fmap_cons. cbn [list_to_set]. set_solver.
Qed.

(** X1.  A successful [saveJobs] adds to the table exactly the ids of the
    batch: it deletes no row, and the rows of every other id are the
    ones the table had. *)
Theorem saveJobs_upserts (stamp : string) (jobs : list Job) (t t' : Table) :
  saveJobs P stamp jobs t = (t', Resolved tt) ->
  dom t' = dom t ∪ list_to_set (id <$> jobs)
  /\ (forall k, k ∉ id <$> jobs -> t' !! k = t !! k).
Proof.
  rewrite saveJobs_all_or_nothing.
  destruct (rowsOfJobs P stamp jobs) as [rs|] eqn:E; [|discriminate].
  intros [= <-]. destruct (rowsOfJobs_bits P _ _ _ E) as [_ Hids]. split.
  - now rewrite writeRows_dom, Hids.
  - intros k Hk. apply writeRows_lookup_other. now rewrite Hids.
Qed.

Lemma rowOfJob_restamp (s1 s2 : string) (j : Job) (r : Row) :
  rowOfJob P s1 j = Resolved r -> rowOfJob P s2 j = Resolved (restamp s2 r).
Proof.
  unfold rowOfJob. destruct (bindRequirements P j); [|discriminate].
  destruct (bindPostedDate P j); [|discriminate].
  destruct (category j); [|discriminate].
  now intros [= <-].
Qed.

Lemma rowsOfJobs_restamp (s1 s2 : string) (jobs : list Job) (rs : list Row) :
  rowsOfJobs P s1 jobs = Resolved rs ->
  rowsOfJobs P s2 jobs = Resolved (restamp s2 <$> rs).
Proof.
  revert rs. induction jobs as [|j jobs IH]; intros rs; cbn [rowsOfJobs].
  - now intros [= <-].
  - destruct (rowOfJob P s1 j) as [r|] eqn:Er; [|discriminate].
    destruct (rowsOfJobs P s1 jobs) as [rs'|]; [|discriminate].
    intros [= <-]. rewrite (rowOfJob_restamp s1 s2 j r Er), (IH rs' eq_refl).
    reflexivity.
Qed.

Lemma lastRow_restamp (stamp k : string) (rs : list Row) :
  lastRow k (restamp stamp <$> rs) = restamp stamp <$> lastRow k rs.
Proof.
  induction rs as [|r rs IH]; [reflexivity|].
  rewrite fmap_cons. cbn [lastRow]. rewrite IH.
  destruct (lastRow k rs); [reflexivity|]. cbn [restamp row_id fmap option_fmap option_map].
  now destruct (decide (row_id r = k)).
Qed.

Lemma jobOfRow_restamp (stamp : string) (r : Row) :
  jobOfRow P (restamp stamp r) = jobOfRow P r.
Proof. reflexivity. Qed.

(** X2.  Saving a batch that was saved before succeeds again and is
    invisible to the reads by id: whatever the time of the second save,
    [getJobById] returns for every id the record it returned after the
    first, and no id is added. *)
Theorem saveJobs_again (s1 s2 : string) (jobs : list Job) (t t1 : Table) :
  saveJobs P s1 jobs t = (t1, Resolved tt) ->
  exists t2,
    saveJobs P s2 jobs t1 = (t2, Resolved tt)
    /\ dom t2 = dom t1
    /\ forall k, getJobById P k t2 = getJobById P k t1.
Proof.
  rewrite !saveJobs_all_or_nothing.
  destruct (rowsOfJobs P s1 jobs) as [rs|] eqn:E; [|discriminate].
  intros [= <-]. rewrite (rowsOfJobs_restamp s1 s2 jobs rs E).
  eexists. split; [reflexivity|]. split.
  - rewrite !writeRows_dom. rewrite <- list_fmap_compose.
    cbn. set_solver.
  - intros k. unfold getJobById. rewrite !writeRows_lookup, lastRow_restamp.
    destruct (lastRow k rs) as [r|]; [|reflexivity]. cbn.
    now rewrite jobOfRow_restamp.
Qed.

Lemma keyed_writeRows (rs : list Row) (t : Table) :
  keyed t -> keyed (writeRows rs t).
Proof.
  intros Ht k r. rewrite writeRows_lookup.
  destruct (lastRow k rs) as [r'|] eqn:E.
  - intros [= <-]. now apply lastRow_id in E.
  - apply Ht.
Qed.

(** X3.  Rows stay under their own id across [saveJobs], and on such a
    table the two reads agree: a record is in the list of [getJobs]
    exactly when [getJobById] returns it under its id. *)
Theorem reads_agree (stamp : string) (jobs : list Job) (t : Table) :
  keyed t ->
  keyed (fst (saveJobs P stamp jobs t))
  /\ (forall j, j ∈ getJobs P t <-> getJobById P (id j) t = Some j).
Proof.
  intros Ht. split.
  - rewrite saveJobs_all_or_nothing.
    destruct (rowsOfJobs P stamp jobs); [now apply keyed_writeRows | exact Ht].
  - intros j. rewrite getJobs_from_row. unfold getJobById. split.
    + intros (k & row & Hk & ->). cbn [jobOfRow id].
      rewrite (Ht k row Hk), Hk. reflexivity.
    + destruct (t !! id j) as [row|] eqn:Hk; [|discriminate].
      intros [= <-]. now exists (id (jobOfRow P row)), row.
Qed.

End StoreUpserts.

Section StoreUpsertsExamples.
Import Database.

Lemma saveJobs_upserts_witness :
  dom Scenario.threeRows = list_to_set ["a"; "b"; "c"]
  /\ Scenario.threeRows !! "z" = None.
Proof.
  destruct (saveJobs_upserts Sample.platform "2023-11-14T22:13:20.000Z"
              Sample.threeSummaries ∅ Scenario.threeRows eq_refl)
    as [Hdom Hother].
  split.
  - rewrite Hdom. cbn. set_solver.
  - rewrite Hother; [reflexivity|].
    cbn. rewrite !not_elem_of_cons. repeat split; try discriminate.
    apply not_elem_of_nil.
Defined.

Lemma saveJobs_again_witness :
  exists t2,
    saveJobs Sample.platform "2023-11-15T08:00:00.000Z" Sample.threeSummaries
      Scenario.threeRows = (t2, Resolved tt)
    /\ getJobById Sample.platform "b" t2
       = getJobById Sample.platform "b" Scenario.threeRows.
Proof.
  destruct (saveJobs_again Sample.platform "2023-11-14T22:13:20.000Z"
              "2023-11-15T08:00:00.000Z" Sample.threeSummaries ∅
              Scenario.threeRows eq_refl)
    as (t2 & Hsave & _ & Hread).
  exists t2. split; [exact Hsave | apply Hread].
Defined.

Lemma reads_agree_witness :
  exists j,
    getJobById Sample.platform "b" Scenario.threeRows = Some j
    /\ j ∈ getJobs Sample.platform Scenario.threeRows.
Proof.
  assert (Hempty : keyed ∅) by (intros k r Hk; now rewrite lookup_empty in Hk).
  destruct (reads_agree Sample.platform "2023-11-14T22:13:20.000Z"
              Sample.threeSummaries ∅ Hempty) as [Hkeyed _].
  destruct (reads_agree Sample.platform "2023-11-14T22:13:20.000Z"
              [] Scenario.threeRows Hkeyed) as [_ Hagree].
  assert (Hsome : is_Some (getJobById Sample.platform "b" Scenario.threeRows))
    by (vm_compute; now eexists).
  destruct Hsome as [j Hj]. exists j. split; [exact Hj|].
  apply Hagree.
  assert (Hid : id j = "b").
  { unfold getJobById in Hj.
    destruct (Scenario.threeRows !! "b") as [row|] eqn:Hrow; [|discriminate].
    injection Hj as <-. exact (Hkeyed "b" row Hrow). }
  now rewrite Hid.
Defined.

End StoreUpsertsExamples.

(** ** The version marker and the last-sync slot *)

Section StorageProperties.
Import Database.

Lemma checkDatabaseVersion_available (a : AsyncStorage) :
  available a = true ->
  exists a',
    checkDatabaseVersion a = (a', Resolved tt)
    /\ available a' = true
    /\ items a' !! DB_VERSION_KEY = Some CURRENT_DB_VERSION
    /\ (forall key, key <> DB_VERSION_KEY -> items a' !! key = items a !! key).
Proof.
  intros Ha. unfold checkDatabaseVersion, getItem, setItem. rewrite Ha.
  destruct (decide (items a !! DB_VERSION_KEY = Some CURRENT_DB_VERSION)) as [Hv|Hv].
  - exists a. now repeat split.
  - eexists. split; [reflexivity|]. cbn [items available].
    split; [reflexivity|]. split; [apply lookup_insert_eq|].
    intros key Hkey. now apply lookup_insert_ne.
Qed.

(** X4.  [initDatabase] rejects with the driver's error when the file
    cannot be opened or the table not created, and then neither the file
    nor the storage is touched.  When the driver works the table exists
    afterwards, with the rows it had or empty, and the outcome is that of
    the storage: with a working storage [initDatabase] resolves, leaves
    the version marker at "1" and every other key, the last-sync slot
    among them, as it was, and run again on its own result it changes
    nothing; with a failing storage it rejects and writes nothing.  The
    provider sets [isInitialized] exactly when driver and storage both
    work. *)
Theorem initDatabase_idempotent (driver : Settled unit) (file : option Table)
  (a : AsyncStorage) :
  (forall e, driver = Rejected e -> initDatabase driver file a = (file, a, Rejected e))
  /\ (driver = Resolved tt ->
      fst (fst (initDatabase driver file a)) = Some (default ∅ file)
      /\ (available a = true ->
          snd (initDatabase driver file a) = Resolved tt
          /\ items (snd (fst (initDatabase driver file a))) !! DB_VERSION_KEY = Some "1"
          /\ getLastSyncTime (snd (fst (initDatabase driver file a)))
             = getLastSyncTime a
          /\ initDatabase driver (fst (fst (initDatabase driver file a)))
               (snd (fst (initDatabase driver file a)))
             = initDatabase driver file a)
      /\ (available a = false ->
          (exists e, snd (initDatabase driver file a) = Rejected e)
          /\ snd (fst (initDatabase driver file a)) = a))
  /\ (snd (JobsContext.initialize driver file a) = true
      <-> driver = Resolved tt /\ available a = true).
Proof.
  split; [now intros e ->|]. split.
  - intros ->. unfold initDatabase.
    split; [now destruct (checkDatabaseVersion a)|]. split.
    + intros Ha.
      destruct (checkDatabaseVersion_available a Ha) as (a' & E & Ha' & Hv & Hother).
      rewrite E. cbn [fst snd]. split; [reflexivity|]. split; [exact Hv|]. split.
      * unfold getLastSyncTime, getItem. rewrite Ha, Ha'.
        now rewrite Hother by discriminate.
      * unfold checkDatabaseVersion, getItem. rewrite Ha', Hv.
        now rewrite decide_True by reflexivity.
    + intros Ha. unfold checkDatabaseVersion, getItem. rewrite Ha. cbn.
      split; [now eexists | reflexivity].
  - unfold JobsContext.initialize, initDatabase.
    destruct driver as [[]|e]; [|split; [discriminate | now intros [? _]]].
    destruct (available a) eqn:Ha.
    + destruct (checkDatabaseVersion_available a Ha) as (a' & E & _).
      rewrite E. cbn. now split.
    + unfold checkDatabaseVersion, getItem. rewrite Ha. cbn.
      split; [discriminate | now intros [_ ?]].
Qed.

(** X5.  When the storage fails, [updateLastSyncTime] writes nothing and
    [isDataStale] answers [true]; it also answers [true], at every clock
    reading, when the slot holds a text in which [parseInt] finds no
    number after the white space it skips. *)
Theorem isDataStale_fails_safe (a : AsyncStorage) (now now' : Z) (text : string) :
  (available a = false ->
   updateLastSyncTime now a = a /\ isDataStale now' a = true)
  /\ (items a !! LAST_SYNC_KEY = Some text -> parseInt text = NaN ->
      isDataStale now' a = true).
Proof.
  split.
  - intros Ha. unfold updateLastSyncTime, setItem, isDataStale, getLastSyncTime, getItem.
    now rewrite Ha.
  - intros Htext Hnan. unfold isDataStale, getLastSyncTime, getItem.
    destruct (available a); [|reflexivity]. rewrite Htext.
    destruct (truthy_text (Some text)); [|reflexivity].
    unfold default; cbn [from_option]. unfold Datatypes.id. now rewrite Hnan.
Qed.

(** X6.  Staleness only grows with the clock: data that is stale at one
    reading is stale at every later reading. *)
Theorem isDataStale_monotone (a : AsyncStorage) (now now' : Z) :
  now <= now' -> isDataStale now a = true -> isDataStale now' a = true.
Proof.
  intros Hle. unfold isDataStale.
  destruct (getLastSyncTime a) as [[|t]|]; try reflexivity.
  cbn [falsy_num]. destruct (t =? 0); [reflexivity|].
  rewrite !Z.ltb_lt. lia.
Qed.

End StorageProperties.

Section StoragePropertiesExamples.
Import Database.

Lemma initDatabase_idempotent_witness :
  initDatabase (Rejected "unable to open database file") None Sample.synced
  = (None, Sample.synced, Rejected "unable to open database file")
  /\ snd (initDatabase (Resolved tt) None Sample.synced) = Resolved tt
  /\ getLastSyncTime (snd (fst (initDatabase (Resolved tt) None Sample.synced)))
     = Some (Num 1699990000000)
  /\ snd (initDatabase (Resolved tt) None Scenario.brokenStorage)
     = Rejected "AsyncStorage failure"
  /\ snd (JobsContext.initialize (Resolved tt) None Scenario.brokenStorage) = false.
Proof.
  destruct (initDatabase_idempotent (Rejected "unable to open database file") None
              Sample.synced) as (Hdriver & _ & _).
  destruct (initDatabase_idempotent (Resolved tt) None Sample.synced)
    as (_ & Hok & _).
  destruct (Hok eq_refl) as (_ & Hstorage & _).
  destruct (Hstorage eq_refl) as (Hres & _ & Hsync & _).
  destruct (initDatabase_idempotent (Resolved tt) None Scenario.brokenStorage)
    as (_ & Hbroken & Hinit).
  destruct (Hbroken eq_refl) as (_ & _ & Hfail).
  destruct (Hfail eq_refl) as ((e & He) & _).
  split; [exact (Hdriver _ eq_refl)|]. split; [exact Hres|].
  split; [rewrite Hsync; reflexivity|].
  split; [rewrite He; vm_compute in He; congruence|].
  destruct (snd (JobsContext.initialize (Resolved tt) None Scenario.brokenStorage))
    eqn:E; [|reflexivity].
  destruct Hinit as [Hinit _]. destruct (Hinit eq_refl) as [_ Habsurd].
  discriminate Habsurd.
Defined.

(** White space beyond ASCII is skipped as well: a no-break space, a byte
    order mark and a tab before the digits do not hide the number. *)
Lemma parseInt_skips_white_space :
  parseInt (String "194" (String "160" (String "239" (String "187" (String "191"
              (String "009" "1700000000000abc"))))))
  = Num 1700000000000.
Proof. vm_compute. reflexivity. Qed.

Lemma isDataStale_fails_safe_witness :
  (updateLastSyncTime 1700000000000 Scenario.brokenStorage = Scenario.brokenStorage
   /\ isDataStale 1700000000001 Scenario.brokenStorage = true)
  /\ isDataStale 1700000000001 Scenario.garbled = true.
Proof.
  destruct (isDataStale_fails_safe Scenario.brokenStorage 1700000000000
              1700000000001 "") as [Hbroken _].
  destruct (isDataStale_fails_safe Scenario.garbled 0 1700000000001 "yesterday")
    as [_ Hgarbled].
  split; [exact (Hbroken eq_refl) | exact (Hgarbled eq_refl eq_refl)].
Defined.

Lemma isDataStale_monotone_witness :
  isDataStale 1700003600001 Sample.synced = true.
Proof.
  apply (isDataStale_monotone Sample.synced 1699993600001 1700003600001).
  - lia.
  - reflexivity.
Defined.

End StoragePropertiesExamples.

(** ** The remote catalogue client: what it resolves with *)

Section RemoteClientPayloads.
Import Api.


Lemma lookupMember_absent (key : string) (members : list (string * json)) :
  key ∉ fst <$> members -> lookupMember key members = None.
Proof.
  induction members as [|[k v] rest IH]; [reflexivity|].
  rewrite fmap_cons, not_elem_of_cons. cbn [fst lookupMember].
  intros [Hne Hrest]. rewrite (IH Hrest).
  destruct (String.eqb_spec k key); [congruence|reflexivity].
Qed.

Lemma lookupMember_setMember (key : string) (v : json) (members : list (string * json)) :
  NoDup (fst <$> members) ->
  lookupMember key (setMember key v members) = Some v.
Proof.
  induction members as [|[k w] rest IH]; intros Hnd.
  - cbn. now rewrite String.eqb_refl.
  - rewrite fmap_cons in Hnd. apply NoDup_cons in Hnd as [Hk Hnd].
    cbn [setMember fst]. destruct (String.eqb_spec k key) as [->|Hne].
    + cbn [lookupMember]. rewrite (lookupMember_absent key rest Hk).
      now rewrite String.eqb_refl.
    + cbn [lookupMember]. now rewrite (IH Hnd).
Qed.

Lemma lookupMember_setMember_other (key other : string) (v : json)
  (members : list (string * json)) :
  other <> key ->
  lookupMember other (setMember key v members) = lookupMember other members.
Proof.
  intros Hne. induction members as [|[k w] rest IH].
  - cbn. destruct (String.eqb_spec key other); [congruence|reflexivity].
  - cbn [setMember]. destruct (String.eqb_spec k key) as [->|Hk].
    + cbn [lookupMember]. destruct (lookupMember other rest); [reflexivity|].
      destruct (String.eqb_spec key other); [congruence|reflexivity].
    + cbn [lookupMember]. now rewrite IH.
Qed.

(** X8.  For a response with a status in 200-299 whose body is an object
    with a truthy [title] and [company] and no truthy [job] member,
    [fetchJobById] resolves with the served object in which only [id]
    was set: to the served [_id] when that is truthy, else to the served
    [id] when that is truthy, else to the requested id.  Every other
    member is as served. *)
Theorem fetchJobById_served (now : Z) (k : string) (status : Z)
  (members : list (string * json)) :
  ok status = true ->
  NoDup (fst <$> members) ->
  truthy (lookupMember "job" members) = false ->
  truthy (lookupMember "title" members) = true ->
  truthy (lookupMember "company" members) = true ->
  exists result,
    fetchJobById now k (Response status (Some (JObject members)))
    = Resolved (Served result)
    /\ (forall key, key <> "id" -> lookupMember key result = lookupMember key members)
    /\ (truthy (lookupMember "_id" members) = true ->
        lookupMember "id" result = lookupMember "_id" members)
    /\ (truthy (lookupMember "_id" members) = false ->
        truthy (lookupMember "id" members) = true ->
        lookupMember "id" result = lookupMember "id" members)
    /\ (truthy (lookupMember "_id" members) = false ->
        truthy (lookupMember "id" members) = false ->
        lookupMember "id" result = Some (JString k)).
Proof.
  intros Hok Hnd Hjob Htitle Hcompany.
  exists (setMember "id" (chooseId members k) members). split.
  - unfold fetchJobById. rewrite Hok. cbn [negb member]. rewrite Hjob.
    cbn [acceptJobData]. now rewrite Htitle, Hcompany.
  - split; [intros key Hkey; now apply lookupMember_setMember_other|].
    rewrite (lookupMember_setMember "id" _ members Hnd). unfold chooseId.
    split; [|split].
    + intros H_id. rewrite H_id.
      destruct (lookupMember "_id" members); [reflexivity|discriminate].
    + intros H_id Hid. rewrite H_id, Hid.
      destruct (lookupMember "id" members); [reflexivity|discriminate].
    + intros H_id Hid. now rewrite H_id, Hid.
Qed.

(** X9.  A job served inside a [job] member and the same job served bare
    give the same result: for an object [members] without a truthy [job]
    member of its own, the response [{ ..., job: members }] is treated
    as the response [members]. *)
Theorem fetchJobById_unwraps (now : Z) (k : string) (status : Z)
  (wrapper members : list (string * json)) :
  lookupMember "job" wrapper = Some (JObject members) ->
  truthy (lookupMember "job" members) = false ->
  fetchJobById now k (Response status (Some (JObject wrapper)))
  = fetchJobById now k (Response status (Some (JObject members))).
Proof.
  intros Hwrapped Hbare. unfold fetchJobById.
  destruct (negb (ok status)); [reflexivity|].
  cbn [member]. rewrite Hwrapped, Hbare. reflexivity.
Qed.

End RemoteClientPayloads.

Section RemoteClientPayloadsExamples.
Import Api.

Lemma fetchJobById_served_witness :
  exists result,
    fetchJobById 1700000000000 "7" (Response 200 (Some (JObject Scenario.served)))
    = Resolved (Served result)
    /\ lookupMember "id" result = Some (JString "65f0")
    /\ lookupMember "title" result = Some (JString "Illustrator").
Proof.
  destruct (fetchJobById_served 1700000000000 "7" 200 Scenario.served)
    as (result & Hres & Hother & H_id & _); try reflexivity.
  - cbn. repeat constructor; rewrite ?elem_of_cons, ?elem_of_nil;
      intuition discriminate.
  - exists result. split; [exact Hres|]. split.
    + rewrite H_id; reflexivity.
    + rewrite Hother; [reflexivity|discriminate].
Defined.

Lemma fetchJobById_unwraps_witness :
  fetchJobById 1700000000000 "7"
    (Response 200 (Some (JObject [("job", JObject Scenario.served)])))
  = fetchJobById 1700000000000 "7" (Response 200 (Some (JObject Scenario.served))).
Proof.
  apply (fetchJobById_unwraps 1700000000000 "7" 200
           [("job", JObject Scenario.served)] Scenario.served); reflexivity.
Defined.

End RemoteClientPayloadsExamples.

Section RemoteClientResolves.
Import Api.


End RemoteClientResolves.

(** ** [getJobById]: the paths of one call *)

Section DetailPaths.
Import JobsContext.
Variable P : Platform.
Variable env : Env.

#[local] Arguments Database.saveJobs : simpl never.

(** X10.  A detailed entry of the captured cache is returned at once:
    no state cell changes, no row is read, no request is sent. *)
Theorem getJobById_cache_hit (r : Render) (k : string) (σ : State) (j : Job) :
  r_jobsCache r !! k = Some j ->
  detailed j = true ->
  result (fst (getJobById P env r k σ)) = Some (Resolved (Some j))
  /\ snd (getJobById P env r k σ) = σ.
Proof.
  intros Hj Hd. unfold getJobById, Nat.iter, call. cbn [nat_rect].
  rewrite Hj. cbn [detailed_entry]. rewrite Hd. split; reflexivity.
Qed.






End DetailPaths.

Section DetailPathsExamples.
Import JobsContext.

Lemma getJobById_cache_hit_witness :
  result (fst (getJobById Sample.platform Sample.offline
                 (render Sample.detailed42) "42" Sample.detailed42))
  = Some (Resolved (Some Sample.cached42))
  /\ snd (getJobById Sample.platform Sample.offline
            (render Sample.detailed42) "42" Sample.detailed42)
     = Sample.detailed42.
Proof.
  apply (getJobById_cache_hit Sample.platform Sample.offline
           (render Sample.detailed42) "42" Sample.detailed42 Sample.cached42);
    reflexivity.
Defined.




End DetailPathsExamples.

(** ** [getJobById]: a caller that comes after the request was sent *)

Section LateCaller.
Import JobsContext.
Variable P : Platform.
Variable env : Env.

#[local] Arguments Database.saveJobs : simpl never.


End LateCaller.

Section LateCallerExamples.
Import JobsContext.


End LateCallerExamples.

(** ** Bulk refresh: further properties *)

Section RefreshFurther.
Import Database JobsContext.
Variable P : Platform.
Variable env : Env.

#[local] Arguments saveJobs : simpl never.
#[local] Arguments updateLastSyncTime : simpl never.
#[local] Arguments mergeCache : simpl never.

(** X15.  On a device that is offline neither [refreshFromApi] nor
    [checkNetworkAndRefresh] sends a request or touches the displayed
    list, the memory cache, the table or the last-sync slot; each marks
    the device offline and leaves its own message in the [error] cell,
    whether or not jobs are on display. *)
Theorem offline_refresh_sends_nothing (r : Render) (show : bool) (σ : State) :
  isConnected env = false ->
  (untouched σ (refreshFromApi P env r show σ)
   /\ jobs (refreshFromApi P env r show σ) = jobs σ
   /\ requests (refreshFromApi P env r show σ) = requests σ
   /\ isOffline (refreshFromApi P env r show σ) = true
   /\ isLoading (refreshFromApi P env r show σ) = false
   /\ error (refreshFromApi P env r show σ)
      = Some "No internet connection. Using cached data.")
  /\ (untouched σ (checkNetworkAndRefresh P env σ)
      /\ jobs (checkNetworkAndRefresh P env σ) = jobs σ
      /\ requests (checkNetworkAndRefresh P env σ) = requests σ
      /\ isOffline (checkNetworkAndRefresh P env σ) = true
      /\ error (checkNetworkAndRefresh P env σ)
         = Some "No internet connection. Please connect to a network and try again.").
Proof.
  intros Hoff. unfold untouched, checkNetworkAndRefresh, refreshFromApi,
    refreshFromApi_states. rewrite Hoff. cbn [negb].
  split; [destruct show|]; cbn; repeat split; reflexivity.
Qed.

(** X17.  After a refresh that fetched and saved a catalogue on a working
    storage, the data is not stale at the clock reading of the refresh
    (any reading but the epoch itself) nor during the hour that follows. *)
Theorem refreshFromApi_makes_fresh (r : Render) (show : bool) (σ : State)
  (jobsData : list Job) (later : Z) :
  isConnected env = true ->
  catalogue env = Resolved jobsData ->
  snd (saveJobs P (stamp env) jobsData (table σ)) = Resolved tt ->
  available (storage σ) = true ->
  now env <> 0 ->
  later - now env <= 3600000 ->
  isDataStale later (storage (refreshFromApi P env r show σ)) = false.
Proof.
  intros Hc Hcat Hsave Ha Hnow Hlater.
  destruct (saveJobs P (stamp env) jobsData (table σ)) as [t [[]|e]] eqn:Es;
    [|discriminate].
  destruct (refreshFromApi_states_saved P env r show σ _ t Hc Hcat Es)
    as (σ0 & σ1 & σ2 & σ3 & σ4 & _ & -> & _ & _ & _ & -> & _).
  rewrite isDataStale_after_update by assumption.
  apply Z.ltb_ge. change STALE_DATA_THRESHOLD with 3600000. lia.
Qed.

End RefreshFurther.

Section RefreshFurtherExamples.
Import Database JobsContext.

Lemma offline_refresh_sends_nothing_witness :
  requests (refreshFromApi Sample.platform Sample.offline
              (render Sample.populated) true Sample.populated) = []
  /\ jobs (checkNetworkAndRefresh Sample.platform Sample.offline Sample.populated)
     = [Sample.listed].
Proof.
  destruct (offline_refresh_sends_nothing Sample.platform Sample.offline
              (render Sample.populated) true Sample.populated eq_refl)
    as [(_ & _ & Hreq & _) (_ & Hjobs & _)].
  split; [exact Hreq | exact Hjobs].
Defined.

Lemma refreshFromApi_makes_fresh_witness :
  isDataStale 1700003600000 (storage Sample.afterFirstRefresh) = false.
Proof.
  apply (refreshFromApi_makes_fresh Sample.platform
           (Sample.env true (Resolved Sample.threeSummaries))
           (render Sample.blank) false Sample.blank Sample.threeSummaries
           1700003600000 eq_refl eq_refl eq_refl eq_refl).
  - discriminate.
  - cbn. lia.
Defined.

End RefreshFurtherExamples.

(** ** Startup *)

Section StartupProperties.
Import Database JobsContext.
Variable P : Platform.
Variable env : Env.

#[local] Arguments saveJobs : simpl never.
#[local] Arguments updateLastSyncTime : simpl never.
#[local] Arguments mergeCache : simpl never.
#[local] Arguments getJobs : simpl never.
#[local] Arguments isDataStale : simpl never.
#[local] Arguments cacheOf : simpl never.

Lemma fold_insert_other (l : list Job) (u : gmap string Job) (k : string) :
  k ∉ id <$> l ->
  fold_left (fun cache job => <[id job := job]> cache) l u !! k = u !! k.
Proof.
  revert u. induction l as [|j l IH]; intros u Hk; [reflexivity|].
  rewrite fmap_cons, not_elem_of_cons in Hk. destruct Hk as [Hne Hk].
  cbn [fold_left]. rewrite IH by exact Hk. apply lookup_insert_ne. congruence.
Qed.

Lemma cacheOf_lookup_elem (l : list Job) (j : Job) :
  NoDup (id <$> l) -> j ∈ l -> cacheOf l !! id j = Some j.
Proof.
  unfold cacheOf. generalize (∅ : gmap string Job) as u.
  induction l as [|j0 l IH]; intros u Hnd Hj; [now apply elem_of_nil in Hj|].
  rewrite fmap_cons in Hnd. apply NoDup_cons in Hnd as [Hfresh Hnd].
  cbn [fold_left]. apply elem_of_cons in Hj as [->|Hj].
  - rewrite fold_insert_other by exact Hfresh. apply lookup_insert_eq.
  - now apply IH.
Qed.

Lemma getJobs_ids_NoDup (t : Table) :
  keyed t -> NoDup (id <$> getJobs P t).
Proof.
  intros Ht. rewrite (getJobs_ids P t (rows t)) by reflexivity.
  unfold rows. rewrite <- list_fmap_compose.
  assert (Heq : (row_id ∘ snd) <$> map_to_list t = fst <$> map_to_list t).
  { apply list_fmap_ext. intros i [k row] Hi. cbn.
    apply list_elem_of_lookup_2, elem_of_map_to_list in Hi. exact (Ht k row Hi). }
  rewrite Heq. apply NoDup_fst_map_to_list.
Qed.

(** The cache that [loadInitialData] builds mirrors the table. *)
Lemma cacheOf_getJobs (t : Table) (k : string) :
  keyed t -> cacheOf (getJobs P t) !! k = Database.getJobById P k t.
Proof.
  intros Ht. unfold Database.getJobById. destruct (t !! k) as [row|] eqn:Hk; cbn.
  - assert (Hin : jobOfRow P row ∈ getJobs P t).
    { apply getJobs_from_row. now exists k, row. }
    rewrite <- (cacheOf_lookup_elem _ _ (getJobs_ids_NoDup t Ht) Hin).
    cbn [jobOfRow id]. now rewrite (Ht k row Hk).
  - unfold cacheOf. rewrite fold_insert_other; [apply lookup_empty|].
    intros Hin. apply list_elem_of_fmap in Hin as (j & -> & Hj).
    apply getJobs_from_row in Hj as (k' & row & Hk' & ->).
    cbn [jobOfRow id] in Hk. rewrite (Ht k' row Hk') in Hk. congruence.
Qed.

(** X18.  Started on a table that has rows and a last sync that is not
    stale, [loadInitialData] sends no request: it displays the rows in
    the order of [getJobs], rebuilds the memory cache so that each id
    reads as it does from the table, ends the loading state and leaves
    table and last-sync slot alone. *)
Theorem loadInitialData_from_store (r : Render) (σ : State) :
  readable env = true ->
  keyed (table σ) ->
  getJobs P (table σ) <> [] ->
  isDataStale (now env) (storage σ) = false ->
  jobs (loadInitialData P env r true σ) = getJobs P (table σ)
  /\ (forall k, jobsCache (loadInitialData P env r true σ) !! k
                = Database.getJobById P k (table σ))
  /\ requests (loadInitialData P env r true σ) = requests σ
  /\ table (loadInitialData P env r true σ) = table σ
  /\ storage (loadInitialData P env r true σ) = storage σ
  /\ isLoading (loadInitialData P env r true σ) = false
  /\ error (loadInitialData P env r true σ) = None.
Proof.
  intros Hr Hkeyed Hrows Hfresh. unfold loadInitialData. rewrite Hr.
  cbn [negb table storage setCategories setError setIsLoading].
  destruct (getJobs P (table σ)) as [|j l] eqn:E; [contradiction|].
  cbn [length Nat.eqb orb storage setJobsCache setJobs setCategories setError
       setIsLoading].
  rewrite Hfresh. cbn. repeat split; try reflexivity.
  intros k. rewrite <- E. now apply cacheOf_getJobs.
Qed.

Lemma refreshFromApi_ends_loading (r : Render) (show : bool) (σ : State) :
  isLoading (refreshFromApi P env r show σ) = false.
Proof.
  unfold refreshFromApi, refreshFromApi_states, catchRefresh.
  destruct (isConnected env); cbn [negb]; [|now destruct show].
  destruct (catalogue env) as [jobsData|e]; [|now destruct show, (r_jobs r)].
  destruct show, (r_jobs r);
    cbn [table setJobs setCategories send setIsOffline setIsRefreshing];
    destruct (saveJobs P (stamp env) jobsData (table σ)) as [u [[]|e]];
    reflexivity.
Qed.

(** X19.  Before the database is initialised [loadInitialData] does
    nothing.  Started on an empty table it refreshes whatever the last
    sync says: on a connected device whose catalogue is fetched and
    saved, it ends with that catalogue on display and in the table, one
    request sent and the loading state over. *)
Theorem loadInitialData_empty_store (r : Render) (σ : State) (jobsData : list Job)
  (t : Table) :
  loadInitialData P env r false σ = σ
  /\ (readable env = true ->
      table σ = ∅ ->
      isConnected env = true ->
      catalogue env = Resolved jobsData ->
      saveJobs P (stamp env) jobsData ∅ = (t, Resolved tt) ->
      jobs (loadInitialData P env r true σ) = jobsData
      /\ table (loadInitialData P env r true σ) = t
      /\ requests (loadInitialData P env r true σ) = requests σ ++ [FetchAll]
      /\ isLoading (loadInitialData P env r true σ) = false
      /\ error (loadInitialData P env r true σ) = None).
Proof.
  split; [reflexivity|].
  intros Hr Hempty Hc Hcat Hsave. unfold loadInitialData. rewrite Hr.
  cbn [negb table storage setCategories setError setIsLoading].
  rewrite Hempty. change (getJobs P ∅) with (@nil Job).
  cbn [length Nat.eqb orb].
  set (σ0 := setCategories Api.getCategories (setError None (setIsLoading true σ))).
  assert (Hs : saveJobs P (stamp env) jobsData (table σ0) = (t, Resolved tt)).
  { subst σ0. cbn [table setCategories setError setIsLoading]. now rewrite Hempty. }
  pose proof (refreshFromApi_ends_loading r false σ0) as Hloading.
  destruct (refreshFromApi_states_saved P env r false σ0 jobsData t Hc Hcat Hs)
    as (s0 & s1 & s2 & s3 & s4 & _ & Hend & _ & Ht4 & _ & _ & Hj4 & He4 & Hq4).
  rewrite Hend in *. repeat split; assumption.
Qed.

End StartupProperties.

Section StartupExamples.
Import JobsContext.

Lemma loadInitialData_from_store_witness :
  id <$> jobs (loadInitialData Sample.platform Sample.online firstRender true
                 Scenario.freshDevice)
  = ["b"; "c"; "a"]
  /\ requests (loadInitialData Sample.platform Sample.online firstRender true
                 Scenario.freshDevice) = [].
Proof.
  assert (Hempty : keyed ∅) by (intros k r Hk; now rewrite lookup_empty in Hk).
  destruct (reads_agree Sample.platform "2023-11-14T22:13:20.000Z"
              Sample.threeSummaries ∅ Hempty) as [Hkeyed _].
  destruct (loadInitialData_from_store Sample.platform Sample.online firstRender
              Scenario.freshDevice eq_refl Hkeyed)
    as (Hjobs & _ & Hreq & _).
  - vm_compute. discriminate.
  - reflexivity.
  - split; [rewrite Hjobs; vm_compute; reflexivity | exact Hreq].
Defined.

Lemma loadInitialData_empty_store_witness :
  jobs (loadInitialData Sample.platform
          (Sample.env true (Resolved Sample.threeSummaries)) firstRender true
          Sample.blank)
  = Sample.threeSummaries
  /\ table (loadInitialData Sample.platform
              (Sample.env true (Resolved Sample.threeSummaries)) firstRender true
              Sample.blank)
     = Scenario.threeRows.
Proof.
  destruct (loadInitialData_empty_store Sample.platform
              (Sample.env true (Resolved Sample.threeSummaries)) firstRender
              Sample.blank Sample.threeSummaries Scenario.threeRows)
    as [_ Hrefresh].
  destruct (Hrefresh eq_refl eq_refl eq_refl eq_refl eq_refl) as (Hjobs & Htable & _).
  split; [exact Hjobs | exact Htable].
Defined.

End StartupExamples.

(** ** Every run of the refresh ends its indicators *)

Section RefreshIndicators.
Import Database JobsContext.
Variable P : Platform.
Variable env : Env.

#[local] Arguments saveJobs : simpl never.

(** X20.  However a run of [refreshFromApi] goes (offline, failed fetch,
    failed save, success), it ends with the loading state over, and a run
    started with the refresh indicator ends with the indicator off. *)
Theorem refreshFromApi_ends_indicators (r : Render) (show : bool) (σ : State) :
  isLoading (refreshFromApi P env r show σ) = false
  /\ isRefreshing (refreshFromApi P env r true σ) = false
  /\ isRefreshing (refreshFromApi P env r false σ) = isRefreshing σ.
Proof.
  split; [apply refreshFromApi_ends_loading|].
  unfold refreshFromApi, refreshFromApi_states, catchRefresh.
  destruct (isConnected env); cbn [negb]; [|now split].
  destruct (catalogue env) as [jobsData|e]; [|now destruct (r_jobs r)].
  cbn [table setJobs setCategories send setIsOffline setIsRefreshing].
  destruct (r_jobs r), (saveJobs P (stamp env) jobsData (table σ)) as [u [[]|e]];
    now split.
Qed.

End RefreshIndicators.

(** ** A failed detail request and the memory cache *)

Section MockInCache.
Import JobsContext.
Variable P : Platform.

#[local] Arguments Database.saveJobs : simpl never.


End MockInCache.

Section MockInCacheExamples.
Import JobsContext.


End MockInCacheExamples.

Section DetailScreen.
Import JobsContext.
Variable P : Platform.
Variable env : Env.


End DetailScreen.
Section DetailScreenExamples.
Import JobsContext.


End DetailScreenExamples.

Section FilterProperties.
Import JobsScreen.
Variable toLowerCase : string -> string.

Lemma filter_stage (b : bool) (test : Job -> bool) (l : list Job) :
  sublist (if b then List.filter test l else l) l
  /\ forall j, j ∈ (if b then List.filter test l else l)
       <-> j ∈ l /\ (b = true -> test j = true).
Proof.
  destruct b.
  - split.
    + induction l as [|x l IH]; cbn [List.filter]; [constructor|].
      destruct (test x); now constructor.
    + intros j. rewrite !list_elem_of_In, filter_In. intuition.
  - split; [reflexivity|]. intros j. intuition. discriminate.
Qed.

Lemma when_stage (o : option string) (test : string -> Job -> bool) (l : list Job) :
  sublist (when_ o test l) l
  /\ forall j, j ∈ when_ o test l
       <-> j ∈ l /\ (forall v, o = Some v -> v <> "" -> test v j = true).
Proof.
  unfold when_.
  destruct (filter_stage (truthy_text o) (test (default "" o)) l) as [Hsub Hin].
  split; [exact Hsub|]. intros j. rewrite Hin.
  split; intros [Hj Ht]; (split; [exact Hj|]).
  - intros v -> Hv. apply Ht. cbn [truthy_text].
    destruct (String.eqb_spec v ""); [contradiction|reflexivity].
  - destruct o as [v|]; cbn [truthy_text]; [|discriminate].
    intros Hv. apply (Ht v eq_refl).
    destruct (String.eqb_spec v ""); [discriminate|assumption].
Qed.

(** X23.  With a non-empty catalogue the filter effect keeps exactly the
    jobs that pass every filter that is switched on: the search text, when
    not empty, is found in the lower-cased title, company or location;
    category, location and type, when set to a non-empty string, are
    equal to the job's; and with the featured filter on the job is
    featured.  The jobs kept stay in the catalogue's order. *)
Theorem filterEffect_selects (jobs : list Job) (searchQuery : string)
  (filters : FilterOptions) (filteredJobs : list Job) :
  jobs <> [] ->
  sublist (filterEffect toLowerCase jobs searchQuery filters filteredJobs) jobs
  /\ forall j,
       j ∈ filterEffect toLowerCase jobs searchQuery filters filteredJobs
       <-> j ∈ jobs /\ selected toLowerCase searchQuery filters j.
Proof.
  intros Hne. unfold filterEffect.
  destruct jobs as [|j0 rest]; [contradiction|].
  set (l := j0 :: rest).
  set (r1 := if truthy_text (Some searchQuery) then _ else l).
  destruct (filter_stage (truthy_text (Some searchQuery))
              (matchesQuery toLowerCase (toLowerCase searchQuery)) l) as [S1 I1].
  fold r1 in S1, I1.
  destruct (when_stage (f_category filters) hasCategory r1) as [S2 I2].
  destruct (when_stage (f_location filters) hasLocation
              (when_ (f_category filters) hasCategory r1)) as [S3 I3].
  destruct (when_stage (f_type filters) hasType
              (when_ (f_location filters) hasLocation
                 (when_ (f_category filters) hasCategory r1))) as [S4 I4].
  destruct (filter_stage (truthy_flag (f_featured filters)) isFeatured
              (when_ (f_type filters) hasType
                 (when_ (f_location filters) hasLocation
                    (when_ (f_category filters) hasCategory r1)))) as [S5 I5].
  split.
  - etrans; [exact S5|]. etrans; [exact S4|]. etrans; [exact S3|].
    etrans; [exact S2 | exact S1].
  - intros j. rewrite I5, I4, I3, I2, I1. unfold selected.
    assert (Hq : (truthy_text (Some searchQuery) = true
                  -> matchesQuery toLowerCase (toLowerCase searchQuery) j = true)
                 <-> (searchQuery <> ""
                      -> matchesQuery toLowerCase (toLowerCase searchQuery) j = true)).
    { cbn [truthy_text]. destruct (String.eqb_spec searchQuery ""); split; intros H H'.
      - contradiction.
      - discriminate.
      - now apply H.
      - now apply H. }
    assert (Hc : (forall v, f_category filters = Some v -> v <> "" -> hasCategory v j = true)
                 <-> (forall c, f_category filters = Some c -> c <> ""
                        -> category j = Some c)).
    { unfold hasCategory. split; intros H v Hv Hv'.
      - eapply bool_decide_eq_true_1, H; eassumption.
      - eapply bool_decide_eq_true_2, H; eassumption. }
    assert (Hl : (forall v, f_location filters = Some v -> v <> "" -> hasLocation v j = true)
                 <-> (forall v, f_location filters = Some v -> v <> ""
                        -> location j = v)).
    { unfold hasLocation. split; intros H v Hv Hv'.
      - apply String.eqb_eq, H; assumption.
      - apply String.eqb_eq, H; assumption. }
    assert (Ht : (forall v, f_type filters = Some v -> v <> "" -> hasType v j = true)
                 <-> (forall v, f_type filters = Some v -> v <> "" -> type j = v)).
    { unfold hasType. split; intros H v Hv Hv'.
      - apply String.eqb_eq, H; assumption.
      - apply String.eqb_eq, H; assumption. }
    assert (Hf : (truthy_flag (f_featured filters) = true -> isFeatured j = true)
                 <-> (f_featured filters = Some true
                      -> truthy_flag (featured j) = true)).
    { unfold isFeatured. split; intros H H'.
      - apply H. now rewrite H'.
      - apply H. destruct (f_featured filters) as [[|]|]; try discriminate H'.
        reflexivity. }
    rewrite Hq, Hc, Hl, Ht, Hf. tauto.
Qed.

End FilterProperties.
Section FilterExamples.
Import JobsScreen.

Lemma filterEffect_selects_witness :
  filterEffect Scenario.lower Sample.threeSummaries "ART"
    {| f_category := None; f_location := Some ""; f_type := None;
       f_featured := None |} []
  <> []
  /\ sublist
       (filterEffect Scenario.lower Sample.threeSummaries "ART"
          {| f_category := None; f_location := Some ""; f_type := None;
             f_featured := None |} [])
       Sample.threeSummaries.
Proof.
  split; [vm_compute; discriminate|].
  apply (filterEffect_selects Scenario.lower Sample.threeSummaries "ART"
           {| f_category := None; f_location := Some ""; f_type := None;
              f_featured := None |} []).
  discriminate.
Defined.

End FilterExamples.

Section PostedTime.
Import JobDetailsScreen.
Variable Date_parse : string -> option Z.

(** The text of a number never starts like one of the fixed labels. *)
Lemma toString_app_head (z : Z) (suffix : string) :
  exists c rest,
    toString z +:+ suffix = String c rest
    /\ c <> "J"%char /\ c <> "T"%char /\ c <> "Y"%char /\ c <> "R"%char.
Proof.
  unfold toString. destruct z as [|p|p]; cbn [Z.to_int NilZero.string_of_int].
  - do 2 eexists. split; [reflexivity|]. repeat split; discriminate.
  - pose proof (DecimalPos.Unsigned.to_uint_nonnil p) as Hp.
    unfold NilZero.string_of_uint.
    destruct (Pos.to_uint p); try congruence;
      (do 2 eexists; split; [reflexivity|]; repeat split; discriminate).
  - do 2 eexists. split; [reflexivity|]. repeat split; discriminate.
Qed.

Lemma numbered_label (z : Z) (suffix : string) :
  toString z +:+ suffix <> "Just now"
  /\ toString z +:+ suffix <> "Today"
  /\ toString z +:+ suffix <> "Yesterday"
  /\ toString z +:+ suffix <> "Recently".
Proof.
  destruct (toString_app_head z suffix) as (c & rest & -> & HJ & HT & HY & HR).
  repeat split; intros H; injection H as H _; contradiction.
Qed.

(** X24.  For a posting date that is present and valid, [getPostedTime]
    never answers "Today" (the hour tests before it cover every case in
    which the day count is zero) nor "Recently"; it answers "Just now"
    exactly when the date is less than an hour from the clock, in either
    direction, and "Yesterday" exactly when it is at least one and less
    than two days away. *)
Theorem getPostedTime_labels (now t : Z) (postedDate : DateField) :
  postedDate <> DateText "" ->
  timeOf Date_parse postedDate = Some t ->
  getPostedTime Date_parse now postedDate <> "Today"
  /\ getPostedTime Date_parse now postedDate <> "Recently"
  /\ (getPostedTime Date_parse now postedDate = "Just now"
      <-> Z.abs (now - t) < 3600000)
  /\ (getPostedTime Date_parse now postedDate = "Yesterday"
      <-> 86400000 <= Z.abs (now - t) < 172800000).
Proof.
  intros Hne Ht.
  assert (E : getPostedTime Date_parse now postedDate
              = let diffTime := Z.abs (now - t) in
                let diffDays := diffTime / 86400000 in
                let diffHours := diffTime / 3600000 in
                if diffHours <? 1 then "Just now"
                else if diffHours <? 24 then toString diffHours +:+ "h ago"
                else if diffDays =? 0 then "Today"
                else if diffDays =? 1 then "Yesterday"
                else if diffDays <? 7 then toString diffDays +:+ "d ago"
                else if diffDays <? 30 then toString (diffDays / 7) +:+ "w ago"
                else if diffDays <? 365 then toString (diffDays / 30) +:+ "mo ago"
                else toString (diffDays / 365) +:+ "y ago").
  { unfold getPostedTime. destruct postedDate as [text|ms].
    - destruct text as [|c text]; [contradiction|]. now rewrite Ht.
    - now rewrite Ht. }
  rewrite E. clear E. cbv zeta.
  pose proof (Z.abs_nonneg (now - t)) as Hd.
  set (d := Z.abs (now - t)) in *.
  pose proof (Z.div_mod d 3600000 ltac:(lia)) as Hh.
  pose proof (Z.mod_pos_bound d 3600000 ltac:(lia)) as Hhm.
  pose proof (Z.div_mod d 86400000 ltac:(lia)) as Hy.
  pose proof (Z.mod_pos_bound d 86400000 ltac:(lia)) as Hym.
  destruct (Z.ltb_spec (d / 3600000) 1) as [H1|H1].
  { repeat split; try discriminate; intros; lia. }
  destruct (Z.ltb_spec (d / 3600000) 24) as [H24|H24].
  { destruct (numbered_label (d / 3600000) "h ago") as (A & B & C & D).
    repeat split; try assumption; try (intros; contradiction); intros; lia. }
  destruct (Z.eqb_spec (d / 86400000) 0) as [D0|D0]; [lia|].
  destruct (Z.eqb_spec (d / 86400000) 1) as [D1|D1].
  { repeat split; try discriminate; intros; lia. }
  destruct (Z.ltb_spec (d / 86400000) 7) as [D7|D7].
  { destruct (numbered_label (d / 86400000) "d ago") as (A & B & C & D).
    repeat split; try assumption; try (intros; contradiction); intros; lia. }
  destruct (Z.ltb_spec (d / 86400000) 30) as [D30|D30].
  { destruct (numbered_label (d / 86400000 / 7) "w ago") as (A & B & C & D).
    repeat split; try assumption; try (intros; contradiction); intros; lia. }
  destruct (Z.ltb_spec (d / 86400000) 365) as [D365|D365].
  { destruct (numbered_label (d / 86400000 / 30) "mo ago") as (A & B & C & D).
    repeat split; try assumption; try (intros; contradiction); intros; lia. }
  destruct (numbered_label (d / 86400000 / 365) "y ago") as (A & B & C & D).
  repeat split; try assumption; try (intros; contradiction); intros; lia.
Qed.

End PostedTime.
Section PostedTimeExamples.
Import JobDetailsScreen.

Lemma getPostedTime_labels_witness :
  getPostedTime (fun _ => None) 1700000000000 (DateObj 1699999000000) = "Just now"
  /\ getPostedTime (fun _ => None) 1700000000000 (DateObj 1699999000000) <> "Today".
Proof.
  destruct (getPostedTime_labels (fun _ => None) 1700000000000 1699999000000
              (DateObj 1699999000000) ltac:(discriminate) eq_refl)
    as (Htoday & _ & Hnow & _).
  split; [|exact Htoday]. apply Hnow. vm_compute. reflexivity.
Defined.

End PostedTimeExamples.

Section RatingProperties.
Import Database AppRating.

Lemma increment_available (a : AsyncStorage) (c : Z) :
  available a = true ->
  items a !! RATED_KEY <> Some "true" ->
  items a !! APP_OPENS_KEY = Some (toString c) ->
  incrementAppOpenCount a
  = ({| items := <[APP_OPENS_KEY := toString (c + 1)]> (items a); available := true |},
     Num (c + 1)).
Proof.
  intros Ha Hr Hc. unfold incrementAppOpenCount, getItem, setItem. rewrite Ha.
  destruct (decide (items a !! RATED_KEY = Some "true")) as [E|_]; [contradiction|].
  rewrite Hc, toString_nonempty. unfold default. cbn [from_option]. unfold Datatypes.id.
  rewrite parseInt_toString. cbn [plusOne numberToString]. reflexivity.
Qed.

Lemma increment_first (a : AsyncStorage) :
  available a = true ->
  items a !! RATED_KEY <> Some "true" ->
  items a !! APP_OPENS_KEY = None ->
  incrementAppOpenCount a
  = ({| items := <[APP_OPENS_KEY := toString 1]> (items a); available := true |},
     Num 1).
Proof.
  intros Ha Hr Hc. unfold incrementAppOpenCount, getItem, setItem. rewrite Ha.
  destruct (decide (items a !! RATED_KEY = Some "true")) as [E|_]; [contradiction|].
  rewrite Hc. reflexivity.
Qed.

Lemma opens_S (n : nat) (a : AsyncStorage) :
  opens (S n) a = fst (incrementAppOpenCount (opens n a)).
Proof. reflexivity. Qed.

(** The storage after [n] counted starts of a device that never rated. *)
Lemma opens_counts (n : nat) (a : AsyncStorage) :
  available a = true ->
  items a !! RATED_KEY <> Some "true" ->
  items a !! APP_OPENS_KEY = None ->
  available (opens n a) = true
  /\ items (opens n a) !! RATED_KEY = items a !! RATED_KEY
  /\ items (opens n a) !! LAST_PROMPT_DATE_KEY = items a !! LAST_PROMPT_DATE_KEY
  /\ items (opens n a) !! APP_OPENS_KEY
     = match n with
       | O => None
       | S _ => Some (toString (Z.of_nat n))
       end.
Proof.
  intros Ha Hr Hc. induction n as [|n (IHa & IHr & IHl & IHc)].
  - repeat split; assumption.
  - rewrite opens_S. destruct n as [|n].
    + rewrite (increment_first (opens 0 a) IHa ltac:(now rewrite IHr) IHc).
      cbn [fst items available]. repeat split.
      * rewrite lookup_insert_ne by discriminate. exact IHr.
      * rewrite lookup_insert_ne by discriminate. exact IHl.
      * now rewrite lookup_insert_eq.
    + rewrite (increment_available (opens (S n) a) (Z.of_nat (S n)) IHa
                 ltac:(now rewrite IHr) IHc).
      cbn [fst items available]. repeat split.
      * rewrite lookup_insert_ne by discriminate. exact IHr.
      * rewrite lookup_insert_ne by discriminate. exact IHl.
      * rewrite lookup_insert_eq. do 2 f_equal. lia.
Qed.

(** X25.  On a device whose storage works, that never rated and never
    postponed, with no counter yet: the start of the list screen that
    follows [n] earlier ones leaves the text of [n + 1] in the counter
    slot, and it raises the rating prompt exactly when it is the fifth
    start or a later one; a prompt already raised stays. *)
Theorem prompt_due_from_fifth_open (now : Z) (n : nat) (a : AsyncStorage)
  (showRatingPrompt : bool) :
  available a = true ->
  items a !! RATED_KEY <> Some "true" ->
  items a !! APP_OPENS_KEY = None ->
  items a !! LAST_PROMPT_DATE_KEY = None ->
  fst (JobsScreen.trackAppOpen now (opens n a) showRatingPrompt) = opens (S n) a
  /\ items (opens (S n) a) !! APP_OPENS_KEY = Some (toString (Z.of_nat (S n)))
  /\ snd (JobsScreen.trackAppOpen now (opens n a) showRatingPrompt)
     = (showRatingPrompt || (5 <=? S n)%nat)%bool.
Proof.
  intros Ha Hr Hc Hl.
  destruct (opens_counts (S n) a Ha Hr Hc) as (Oa & Or & Ol & Oc).
  split; [reflexivity|]. split; [exact Oc|].
  unfold JobsScreen.trackAppOpen. cbn [snd]. rewrite <- opens_S.
  unfold shouldShowRatingPrompt, getItem. rewrite Oa.
  destruct (decide (items (opens (S n) a) !! RATED_KEY = Some "true")) as [E|_];
    [rewrite Or in E; contradiction|].
  rewrite Oc, toString_nonempty. unfold default. cbn [from_option]. unfold Datatypes.id.
  rewrite parseInt_toString. cbn [lessThan]. unfold OPENS_THRESHOLD.
  rewrite Ol, Hl. cbn [truthy_text].
  destruct (Z.ltb_spec (Z.of_nat (S n)) 5) as [H|H];
    destruct (Nat.leb_spec 5 (S n)) as [H'|H']; try lia;
    destruct showRatingPrompt; reflexivity.
Qed.

End RatingProperties.
Section RatingExamples.
Import Database AppRating.

Lemma prompt_due_from_fifth_open_witness :
  snd (JobsScreen.trackAppOpen 1700000000000 (opens 3 Sample.emptyStorage) false)
  = false
  /\ snd (JobsScreen.trackAppOpen 1700000000000 (opens 4 Sample.emptyStorage) false)
     = true.
Proof.
  split.
  - destruct (prompt_due_from_fifth_open 1700000000000 3 Sample.emptyStorage false
                eq_refl ltac:(discriminate) eq_refl eq_refl) as (_ & _ & H).
    exact H.
  - destruct (prompt_due_from_fifth_open 1700000000000 4 Sample.emptyStorage false
                eq_refl ltac:(discriminate) eq_refl eq_refl) as (_ & _ & H).
    exact H.
Defined.

End RatingExamples.

Section RatingDecisions.
Import Database AppRating.

(** X26.  Once [markAppAsRated] has run on a working storage the device
    is left alone: further starts of the list screen neither change the
    storage (the counter is frozen) nor raise the prompt, whatever the
    counter and the clock say. *)
Theorem rated_device_is_left_alone (now : Z) (n : nat) (a : AsyncStorage)
  (showRatingPrompt : bool) :
  available a = true ->
  opens n (markAppAsRated a) = markAppAsRated a
  /\ JobsScreen.trackAppOpen now (markAppAsRated a) showRatingPrompt
     = (markAppAsRated a, showRatingPrompt).
Proof.
  intros Ha.
  assert (Hinc : incrementAppOpenCount (markAppAsRated a) = (markAppAsRated a, Num 0)).
  { unfold markAppAsRated, incrementAppOpenCount, getItem, setItem. rewrite Ha.
    cbn [fst available items]. rewrite lookup_insert_eq.
    destruct (decide (Some "true" = Some "true")); [reflexivity|congruence]. }
  split.
  - induction n as [|n IH]; [reflexivity|].
    rewrite opens_S, IH, Hinc. reflexivity.
  - unfold JobsScreen.trackAppOpen. rewrite Hinc. cbn [fst]. f_equal.
    unfold markAppAsRated, shouldShowRatingPrompt, getItem, setItem. rewrite Ha.
    cbn [fst available items]. rewrite lookup_insert_eq.
    destruct (decide (Some "true" = Some "true")); [reflexivity|congruence].
Qed.

(** X27.  "Remind me later": on a working storage of a device that has
    not rated and whose counter holds the text of a number of at least
    five, after [markRatingPostponed] ran at time [t] the prompt is due
    at time [now] exactly when fourteen days of milliseconds have passed
    since [t]. *)
Theorem postponed_for_fourteen_days (now t c : Z) (a : AsyncStorage) :
  available a = true ->
  items a !! RATED_KEY <> Some "true" ->
  items a !! APP_OPENS_KEY = Some (toString c) ->
  5 <= c ->
  shouldShowRatingPrompt now (markRatingPostponed t a)
  = (1209600000 <=? now - t).
Proof.
  intros Ha Hr Hc H5.
  unfold markRatingPostponed, shouldShowRatingPrompt, getItem, setItem. rewrite Ha.
  cbn [fst available items].
  rewrite (lookup_insert_ne (items a) LAST_PROMPT_DATE_KEY RATED_KEY) by discriminate.
  destruct (decide (items a !! RATED_KEY = Some "true")) as [E|_]; [contradiction|].
  rewrite (lookup_insert_ne (items a) LAST_PROMPT_DATE_KEY APP_OPENS_KEY) by discriminate.
  rewrite Hc, toString_nonempty. unfold default. cbn [from_option]. unfold Datatypes.id.
  rewrite parseInt_toString. cbn [lessThan]. unfold OPENS_THRESHOLD.
  destruct (Z.ltb_spec c 5) as [H|_]; [lia|].
  rewrite lookup_insert_eq, toString_nonempty. cbn [from_option].
  rewrite parseInt_toString. unfold promptedRecently, DAYS_BETWEEN_PROMPTS.
  cbn [lessThan]. change (14 * (1000 * 60 * 60 * 24)) with 1209600000.
  destruct (Z.ltb_spec (now - t) 1209600000) as [H|H];
    destruct (Z.leb_spec 1209600000 (now - t)) as [H'|H']; try reflexivity; lia.
Qed.

(** X28.  The two testing helpers on a working storage, whatever it held:
    after [forceRatingPrompt] the prompt is due at once, also on a device
    that had rated or postponed; after [resetRatingData] the prompt is not
    due and the next start counts as the first. *)
Theorem force_and_reset (now : Z) (a : AsyncStorage) :
  available a = true ->
  shouldShowRatingPrompt now (forceRatingPrompt a) = true
  /\ shouldShowRatingPrompt now (resetRatingData a) = false
  /\ snd (incrementAppOpenCount (resetRatingData a)) = Num 1.
Proof.
  intros Ha. split; [|split].
  - unfold forceRatingPrompt, removeItem, setItem. rewrite Ha.
    cbn [fst available items].
    unfold shouldShowRatingPrompt, getItem. cbn [available items].
    rewrite lookup_delete_eq.
    destruct (decide (None = Some "true")) as [E|_]; [discriminate|].
    rewrite (lookup_delete_ne _ RATED_KEY APP_OPENS_KEY) by discriminate.
    rewrite (lookup_delete_ne _ LAST_PROMPT_DATE_KEY APP_OPENS_KEY) by discriminate.
    rewrite lookup_insert_eq, toString_nonempty.
    unfold default. cbn [from_option]. unfold Datatypes.id.
    rewrite parseInt_toString. cbn [lessThan]. unfold OPENS_THRESHOLD.
    change (5 <? 5) with false. cbv iota.
    rewrite (lookup_delete_ne _ RATED_KEY LAST_PROMPT_DATE_KEY) by discriminate.
    rewrite lookup_delete_eq. reflexivity.
  - unfold resetRatingData, multiRemove. rewrite Ha. cbn [fst fold_left].
    unfold shouldShowRatingPrompt, getItem. cbn [available items].
    rewrite (lookup_delete_ne _ LAST_PROMPT_DATE_KEY RATED_KEY) by discriminate.
    rewrite (lookup_delete_ne _ DECLINED_KEY RATED_KEY) by discriminate.
    rewrite lookup_delete_eq.
    destruct (decide (None = Some "true")) as [E|_]; [discriminate|].
    rewrite (lookup_delete_ne _ LAST_PROMPT_DATE_KEY APP_OPENS_KEY) by discriminate.
    rewrite (lookup_delete_ne _ DECLINED_KEY APP_OPENS_KEY) by discriminate.
    rewrite (lookup_delete_ne _ RATED_KEY APP_OPENS_KEY) by discriminate.
    rewrite lookup_delete_eq. reflexivity.
  - unfold resetRatingData, multiRemove. rewrite Ha. cbn [fst fold_left].
    unfold incrementAppOpenCount, getItem, setItem. cbn [available items].
    rewrite (lookup_delete_ne _ LAST_PROMPT_DATE_KEY RATED_KEY) by discriminate.
    rewrite (lookup_delete_ne _ DECLINED_KEY RATED_KEY) by discriminate.
    rewrite lookup_delete_eq.
    destruct (decide (None = Some "true")) as [E|_]; [discriminate|].
    rewrite (lookup_delete_ne _ LAST_PROMPT_DATE_KEY APP_OPENS_KEY) by discriminate.
    rewrite (lookup_delete_ne _ DECLINED_KEY APP_OPENS_KEY) by discriminate.
    rewrite (lookup_delete_ne _ RATED_KEY APP_OPENS_KEY) by discriminate.
    rewrite lookup_delete_eq. reflexivity.
Qed.

(** X29.  When the storage fails every function of the rating service
    swallows the failure: the storage is as it was, the count answered is
    [0], the prompt is not due, and a start of the list screen leaves the
    prompt cell as it was. *)
Theorem rating_storage_failure_is_silent (now t : Z) (a : AsyncStorage)
  (showRatingPrompt : bool) :
  available a = false ->
  JobsScreen.trackAppOpen now a showRatingPrompt = (a, showRatingPrompt)
  /\ incrementAppOpenCount a = (a, Num 0)
  /\ shouldShowRatingPrompt now a = false
  /\ markAppAsRated a = a
  /\ markRatingPostponed t a = a
  /\ resetRatingData a = a
  /\ forceRatingPrompt a = a.
Proof.
  intros Ha.
  assert (Hinc : incrementAppOpenCount a = (a, Num 0)).
  { unfold incrementAppOpenCount, getItem. now rewrite Ha. }
  assert (Hshow : shouldShowRatingPrompt now a = false).
  { unfold shouldShowRatingPrompt, getItem. now rewrite Ha. }
  repeat split; try assumption.
  - unfold JobsScreen.trackAppOpen. rewrite Hinc. cbn [fst]. now rewrite Hshow.
  - unfold markAppAsRated, setItem. now rewrite Ha.
  - unfold markRatingPostponed, setItem. now rewrite Ha.
  - unfold resetRatingData, multiRemove. now rewrite Ha.
  - unfold forceRatingPrompt, setItem. now rewrite Ha.
Qed.

End RatingDecisions.
Section RatingDecisionsExamples.
Import Database AppRating.

Lemma rated_device_is_left_alone_witness :
  opens 7 (markAppAsRated Sample.emptyStorage) = markAppAsRated Sample.emptyStorage
  /\ snd (JobsScreen.trackAppOpen 1700000000000
            (markAppAsRated (opens 9 Sample.emptyStorage)) false) = false.
Proof.
  split.
  - destruct (rated_device_is_left_alone 0 7 Sample.emptyStorage false eq_refl)
      as [H _].
    exact H.
  - destruct (rated_device_is_left_alone 1700000000000 0
                (opens 9 Sample.emptyStorage) false eq_refl) as [_ H].
    now rewrite H.
Defined.

Lemma postponed_for_fourteen_days_witness :
  shouldShowRatingPrompt (1700000000000 + 1209599999)
    (markRatingPostponed 1700000000000 (opens 5 Sample.emptyStorage)) = false
  /\ shouldShowRatingPrompt (1700000000000 + 1209600000)
       (markRatingPostponed 1700000000000 (opens 5 Sample.emptyStorage)) = true.
Proof.
  split.
  - rewrite (postponed_for_fourteen_days (1700000000000 + 1209599999) 1700000000000 5
               (opens 5 Sample.emptyStorage) eq_refl ltac:(discriminate) eq_refl
               ltac:(lia)).
    reflexivity.
  - rewrite (postponed_for_fourteen_days (1700000000000 + 1209600000) 1700000000000 5
               (opens 5 Sample.emptyStorage) eq_refl ltac:(discriminate) eq_refl
               ltac:(lia)).
    reflexivity.
Defined.

Lemma force_and_reset_witness :
  shouldShowRatingPrompt 1700000000000
    (forceRatingPrompt (markAppAsRated Sample.emptyStorage)) = true
  /\ shouldShowRatingPrompt 1700000000000
       (resetRatingData (opens 9 Sample.emptyStorage)) = false.
Proof.
  split.
  - destruct (force_and_reset 1700000000000 (markAppAsRated Sample.emptyStorage)
                eq_refl) as (H & _).
    exact H.
  - destruct (force_and_reset 1700000000000 (opens 9 Sample.emptyStorage) eq_refl)
      as (_ & H & _).
    exact H.
Defined.

Lemma rating_storage_failure_is_silent_witness :
  JobsScreen.trackAppOpen 1700000000000 Scenario.brokenStorage true
  = (Scenario.brokenStorage, true)
  /\ forceRatingPrompt Scenario.brokenStorage = Scenario.brokenStorage.
Proof.
  destruct (rating_storage_failure_is_silent 1700000000000 0 Scenario.brokenStorage
              true eq_refl) as (H & _ & _ & _ & _ & _ & H').
  split; [exact H | exact H'].
Defined.

End RatingDecisionsExamples.

Section AdUnits.
Import AdHelpers.
Variable DEV : bool.
Variable testIds : list string.
Variable emulator : bool.

(** X30.  An ad unit id chosen by [getAdUnitId] from a test id for
    development and an id of the app's own for production never draws
    one of the two id complaints of [checkCommonAdIssues]: the only issue
    such a unit can be reported with is the one about production ads on
    an emulator, and it is reported exactly on an emulator running a
    production build. *)
Theorem chosen_ad_unit_issues (adType devId prodId : string) :
  devId ∈ testIds ->
  prodId ∉ testIds ->
  checkCommonAdIssues DEV testIds emulator adType (getAdUnitId DEV devId prodId)
  = if emulator && negb DEV
    then ["Testing production ads on emulator - use a real device"]
    else [].
Proof.
  intros Hdev Hprod. unfold checkCommonAdIssues, getAdUnitId, isTestAdUnitId.
  destruct DEV; cbn [negb andb].
  - rewrite (bool_decide_eq_true_2 _ Hdev). cbn [negb app].
    now rewrite andb_false_r.
  - rewrite (bool_decide_eq_false_2 _ Hprod). reflexivity.
Qed.

End AdUnits.
Section AdUnitsExamples.
Import AdHelpers.

Lemma chosen_ad_unit_issues_witness :
  checkCommonAdIssues false ["ca-app-pub-3940256099942544/6300978111"] false "Banner"
    (getAdUnitId false "ca-app-pub-3940256099942544/6300978111"
       "ca-app-pub-9773068853653447/2004924181")
  = [].
Proof.
  apply (chosen_ad_unit_issues false ["ca-app-pub-3940256099942544/6300978111"] false
           "Banner" "ca-app-pub-3940256099942544/6300978111"
           "ca-app-pub-9773068853653447/2004924181").
  - apply list_elem_of_singleton. reflexivity.
  - intros H. apply list_elem_of_singleton in H. discriminate H.
Defined.

End AdUnitsExamples.
